(** * ImageColorspaceModifier: the colour-channel engine and its front ends

    A shallow embedding of the repository's Python code:
    - [Engine]  : src/src/convert.py  (class ColorspaceModifier)
    - [Cli]     : src/src/cli.py      (first_index, run_commands, main)
    - [Api]     : src/api/main.py     (parse_file, do_operation, api_operation,
                                       api_operations)
    - [Legacy]  : src/convert.py      (class ImageEditor and the option tables)

    Python floats are IEEE-754 binary64 numbers, modelled by Rocq's primitive
    floats, so that every byte-level fact below is the one the interpreter
    computes.  Python exceptions are values of [exn]; a method that mutates
    its object is a function of the state monad [M], whose state survives an
    exception exactly as a Python object keeps the assignments made before a
    [raise]. *)

From Stdlib Require Import ZArith List String Ascii Bool Floats Lia.
From stdpp Require Import base option list strings gmap.
Import ListNotations.

Open Scope Z_scope.
Open Scope string_scope.

(** ** Python values, exceptions and the state-and-exception monad *)

Module Py.

(** The dynamically typed values that reach the engine as parameters or that
    are interpolated into an error message. *)
#[warnings="-register-all"]
Inductive pyval :=
| PyNone
| PyStr (s : string)
| PyFloat (x : float)
| PyInt (z : Z)
| PyBool (b : bool)
| PyTuple (items : list pyval)
| PyList (items : list pyval).

(** An exception with the literal part of its message and the interpolated
    value, e.g. [ValueError "Invalid clamp mode" (PyStr "mid")] for
    [ValueError(f'Invalid clamp mode {mode}')]. *)
Inductive exn :=
| ValueError (msg : string) (arg : pyval)
| KeyError (key : pyval)
| TypeError (msg : string)
| IndexError (msg : string)
| AttributeError (msg : string)
| FileNotFoundError (path : string)
| UnsupportedOperation (op : string)
| OSError (msg : string)
| OverflowError (msg : string)
| HTTPException (status_code : Z) (detail : string)
| NotImplementedException
| SystemExit (code : Z).

Inductive result (A : Type) :=
| Ok (a : A)
| Raise (e : exn).
Arguments Ok {A} a.
Arguments Raise {A} e.

Definition is_ok {A} (r : result A) : bool :=
  match r with Ok _ => true | Raise _ => false end.

Definition M (S A : Type) : Type := S -> result A * S.

Definition ret {S A} (a : A) : M S A := fun s => (Ok a, s).

Definition bind {S A B} (m : M S A) (k : A -> M S B) : M S B :=
  fun s => match m s with
           | (Ok a, s') => k a s'
           | (Raise e, s') => (Raise e, s')
           end.

Definition raise {S A} (e : exn) : M S A := fun s => (Raise e, s).

Definition gets {S A} (f : S -> A) : M S A := fun s => (Ok (f s), s).

Definition modify {S} (f : S -> S) : M S unit := fun s => (Ok tt, f s).

(** A pure computation that may raise, run inside a method. *)
Definition lift {S A} (r : result A) : M S A := fun s => (r, s).

(** [try: ... except: pass] is not used by the code; a loop body that raises
    ends the loop, as [bind] does. *)
Fixpoint for_each {S A} (l : list A) (body : A -> M S unit) : M S unit :=
  match l with
  | [] => ret tt
  | x :: l' => bind (body x) (fun _ => for_each l' body)
  end.

Definition outcome {S A} (p : result A * S) : result A := fst p.
Definition state_after {S A} (p : result A * S) : S := snd p.

(** *** Strings

    A text is the sequence of its characters, one [ascii] each.  For a text
    of ASCII characters (codes below 128) this is the Python [str]: [len]
    is [String.length], and [str.upper] and [str.lower] change the 26
    letters and nothing else, as [upper] and [lower] below do.  For other
    texts Python counts code points and maps case by the Unicode tables,
    which can change the length of the text; [upper], [lower] and
    [String.length] do not describe that.  The names and tables of the
    code are ASCII; a statement about what the code does with a text that
    the caller supplies, where it depends on the case or the length of the
    text, assumes [is_ascii] of it. *)

Definition is_ascii_char (c : ascii) : bool := (nat_of_ascii c <? 128)%nat.

Fixpoint is_ascii (s : string) : bool :=
  match s with
  | EmptyString => true
  | String c s' => is_ascii_char c && is_ascii s'
  end.

Definition upper_ascii (c : ascii) : ascii :=
  let n := nat_of_ascii c in
  if ((97 <=? n) && (n <=? 122))%nat then ascii_of_nat (n - 32) else c.

Definition lower_ascii (c : ascii) : ascii :=
  let n := nat_of_ascii c in
  if ((65 <=? n) && (n <=? 90))%nat then ascii_of_nat (n + 32) else c.

Fixpoint str_map (f : ascii -> ascii) (s : string) : string :=
  match s with
  | EmptyString => EmptyString
  | String c s' => String (f c) (str_map f s')
  end.

(** [s.upper()] and [s.lower()] on an ASCII text. *)
Definition upper : string -> string := str_map upper_ascii.
Definition lower : string -> string := str_map lower_ascii.

(** [sub in s] on strings: substring search. *)
Definition str_in (sub s : string) : bool :=
  match String.index 0 sub s with Some _ => true | None => false end.

(** [s.index(sub)]: the position, or ValueError. *)
Definition str_index (sub s : string) : result nat :=
  match String.index 0 sub s with
  | Some i => Ok i
  | None => Raise (ValueError "substring not found" (PyStr sub))
  end.

Definition startswith (s p : string) : bool := String.prefix p s.

Definition endswith (s p : string) : bool :=
  let n := String.length s in
  let k := String.length p in
  (k <=? n)%nat && String.eqb (substring (n - k) k s) p.

(** [x in l] on a list of strings. *)
Definition str_mem (x : string) (l : list string) : bool :=
  existsb (String.eqb x) l.

(** A list, or a tuple that holds one, cannot be a key. *)
Fixpoint hashable (v : pyval) : bool :=
  match v with
  | PyList _ => false
  | PyTuple items => forallb hashable items
  | _ => true
  end.

(** [d[k]] and [k in d] on a dict written as a literal with string keys; a
    hashable key of another type is never found. *)
Fixpoint assoc {V} (k : string) (d : list (string * V)) : option V :=
  match d with
  | [] => None
  | (k', v) :: d' => if String.eqb k k' then Some v else assoc k d'
  end.

Definition dict_get {V} (d : list (string * V)) (k : pyval) : result V :=
  match k with
  | PyStr s => match assoc s d with Some v => Ok v | None => Raise (KeyError k) end
  | _ => if hashable k then Raise (KeyError k) else Raise (TypeError "unhashable type")
  end.

Definition dict_has {V} (d : list (string * V)) (k : pyval) : bool :=
  match k with
  | PyStr s => match assoc s d with Some _ => true | None => false end
  | _ => false
  end.

(** [k in d] for a key that may be unhashable. *)
Definition dict_contains {V} (d : list (string * V)) (k : pyval) : result bool :=
  if hashable k then Ok (dict_has d k) else Raise (TypeError "unhashable type").

(** [s.split(sep)] for a one-character separator. *)
Fixpoint split_on (sep : ascii) (s : string) : list string :=
  match s with
  | EmptyString => [EmptyString]
  | String c s' =>
      if Ascii.eqb c sep then EmptyString :: split_on sep s'
      else match split_on sep s' with
           | [] => [String c EmptyString]
           | w :: ws => String c w :: ws
           end
  end.

(** [s[i:j]] for indices within the string. *)
Definition slice (i j : nat) (s : string) : string := substring i (j - i) s.

End Py.
Import Py.

Declare Scope py_scope.
Delimit Scope py_scope with py.
Notation "'let*' x ':=' m 'in' k" := (bind m (fun x => k))
  (at level 10, x pattern, m at level 100, k at level 200) : py_scope.
Notation "m1 ';;' m2" := (bind m1 (fun _ => m2))
  (at level 100, m2 at level 200, right associativity) : py_scope.
Open Scope py_scope.

(** ** Floating point: what numpy computes on one element *)

Module Numeric.

Definition of_Z (z : Z) : float := PrimFloat.of_uint63 (Uint63.of_Z z).

(** Truncation towards zero of a finite float ([None] for NaN and the
    infinities), read off the sign, mantissa and exponent. *)
Definition trunc (f : float) : option Z :=
  match Prim2SF f with
  | S754_zero _ => Some 0
  | S754_finite s m e =>
      let a := match e with
               | Z0 => Zpos m
               | Zpos p => Z.shiftl (Zpos m) (Zpos p)
               | Zneg p => Z.shiftr (Zpos m) (Zpos p)
               end in
      Some (if s then - a else a)
  | S754_infinity _ | S754_nan => None
  end.

(** numpy's [fmin] and [fmax] inner loops:
    [(in1 <= in2 || isnan(in2)) ? in1 : in2] and the same with [>=]. *)
Definition fmin (x y : float) : float :=
  if (x <=? y)%float || is_nan y then x else y.

Definition fmax (x y : float) : float :=
  if (y <=? x)%float || is_nan y then x else y.

(** [0 <= x <= 1] as IEEE comparisons (false for NaN). *)
Definition in_unit (x : float) : bool :=
  ((0 <=? x) && (x <=? 1))%float.

Definition is_byte (b : Z) : bool := ((0 <=? b) && (b <=? 255))%Z.

End Numeric.
Import Numeric.

(** ** The libraries the code calls: Pillow and numpy

    Their behaviour is an interface of the development.  What the engine
    relies on structurally (bands, modes, the container format an image
    remembers) is written out; what is numerics or codec work of the library
    (mode conversion, the reductions, decoding and encoding a container) is a
    method of the interface. *)

Module Lib.

(** One channel plane: the bytes of a single-band image, row after row. *)
Abbreviation plane := (list Z).

Abbreviation bytes := string.

(** A PIL image: [Image.format] (None for an image that was not read from a
    container), [Image.mode], and one plane per band. *)
Record Image := {
  im_format : option string;
  im_mode : string;
  im_bands : list plane
}.

(** [Image.getmodebands] on the modes Pillow can hold in memory. *)
Definition MODES : list (string * nat) :=
  [("1", 1); ("L", 1); ("P", 1); ("I", 1); ("F", 1); ("LA", 2); ("PA", 2);
   ("RGB", 3); ("HSV", 3); ("YCbCr", 3); ("LAB", 3);
   ("RGBA", 4); ("RGBX", 4); ("CMYK", 4); ("RGBa", 4); ("La", 2)]%nat.

Definition getmodebands (mode : string) : result nat :=
  match assoc mode MODES with
  | Some n => Ok n
  | None => Raise (KeyError (PyStr mode))
  end.

(** [Image.split()]: the bands as single-band images. *)
Definition split (im : Image) : list plane := im_bands im.

(** [Image.merge(mode, bands)]: a fresh image, with no container format. *)
Definition merge (mode : string) (bands : list plane) : result Image :=
  match getmodebands mode with
  | Raise e => Raise e
  | Ok n =>
      if (n =? length bands)%nat
      then Ok {| im_format := None; im_mode := mode; im_bands := bands |}
      else Raise (ValueError "wrong number of bands" PyNone)
  end.

(** The reductions of [SUPPORTED_KEYWORD_PARAMS]. *)
Inductive Aggregate := np_mean | np_median | np_min | np_max | np_sum | np_std.

Class Numpy := {
  (** [np.mean(v)], [np.median(v)], ... on a float64 array *)
  reduce : Aggregate -> list float -> float;
  (** [astype(np.uint8)] on a value whose truncation is not a byte: the C
      conversion is undefined there and numpy returns what the platform
      does *)
  cast_overflow : float -> Z
}.

(** Python's own [float(text)] and the [base64] and [requests] modules. *)
Class Builtins := {
  py_float : string -> result float;
  b64decode : string -> result bytes;
  b64encode : bytes -> string;
  (** [requests.get(url)]: the status code, [r.text] and [r.content] *)
  requests_get : string -> result (Z * string * bytes)
}.

Class Pillow := {
  (** [Image.convert(mode)] *)
  pil_convert : Image -> string -> result Image;
  (** [Image.open(stream)] followed by the first access to the pixels *)
  pil_decode : bytes -> result Image;
  (** what [Image.save(fp, format)] writes to [fp] *)
  pil_encode : Image -> option string -> result bytes;
  (** the values of [PIL.Image.EXTENSION] after [init()] *)
  EXTENSION_values : list string;
  (** the container format [Image.save(filename)] chooses from the
      extension of the file name *)
  pil_format_for : string -> result string
}.

(** [colorsys.rgb_to_hsv] and [colorsys.hsv_to_rgb] of the Python library. *)
Class Colorsys := {
  rgb_to_hsv : float -> float -> float -> float * float * float;
  hsv_to_rgb : float -> float -> float -> float * float * float
}.

(** The files of the machine, by path. *)
Abbreviation filesystem := (gmap string string).

Definition exists_ (fs : filesystem) (path : string) : bool :=
  match fs !! path with Some _ => true | None => false end.

(** [Image.open(filename)] *)
Definition image_open `{pil : Pillow} (fs : filesystem) (filename : string) : result Image :=
  match fs !! filename with
  | None => Raise (FileNotFoundError filename)
  | Some b => pil_decode b
  end.

(** [np.asarray(band) / 255.0] on one element *)
Definition normalize (b : Z) : float := (of_Z b / 255)%float.

(** [(value * 255.0).astype(np.uint8)] on one element: truncation. *)
Definition astype_uint8 `{np : Numpy} (x : float) : Z :=
  match trunc x with
  | Some z => if is_byte z then z else cast_overflow x
  | None => cast_overflow x
  end.

Definition quantize `{np : Numpy} (x : float) : Z := astype_uint8 (x * 255)%float.

End Lib.
Import Lib.

(** ** src/src/convert.py: the colourspace engine *)

Module Engine.

Definition SUPPORTED_COLOR_CHANNELS : list (string * string * string) :=
  [("h", "hue", "The hue channel in HSV");
   ("s", "saturation", "The saturation channel in HSV");
   ("v", "value", "The value channel in HSV");
   ("r", "red", "The red channel in RGB");
   ("g", "green", "The green channel in RGB");
   ("b", "blue", "The blue channel in RGB");
   ("a", "alpha", "The alpha channel in RGBA/LA, and other formats that support alpha");
   ("l", "luminance", "The luminance channel in L")].

Definition SUPPORTED_COLOR_CHANNEL_SHORTHANDS : list string :=
  map (fun '(shorthand, _, _) => shorthand) SUPPORTED_COLOR_CHANNELS.

Definition COLOR_CHANNEL_TO_SHORTHAND : list (string * string) :=
  [("hue", "h"); ("saturation", "s"); ("value", "v"); ("red", "r");
   ("green", "g"); ("blue", "b"); ("alpha", "a"); ("luminance", "l")].

Definition SUPPORTED_PIL_MODES : list (string * list string) :=
  [("RGB", ["red"; "green"; "blue"]);
   ("RGBA", ["red"; "green"; "blue"; "alpha"]);
   ("L", ["luminance"]);
   ("LA", ["luminance"; "alpha"]);
   ("HSV", ["hue"; "saturation"; "value"])].

Definition SUPPORTED_OPERATIONS : list string :=
  ["invert"; "offset"; "clamp"; "scale"; "threshold"].

Definition SUPPORTED_KEYWORD_PARAMS : list (string * Aggregate) :=
  [("mean", np_mean); ("median", np_median); ("min", np_min);
   ("max", np_max); ("sum", np_sum); ("std", np_std)].

Definition SUPPORTED_CLAMP_MODES : list (string * (float -> float -> float)) :=
  [("min", fmin); ("max", fmax)].

(** The table local to [_get_format]. *)
Definition supported : list (string * list (string * list string)) :=
  [("RGB", [("RGBA", ["A"]); ("HSV", ["H"; "S"; "V"]); ("L", ["L"])]);
   ("RGBA", [("HSV", ["H"; "S"; "V"]); ("L", ["L"])]);
   ("HSV", [("RGBA", ["R"; "G"; "B"; "A"]); ("LA", ["L"])]);
   ("L", [("RGB", ["R"; "G"; "B"]); ("RGBA", ["A"]); ("HSV", ["H"; "S"; "V"])]);
   ("LA", [("RGBA", ["R"; "G"; "B"]); ("HSV", ["H"; "S"; "V"])])].

Definition _get_format (current k : string) : result string :=
  match assoc current supported with
  | None => Raise (KeyError (PyStr current))
  | Some candidates =>
      match find (fun '(_, channels) => str_mem k channels) candidates with
      | Some (mode, _) => Ok mode
      | None => Raise (ValueError "No format supports the channel" (PyStr k))
      end
  end.

(** [fmax(fmin(v, 1.0), 0.0)] on one element *)
Definition _clamp (v : float) : float := fmax (fmin v 1) 0.

Definition opt_str (o : option string) : pyval :=
  match o with Some s => PyStr s | None => PyNone end.

(** The attributes of a [ColorspaceModifier]. *)
Record ColorspaceModifier := {
  _image_handle : Image;
  _loaded_channels : option (list plane);
  _auto_clamp : bool;
  _debug : bool;
  _image_format : option string;
  _current_format : string;
  _output_format : string
}.

(** The object together with a ghost history: the normalized planes that
    [_set_channel] received, most recent first, before their conversion to
    bytes.  The code keeps no such list; it is what the statements about
    values "before quantization" speak of. *)
Record Session := {
  self : ColorspaceModifier;
  written : list (list float)
}.

Definition update (f : ColorspaceModifier -> ColorspaceModifier) (s : Session) : Session :=
  {| self := f (self s); written := written s |}.

Definition set_image_handle (x : Image) (o : ColorspaceModifier) :=
  {| _image_handle := x; _loaded_channels := _loaded_channels o;
     _auto_clamp := _auto_clamp o; _debug := _debug o;
     _image_format := _image_format o; _current_format := _current_format o;
     _output_format := _output_format o |}.

Definition set_loaded_channels (x : option (list plane)) (o : ColorspaceModifier) :=
  {| _image_handle := _image_handle o; _loaded_channels := x;
     _auto_clamp := _auto_clamp o; _debug := _debug o;
     _image_format := _image_format o; _current_format := _current_format o;
     _output_format := _output_format o |}.

Definition set_auto_clamp (x : bool) (o : ColorspaceModifier) :=
  {| _image_handle := _image_handle o; _loaded_channels := _loaded_channels o;
     _auto_clamp := x; _debug := _debug o;
     _image_format := _image_format o; _current_format := _current_format o;
     _output_format := _output_format o |}.

Definition set_current_format (x : string) (o : ColorspaceModifier) :=
  {| _image_handle := _image_handle o; _loaded_channels := _loaded_channels o;
     _auto_clamp := _auto_clamp o; _debug := _debug o;
     _image_format := _image_format o; _current_format := x;
     _output_format := _output_format o |}.

Definition set_output_format (x : string) (o : ColorspaceModifier) :=
  {| _image_handle := _image_handle o; _loaded_channels := _loaded_channels o;
     _auto_clamp := _auto_clamp o; _debug := _debug o;
     _image_format := _image_format o; _current_format := _current_format o;
     _output_format := x |}.

Definition record_write (v : list float) (s : Session) : Session :=
  {| self := self s; written := v :: written s |}.

Definition E : Type -> Type := M Session.

Definition attr {A} (f : ColorspaceModifier -> A) : E A := gets (fun s => f (self s)).
Definition assign (f : ColorspaceModifier -> ColorspaceModifier) : E unit := modify (update f).

(** [ColorspaceModifier(image_handle, auto_clamp, debug)] *)
Definition __init__ (image_handle : Image) (auto_clamp debug : bool)
  : result ColorspaceModifier :=
  if negb (dict_has SUPPORTED_PIL_MODES (PyStr (im_mode image_handle)))
  then Raise (ValueError "Unsupported image format" (PyStr (im_mode image_handle)))
  else Ok {| _image_handle := image_handle;
             _loaded_channels := None;
             _auto_clamp := auto_clamp;
             _debug := debug;
             _image_format := im_format image_handle;
             _current_format := im_mode image_handle;
             _output_format := im_mode image_handle |}.

(** A session on a freshly constructed object. *)
Definition new (o : ColorspaceModifier) : Session := {| self := o; written := [] |}.

Section Methods.
Context `{np : Numpy} `{pil : Pillow}.

Definition set_clamp (auto_clamp : bool) : E unit :=
  assign (set_auto_clamp auto_clamp).

(** [ColorspaceModifier.from_image(filename, debug)]; [auto_clamp] takes its
    default, True. *)
Definition from_image (fs : filesystem) (filename : string) (debug : bool)
  : result ColorspaceModifier :=
  match image_open fs filename with
  | Raise e => Raise e
  | Ok im => __init__ im true debug
  end.

Definition close_image : E unit := ret tt.

Definition load_image (fs : filesystem) (filename : string) : E unit :=
  let* im := lift (image_open fs filename) in
  assign (set_image_handle im) ;;
  assign (set_current_format (im_mode im)) ;;
  assign (set_output_format (im_mode im)) ;;
  let* fmt := attr _image_format in
  if negb (dict_has SUPPORTED_PIL_MODES (opt_str fmt))
  then raise (ValueError "Unsupported image format" (opt_str fmt))
  else ret tt.

Definition set_handle (image_handle : Image) : E unit :=
  assign (set_image_handle image_handle) ;;
  assign (set_current_format (im_mode image_handle)) ;;
  assign (set_output_format (im_mode image_handle)) ;;
  let* fmt := attr _image_format in
  if negb (dict_has SUPPORTED_PIL_MODES (opt_str fmt))
  then raise (ValueError "Unsupported image format" (opt_str fmt))
  else ret tt.

Definition _close_channels : E unit :=
  let* loaded := attr _loaded_channels in
  match loaded with
  | None => ret tt
  | Some bands =>
      let* fmt := attr _current_format in
      let* im := lift (merge fmt bands) in
      assign (set_image_handle im) ;;
      assign (set_loaded_channels None)
  end.

Definition _convert_image (new_format : string) : E unit :=
  if negb (dict_has SUPPORTED_PIL_MODES (PyStr new_format))
  then raise (ValueError "Unsupported image format" (PyStr new_format))
  else
    _close_channels ;;
    let* handle := attr _image_handle in
    let* im := lift (pil_convert handle new_format) in
    assign (set_image_handle im) ;;
    assign (set_current_format new_format).

Definition _get_channel (channel : string) : E (list float) :=
  let* loaded := attr _loaded_channels in
  match loaded with
  | None =>
      let* handle := attr _image_handle in
      assign (set_loaded_channels (Some (split handle)))
  | Some _ => ret tt
  end ;;
  let* fmt := attr _current_format in
  let* ix := lift (str_index (upper channel) fmt) in
  let* loaded := attr _loaded_channels in
  match loaded ≫= (fun bands => bands !! ix) with
  | Some band => ret (map normalize band)
  | None => raise (IndexError "list index out of range")
  end.

Definition _set_channel (channel : string) (value : list float) : E unit :=
  let* fmt := attr _current_format in
  let* ix := lift (str_index (upper channel) fmt) in
  let* loaded := attr _loaded_channels in
  match loaded with
  | None => raise (TypeError "'NoneType' object does not support item assignment")
  | Some bands =>
      if (ix <? length bands)%nat
      then
        assign (set_loaded_channels (Some (<[ix := map quantize value]> bands))) ;;
        modify (record_write value)
      else raise (IndexError "list assignment index out of range")
  end.

(** [save_image(output_handle, output_format)].  The last statement,
    [self._image_handle.save(output_handle, self._image_format)], hands
    Pillow an image and a container format; they are the result, and the
    caller that owns [output_handle] writes their encoding to it. *)
Definition save_image (output_format : string) : E (Image * option string) :=
  let* output_format :=
    if String.eqb output_format "default"
    then attr _output_format
    else if negb (dict_has SUPPORTED_PIL_MODES (PyStr output_format))
         then raise (ValueError "Unsupported output format:" (PyStr output_format))
         else ret output_format in
  let* current := attr _current_format in
  (if negb (String.eqb current output_format)
   then _convert_image output_format
   else ret tt) ;;
  _close_channels ;;
  let* handle := attr _image_handle in
  let* fmt := attr _image_format in
  ret (handle, fmt).

(** The whole of [save_image(output_handle, output_format)] for an
    [output_handle] that is an empty binary stream open for writing, such as
    a fresh [BytesIO]: the last statement included, the result is what the
    stream holds afterwards, the encoding that [Image.save] makes of the
    image handle in the container format the object remembers.  When the
    encoder raises, so does [save_image]. *)
Definition save_image_into_stream (output_format : string) : E bytes :=
  let* (handle, fmt) := save_image output_format in
  lift (pil_encode handle fmt).

(** The codec reads back what it writes for [image] in the container
    [format]: the encoding decodes to an image of the same mode with the same
    planes.  PNG does for every image of the modes it holds; JPEG does not. *)
Definition reads_back (image : Image) (format : option string) : Prop :=
  forall data, pil_encode image format = Ok data ->
  exists image', pil_decode data = Ok image' /\
                 im_mode image' = im_mode image /\
                 im_bands image' = im_bands image.

(** [_pre(channel)].  [len(channel)], [channel.lower()] and
    [channel.upper()] are those of an ASCII text (see [is_ascii]). *)
Definition _pre (channel : string) : E (list float * string) :=
  let* channel :=
    if negb (String.length channel =? 1)%nat
    then lift (dict_get COLOR_CHANNEL_TO_SHORTHAND (PyStr (lower channel)))
    else ret channel in
  let* current := attr _current_format in
  (if negb (str_in (upper channel) current)
   then let* target := lift (_get_format current (upper channel)) in
        _convert_image target
   else ret tt) ;;
  let* v := _get_channel (upper channel) in
  ret (v, upper channel).

Definition _post (channel : string) (value : list float) : E unit :=
  let* auto := attr _auto_clamp in
  let value := if auto then map _clamp value else value in
  _set_channel channel value.

Definition convert (new_format : string) : E unit :=
  _convert_image new_format ;;
  assign (set_output_format new_format).

Definition invert (channels : list string) : E unit :=
  for_each channels (fun channel =>
    let* (v, c) := _pre channel in
    let v := map (fun x => 1 - x)%float v in
    _post c v).

(** [v[v < color] = 0] then [v[v >= color] = 1], in this order, in place. *)
Definition step (color : float) (v : list float) : list float :=
  let v := map (fun x => if (x <? color)%float then 0%float else x) v in
  map (fun x => if (color <=? x)%float then 1%float else x) v.

Definition threshold (channels : list (string * pyval)) : E unit :=
  for_each channels (fun '(channel, color) =>
    let* (v, c) := _pre channel in
    let* f := lift (dict_get SUPPORTED_KEYWORD_PARAMS color) in
    let color := reduce f v in
    let v := step color v in
    _post c v).

Definition clamp (channels : list (string * pyval * pyval)) : E unit :=
  for_each channels (fun '(channel, mode, color) =>
    let* (v, c) := _pre channel in
    let* known := lift (dict_contains SUPPORTED_KEYWORD_PARAMS color) in
    if negb known
    then raise (ValueError "Invalid clamp color" color)
    else
      let* f := lift (dict_get SUPPORTED_KEYWORD_PARAMS color) in
      let color := reduce f v in
      let* known := lift (dict_contains SUPPORTED_CLAMP_MODES mode) in
      if negb known
      then raise (ValueError "Invalid clamp mode" mode)
      else
        let* g := lift (dict_get SUPPORTED_CLAMP_MODES mode) in
        let v := map (fun x => g x color) v in
        _post c v).

Definition scale (channels : list (string * float)) : E unit :=
  for_each channels (fun '(channel, factor) =>
    let* (v, c) := _pre channel in
    let v := map (fun x => x * factor)%float v in
    _post c v).

Definition offset (channels : list (string * float)) : E unit :=
  for_each channels (fun '(channel, offset) =>
    let* (v, c) := _pre channel in
    let v := map (fun x => x + offset)%float v in
    _post c v).

(** One call of an operation, and a program of calls made one after the
    other on the same object. *)
Inductive call :=
| Invert (channels : list string)
| Offset (channels : list (string * float))
| Scale (channels : list (string * float))
| Threshold (channels : list (string * pyval))
| Clamp (channels : list (string * pyval * pyval)).

Definition perform (c : call) : E unit :=
  match c with
  | Invert channels => invert channels
  | Offset channels => offset channels
  | Scale channels => scale channels
  | Threshold channels => threshold channels
  | Clamp channels => clamp channels
  end.

Definition perform_all (calls : list call) : E unit := for_each calls perform.

End Methods.

End Engine.

(** ** src/src/cli.py: the command chain *)

Module Cli.
Import Engine.

(** What [parse_command] returns for one command.  [vars(values).items()]
    lists the attributes in the order argparse created them: the defaults of
    [input], [output], [no_clamp] and [debug] first, then the channel flags
    that occurred on the command line, under their long names, in the order
    they occurred.  A flag of [invert] stores True, the others store the
    list of the texts that followed the flag. *)
Inductive argval :=
| ANone
| ABool (b : bool)
| AStr (s : string)
| AList (l : list string).

Record Namespace := {
  input : option string;
  output : option string;
  no_clamp : bool;
  debug : bool;
  flags : list (string * argval)
}.

Definition of_path (o : option string) : argval :=
  match o with Some s => AStr s | None => ANone end.

Definition items (values : Namespace) : list (string * argval) :=
  [("input", of_path (input values)); ("output", of_path (output values));
   ("no_clamp", ABool (no_clamp values)); ("debug", ABool (debug values))]
  ++ flags values.

(** The dict [image] of [run_commands]. *)
Record image_dict := {
  input_name : option string;
  output_name : option string;
  handle : option Session
}.

Record World := {
  fs : filesystem;
  image : image_dict
}.

Definition C : Type -> Type := M World.

Definition set_fs (x : filesystem) (w : World) : World :=
  {| fs := x; image := image w |}.
Definition set_input_name (x : option string) (w : World) : World :=
  {| fs := fs w;
     image := {| input_name := x; output_name := output_name (image w);
                 handle := handle (image w) |} |}.
Definition set_output_name (x : option string) (w : World) : World :=
  {| fs := fs w;
     image := {| input_name := input_name (image w); output_name := x;
                 handle := handle (image w) |} |}.
Definition set_handle_slot (x : option Session) (w : World) : World :=
  {| fs := fs w;
     image := {| input_name := input_name (image w);
                 output_name := output_name (image w); handle := x |} |}.

(** An open file object. *)
Record file := {
  f_path : string;
  f_writable : bool
}.

(** [open(name, mode)] for the binary modes. *)
Definition open_ (name : option string) (mode : string) : C file :=
  match name with
  | None => raise (TypeError "expected str, bytes or os.PathLike object, not NoneType")
  | Some path =>
      if String.eqb mode "rb" then
        let* disk := gets fs in
        if exists_ disk path
        then ret {| f_path := path; f_writable := false |}
        else raise (FileNotFoundError path)
      else if String.eqb mode "wb" then
        let* disk := gets fs in
        modify (set_fs (<[path := ""]> disk)) ;;
        ret {| f_path := path; f_writable := true |}
      else raise (ValueError "invalid mode" (PyStr mode))
  end.

(** [f.write(data)] *)
Definition write (f : file) (data : bytes) : C unit :=
  if f_writable f
  then
    let* disk := gets fs in
    modify (set_fs (<[f_path f := (default "" (disk !! f_path f)) ++ data]> disk))
  else raise (UnsupportedOperation "write").

(** A method call on [image['handle']]. *)
Definition on_handle {A} (m : E A) : C A := fun w =>
  match handle (image w) with
  | None => (Raise (AttributeError "'NoneType' object has no attribute"), w)
  | Some s => let '(r, s') := m s in (r, set_handle_slot (Some s') w)
  end.

(** [v[i]] on an attribute of the namespace *)
Definition item (v : argval) (i : nat) : result string :=
  match v with
  | AList l =>
      match l !! i with
      | Some x => Ok x
      | None => Raise (IndexError "list index out of range")
      end
  | AStr s =>
      match String.get i s with
      | Some c => Ok (String c "")
      | None => Raise (IndexError "string index out of range")
      end
  | ABool _ => Raise (TypeError "'bool' object is not subscriptable")
  | ANone => Raise (TypeError "'NoneType' object is not subscriptable")
  end.

Section Run.
Context `{np : Numpy} `{pil : Pillow} `{py : Builtins}.

Definition to_float {S} (text : string) : M S float := lift (py_float text).

(** [float(x) if x not in ('mean', 'median') else x] *)
Definition value_or_keyword {S} (x : string) : M S pyval :=
  if str_mem x ["mean"; "median"]
  then ret (PyStr x)
  else let* y := to_float x in ret (PyFloat y).

(** [with open(image['output_name'], 'rb') as f:
       image['handle'].save_image(f)] *)
Definition save_to_output : C unit :=
  let* name := gets (fun w => output_name (image w)) in
  let* f := open_ name "rb" in
  let* (im, fmt) := on_handle (save_image "default") in
  let* data := lift (pil_encode im fmt) in
  write f data.

(** The body of the inner loop, for one attribute [k], [v] of a command
    called [name]. *)
Definition run_argument (debug clamp : bool) (name k : string) (v : argval) : C unit :=
  if str_mem k ["debug"; "no_clamp"] then ret tt
  else if String.eqb k "input" then
    match v with
    | ANone => ret tt
    | AStr path =>
        let* disk := gets fs in
        if exists_ disk path then
          modify (set_input_name (Some path)) ;;
          let* h := gets (fun w => handle (image w)) in
          match h with
          | None =>
              let* o := lift (from_image disk path debug) in
              modify (set_handle_slot (Some (new o))) ;;
              on_handle (set_clamp clamp)
          | Some _ => on_handle (load_image disk path)
          end
        else raise (ValueError "Input file does not exist!" (PyStr path))
    | _ => raise (TypeError "stat: path should be string, bytes, os.PathLike or integer")
    end
  else if String.eqb k "output" then
    match v with
    | ANone => ret tt
    | AStr path => modify (set_output_name (Some path))
    | _ => raise (TypeError "expected str, bytes or os.PathLike object")
    end
  else if String.eqb name "invert" then
    on_handle (invert [k])
  else if String.eqb name "offset" then
    on_handle (ret tt) ;;
    let* x := lift (item v 0) in
    let* y := to_float x in
    on_handle (offset [(k, y)])
  else if String.eqb name "scale" then
    on_handle (ret tt) ;;
    let* x := lift (item v 0) in
    let* y := to_float x in
    on_handle (scale [(k, y)])
  else if String.eqb name "threshold" then
    on_handle (ret tt) ;;
    let* x := lift (item v 0) in
    let* color := value_or_keyword x in
    on_handle (threshold [(k, color)])
  else if String.eqb name "clamp" then
    on_handle (ret tt) ;;
    let* mode := lift (item v 0) in
    let* x := lift (item v 1) in
    let* color := value_or_keyword x in
    on_handle (Engine.clamp [(k, PyStr mode, color)])
  else ret tt.

(** The outer loop over [enumerate(commands)]; [total] is [len(commands)]. *)
Fixpoint run_chain (debug clamp : bool) (total : nat) (command_ix : nat)
    (commands : list (string * Namespace)) : C unit :=
  match commands with
  | [] => ret tt
  | (name, values) :: rest =>
      for_each (items values) (fun '(k, v) => run_argument debug clamp name k v) ;;
      let* out := gets (fun w => output_name (image w)) in
      (if bool_decide (out <> None) && negb (command_ix =? total - 1)%nat
       then save_to_output
       else ret tt) ;;
      run_chain debug clamp total (S command_ix) rest
  end.

Definition run_commands (commands : list (string * Namespace)) (debug clamp : bool)
  : C unit :=
  modify (fun w => {| fs := fs w;
                      image := {| input_name := None; output_name := None;
                                  handle := None |} |}) ;;
  run_chain debug clamp (length commands) 0 commands ;;
  let* out := gets (fun w => output_name (image w)) in
  (match out with
   | None => let* name := gets (fun w => input_name (image w)) in
             modify (set_output_name name)
   | Some _ => ret tt
   end) ;;
  save_to_output.

End Run.

(** [l.index(item)]: the first position of [item], if there is one. *)
Fixpoint list_index (item : string) (l : list string) : option nat :=
  match l with
  | [] => None
  | x :: l' => if String.eqb x item then Some 0%nat else option_map S (list_index item l')
  end.

(** [first_index(input_list, iterable, start)]; an item that does not occur
    leaves [first] as it is. *)
Definition first_index (input_list iterable : list string) (start : nat) : nat :=
  let input_list := map lower (drop start input_list) in
  let first := length input_list in
  (fold_left (fun first item =>
                match list_index item input_list with
                | Some i => Nat.min first i
                | None => first
                end) iterable first
   + start)%nat.

(** What [parse_operation] returns. *)
Record Parsed := {
  command : string;
  parsed_debug : bool;
  parsed_no_clamp : bool
}.

(** [ArgumentParser.parse_args] for the two parsers that the module builds.
    The parser of [parse_command] is determined by the program name, by
    whether the input image is positional, and by the number of values that
    each channel flag takes (none for a [store_true] flag). *)
Class Argparse := {
  operation_parser : list string -> result Parsed;
  command_parser : string -> bool -> nat -> list string -> result Namespace
}.

Section Main.
Context `{np : Numpy} `{pil : Pillow} `{py : Builtins} `{ap : Argparse}.

Definition parse_operation (args : list string) : result Parsed :=
  operation_parser args.

(** [parse_command(command, args, need_input)]; the name of the program is
    the last component of [argv[0]], split at the slash it contains or else
    at the backslash (character 92). *)
Definition parse_command (argv : list string) (command : string) (args : list string)
    (need_input : bool) : result Namespace :=
  match argv !! 0%nat with
  | None => Raise (IndexError "list index out of range")
  | Some argv0 =>
      let sep := if str_in "/" argv0 then "/"%char else ascii_of_nat 92 in
      let program := List.last (split_on sep argv0) "" in
      let prog := program ++ " " ++ command in
      if String.eqb command "invert" then command_parser prog need_input 0 args
      else if String.eqb command "offset" then command_parser prog need_input 1 args
      else if String.eqb command "scale" then command_parser prog need_input 1 args
      else if String.eqb command "threshold" then command_parser prog need_input 1 args
      else if String.eqb command "clamp" then command_parser prog need_input 2 args
      else Raise (ValueError "Unsupported command" (PyStr command))
  end.

(** The local variables of [main] that its loop updates. *)
Record Locals := {
  end_ : nat;
  need_input : bool;
  debug_ : bool;
  no_clamp_ : bool;
  commands : list (string * Namespace)
}.

(** The loop [while end < len(argv)].  [fuel] bounds the number of turns;
    [None] stands for a loop that would take more of them. *)
Fixpoint parse_chain (fuel : nat) (argv : list string) (l : Locals)
  : option (result Locals) :=
  if (end_ l <? length argv)%nat then
    match fuel with
    | O => None
    | S fuel' =>
        let start := end_ l in
        let end' := first_index argv SUPPORTED_OPERATIONS (start + 1) in
        match parse_operation (take 1 (drop start argv)) with
        | Raise e => Some (Raise e)
        | Ok parsed =>
            match parse_command argv (command parsed)
                    (take (end' - (start + 1)) (drop (start + 1) argv))
                    (need_input l) with
            | Raise e => Some (Raise e)
            | Ok values =>
                parse_chain fuel' argv
                  {| end_ := end';
                     need_input := false;
                     debug_ := debug_ l || (debug values || parsed_debug parsed);
                     no_clamp_ :=
                       no_clamp_ l || (no_clamp values || parsed_no_clamp parsed);
                     commands := (commands l ++ [(command parsed, values)])%list |}
            end
        end
    end
  else Some (Ok l).

(** [main()], with [len(argv)] turns allowed to its loop. *)
Definition main (argv : list string) (w : World) : option (result unit * World) :=
  if (length argv =? 1)%nat then
    match parse_operation ["-h"] with
    | Raise e => Some (Raise e, w)
    | Ok _ => Some (Ok tt, w)
    end
  else
    match parse_chain (length argv) argv
            {| end_ := 1; need_input := true; debug_ := false; no_clamp_ := false;
               commands := [] |} with
    | None => None
    | Some (Raise e) => Some (Raise e, w)
    | Some (Ok l) => Some (run_commands (commands l) (debug_ l) (negb (no_clamp_ l)) w)
    end.

End Main.

End Cli.

(** ** src/api/main.py: the HTTP service *)

Module Api.
Import Engine.

(** A decoded JSON value of [params]. *)
#[warnings="-register-all"]
Inductive json :=
| JNull
| JBool (b : bool)
| JNum (x : float)
| JStr (s : string)
| JList (l : list json).

(** The request model [Operation]. *)
Record Operation := {
  auto_clamp : bool;
  action : string;
  channels : list string;
  params : option (list json);
  input : option (list (string * string));
  output_format : option string
}.

(** What lies outside the memory of the process: the files of the server,
    which no statement of the module opens, and the network.  The trace
    records each address that [requests.get] is called on. *)
Inductive event :=
| HttpGet (url : string).

Record Server := {
  disk : filesystem;
  trace : list event
}.

Definition A : Type -> Type := M Server.

Definition log (e : event) : A unit :=
  modify (fun w => {| disk := disk w; trace := e :: trace w |}).

(** The status line of the response FastAPI builds from the handler. *)
Definition status_code_of {X} (r : result X) : Z :=
  match r with
  | Ok _ => 200
  | Raise (HTTPException code _) => code
  | Raise _ => 500
  end.

(** A positional argument of a call of [encode_output]. *)
Inductive argument :=
| ArgBytesIO (content : bytes)
| ArgBytes (content : bytes)
| ArgStr (s : string).

Fixpoint to_py (j : json) : pyval :=
  match j with
  | JNull => PyNone
  | JBool b => PyBool b
  | JNum x => PyFloat x
  | JStr s => PyStr s
  | JList l => PyList (map to_py l)
  end.

(** [a, b = j] and [a, b, c = j]: a list of that length, or a text of that
    many characters. *)
Definition unpack (n : nat) (j : json) : result (list json) :=
  match j with
  | JList l =>
      if (length l =? n)%nat then Ok l
      else Raise (ValueError "wrong number of values to unpack" PyNone)
  | JStr s =>
      if (String.length s =? n)%nat
      then Ok (map (fun c => JStr (String c "")) (list_ascii_of_string s))
      else Raise (ValueError "wrong number of values to unpack" PyNone)
  | _ => Raise (TypeError "cannot unpack non-iterable object")
  end.

(** The request model [MultiOperation].  Its [output_format] is a [str]
    with the default ['default'], so the test [data.output_format is None]
    of the handler is never true. *)
Record MultiOperation := {
  multi_auto_clamp : bool;
  operations : list Operation;
  multi_input : list (string * string);
  multi_output_format : string
}.

Section Service.
Context `{np : Numpy} `{pil : Pillow} `{py : Builtins}.

Definition SUPPORTED_IMAGE_TYPES : list (string * string) :=
  map (fun k => (k, "image/" ++ lower k)) EXTENSION_values.

Definition parse_file (data : string) : A bytes :=
  if negb (str_in "," data)
  then raise (HTTPException 400 "Invalid data format; Must be prepended by type")
  else
    match split_on "," data with
    | [content_type; content_string] =>
        if startswith content_type "file:"
        then raise (HTTPException 403 "Tried to access a local server resource")
        else if startswith content_type "data:" then
          let* i := lift (str_index ":" content_type) in
          let* j := lift (str_index ";" content_type) in
          let mimetype := slice (i + 1) j content_type in
          if negb (str_mem mimetype (map snd SUPPORTED_IMAGE_TYPES))
          then raise (HTTPException 400 ("Unsupported mimetype: " ++ mimetype))
          else if endswith content_type ";base64"
          then lift (b64decode content_string)
          else raise (HTTPException 400 (content_type ++ " decoding not implemented"))
        else if String.eqb content_type "url" then
          log (HttpGet content_string) ;;
          let* r := lift (requests_get content_string) in
          let '(status, text, content) := r in
          if negb (status =? 200)%Z
          then raise (HTTPException status text)
          else ret content
        else raise (HTTPException 400 ("Invalid data format: " ++ content_type))
    | _ => raise (ValueError "too many values to unpack (expected 2)" PyNone)
    end.

(** The body of [encode_output(output_buffer)]. *)
Definition encode_output (output_buffer : bytes) : string :=
  "data:image/png;base64," ++ b64encode output_buffer.

(** A call [encode_output(args...)]: the function takes one positional
    argument and reads it with [getvalue()]. *)
Definition call_encode_output {S} (args : list argument) : M S string :=
  match args with
  | [ArgBytesIO content] => ret (encode_output content)
  | [ArgBytes _] => raise (AttributeError "'bytes' object has no attribute 'getvalue'")
  | [ArgStr _] => raise (AttributeError "'str' object has no attribute 'getvalue'")
  | _ => raise (TypeError "encode_output() takes 1 positional argument")
  end.

(** [float(p)] on a JSON value *)
Definition float_of (p : json) : result float :=
  match p with
  | JNum x => Ok x
  | JStr s => py_float s
  | JBool b => Ok (if b then 1%float else 0%float)
  | JNull | JList _ => Raise (TypeError "float() argument must be a string or a real number")
  end.

Fixpoint collect {X Y} (f : X -> result Y) (l : list X) : result (list Y) :=
  match l with
  | [] => Ok []
  | x :: l' =>
      match f x with
      | Raise e => Raise e
      | Ok y => match collect f l' with
                | Raise e => Raise e
                | Ok ys => Ok (y :: ys)
                end
      end
  end.

(** [for p in params] *)
Definition iterate (params : option (list json)) : result (list json) :=
  match params with
  | Some l => Ok l
  | None => Raise (TypeError "'NoneType' object is not iterable")
  end.

(** [float(c) if c not in ['mean', 'median'] else c] *)
Definition number_or_keyword (c : json) : result pyval :=
  match c with
  | JStr s =>
      if str_mem s ["mean"; "median"] then Ok (PyStr s)
      else match py_float s with Ok x => Ok (PyFloat x) | Raise e => Raise e end
  | _ => match float_of c with Ok x => Ok (PyFloat x) | Raise e => Raise e end
  end.

Definition do_operation (operation : string) (channels : list string)
    (params : option (list json)) : E unit :=
  if String.eqb operation "invert" then
    invert channels
  else if String.eqb operation "offset" then
    let* ps := lift (iterate params) in
    let* values := lift (collect float_of ps) in
    offset (combine channels values)
  else if String.eqb operation "scale" then
    let* ps := lift (iterate params) in
    let* values := lift (collect float_of ps) in
    scale (combine channels values)
  else if String.eqb operation "clamp" then
    let* ps := lift (iterate params) in
    let* triples := lift (collect (fun p =>
        match unpack 3 p with
        | Ok [a; b; c] =>
            match number_or_keyword c with
            | Ok c' => Ok (to_py a, to_py b, c')
            | Raise e => Raise e
            end
        | Ok _ => Raise (ValueError "wrong number of values to unpack" PyNone)
        | Raise e => Raise e
        end) ps) in
    (* [clamp] receives the pairs (channel, (a, b, c)) of [zip] and unpacks
       each into three names *)
    match combine channels triples with
    | [] => ret tt
    | _ :: _ => raise (ValueError "not enough values to unpack (expected 3, got 2)" PyNone)
    end
  else if String.eqb operation "threshold" then
    let* ps := lift (iterate params) in
    let* pairs := lift (collect (fun p =>
        match unpack 2 p with
        | Ok [a; b] =>
            match number_or_keyword b with
            | Ok b' => Ok (PyTuple [to_py a; b'])
            | Raise e => Raise e
            end
        | Ok _ => Raise (ValueError "wrong number of values to unpack" PyNone)
        | Raise e => Raise e
        end) ps) in
    threshold (combine channels pairs)
  else raise (HTTPException 400 ("Unsupported operation: " ++ operation)).

(** A method call on the local object [convert]. *)
Definition in_session {X} (s : Session) (m : E X) : A (X * Session) := fun w =>
  match m s with
  | (Ok x, s') => (Ok (x, s'), w)
  | (Raise e, _) => (Raise e, w)
  end.

(** The statements of the loop body of [api_operation] from [parse_file] to
    [convert.close_image()]; the result is [output_handle.getvalue()]. *)
Definition render (data : Operation) (input_data : string) : A bytes :=
  let* raw_input := parse_file input_data in
  let* input_handle := lift (pil_decode raw_input) in
  let* convert := lift (__init__ input_handle (auto_clamp data) false) in
  let* (saved, _) :=
    in_session (new convert)
      (do_operation (action data) (channels data) (params data) ;;
       let* out := save_image "default" in
       close_image ;;
       ret out) in
  let '(im, fmt) := saved in
  lift (pil_encode im fmt).

(** The loop [for input_name, input_data in data.input]. *)
Fixpoint process (data : Operation) (inputs : list (string * string))
    (files : gmap string string) : A (gmap string string) :=
  match inputs with
  | [] => ret files
  | (input_name, input_data) :: rest =>
      let* buffer := render data input_data in
      let output_format := default "default" (output_format data) in
      let* output_data := call_encode_output [ArgBytes buffer; ArgStr output_format] in
      process data rest (<[input_name := output_data]> files)
  end.

(** [POST /operation] *)
Definition api_operation (data : Operation) : A (gmap string string) :=
  match input data with
  | None => raise (HTTPException 400 "Must specify input file / files")
  | Some inputs =>
      if negb (str_mem (action data) SUPPORTED_OPERATIONS)
      then raise (HTTPException 400 ("Unsupported operation: " ++ action data))
      else
        for_each (channels data) (fun c =>
          if negb (str_mem c SUPPORTED_COLOR_CHANNEL_SHORTHANDS)
          then raise (HTTPException 400 ("Unsupported channel: " ++ c))
          else ret tt) ;;
        process data inputs ∅
  end.

(** The loop [for op in data.operations] of [api_operations], on the local
    object [convert] and the local list [output_files]. *)
Fixpoint apply_operations (ops : list Operation) (convert : Session)
    (output_files : list string) : A (Session * list string) :=
  match ops with
  | [] => ret (convert, output_files)
  | op :: rest =>
      let* (_, convert) :=
        in_session convert (do_operation (action op) (channels op) (params op)) in
      match output_format op with
      | None => apply_operations rest convert output_files
      | Some fmt =>
          let* (saved, convert) := in_session convert (save_image fmt) in
          let '(im, container) := saved in
          let* buffer := lift (pil_encode im container) in
          let* output_data := call_encode_output [ArgBytes buffer; ArgStr fmt] in
          apply_operations rest convert (output_files ++ [output_data])%list
      end
  end.

(** The body of the loop over the inputs of [api_operations]; the result is
    the list [output_files]. *)
Definition render_all (data : MultiOperation) (input_data : string) : A (list string) :=
  let* raw_input := parse_file input_data in
  let* input_handle := lift (pil_decode raw_input) in
  let* convert := lift (__init__ input_handle (multi_auto_clamp data) false) in
  let* (convert, output_files) := apply_operations (operations data) (new convert) [] in
  let* (saved, convert) := in_session convert (save_image "default") in
  let '(im, fmt) := saved in
  let* buffer := lift (pil_encode im fmt) in
  let* output_data := call_encode_output [ArgBytesIO buffer] in
  let* _ := in_session convert close_image in
  ret (output_files ++ [output_data])%list.

Fixpoint process_all (data : MultiOperation) (inputs : list (string * string))
    (files : gmap string (list string)) : A (gmap string (list string)) :=
  match inputs with
  | [] => ret files
  | (input_name, input_data) :: rest =>
      let* output_files := render_all data input_data in
      process_all data rest (<[input_name := output_files]> files)
  end.

(** [POST /operations] *)
Definition api_operations (data : MultiOperation) : A (gmap string (list string)) :=
  process_all data (multi_input data) ∅.

End Service.

End Api.

(** ** src/convert.py: the legacy batch tool *)

Module Legacy.

(** OPERATIONS / MODES & OPTIONS *)
Definition BEFORE : Z := 1.
Definition AFTER : Z := BEFORE + 1.

Definition INVERT : Z := AFTER + 1.
Definition OFFSET : Z := INVERT + 1.
Definition MIN : Z := OFFSET + 1.
Definition MAX : Z := MIN + 1.

Definition string_to_mode : list (string * Z) :=
  [("invert", INVERT); ("offset", OFFSET)].

Definition string_to_option : list (string * Z) :=
  [("b", BEFORE); ("a", AFTER); ("offset", OFFSET); ("min", MIN); ("max", MAX)].

(** SUB-MODES / CHANNELS: the module-level names [H], [S], [V], [R], [G],
    [B] and [A] of the script. *)
Module Channel.
Definition H : Z := 1.
Definition S : Z := H + 1.
Definition V : Z := S + 1.
Definition R : Z := V + 1.
Definition G : Z := R + 1.
Definition B : Z := G + 1.
Definition A : Z := B + 1.
End Channel.

Definition string_to_channel : list (string * Z) :=
  [("h", Channel.H); ("s", Channel.S); ("v", Channel.V); ("r", Channel.R);
   ("g", Channel.G); ("b", Channel.B); ("a", Channel.A)].

(** Image types *)
Definition RGB : Z := 1.
Definition RGBA : Z := RGB + 1.
Definition HSV : Z := RGBA + 1.
Definition ONE : Z := HSV + 1.

Definition string_to_format : list (string * Z) :=
  [("RGB", RGB); ("RGBA", RGBA); ("HSV", HSV)].

(** The methods of "Common operations", as the values that
    [perform_operation] selects. *)
Inductive value_method :=
| offset_value
| invert_value
| min_clamp_value
| max_clamp_value.

(** What the run does that can be seen from outside: the images it loads,
    each call of [transform_pixels] that [perform_operation] makes, and the
    files it saves. *)
Inductive event :=
| Load (input_image : string)
| Transform (method : value_method) (channel : Z) (value : float)
| Save (input_image output_name : string).

(** A dict with integer keys, in insertion order. *)
Fixpoint lookup_key {V} (k : Z) (d : list (Z * V)) : option V :=
  match d with
  | [] => None
  | (k', v) :: d' => if (k =? k')%Z then Some v else lookup_key k d'
  end.

Fixpoint store_key {V} (k : Z) (v : V) (d : list (Z * V)) : list (Z * V) :=
  match d with
  | [] => [(k, v)]
  | (k', v') :: d' =>
      if (k =? k')%Z then (k, v) :: d' else (k', v') :: store_key k v d'
  end.

Definition option_dict : Type := list (Z * list (Z * float)).

Definition quit {X} (code : Z) : result X := Raise (SystemExit code).

Section Script.
Context `{pil : Pillow} `{py : Builtins} `{cs : Colorsys}.

(** The body of the loop "Check that the options are valid" for one
    lower-cased option token. *)
Definition check_option (input_option : string) (input_option_dict : option_dict)
  : result option_dict :=
  match split_on ":" input_option with
  | [option_info; option_value_string] =>
      match String.get 0 option_info, String.get 1 option_info with
      | Some c0, Some c1 =>
          let option_channel_string := String c0 "" in
          let option_time_string := String c1 "" in
          let option_operation_string :=
            substring 2 (String.length option_info - 2) option_info in
          if negb (dict_has string_to_channel (PyStr option_channel_string)) then quit 1
          else if negb (dict_has string_to_option (PyStr option_time_string)) then quit 1
          else if negb (dict_has string_to_option (PyStr option_operation_string)) then quit 1
          else
            match assoc option_channel_string string_to_channel,
                  assoc option_time_string string_to_option,
                  assoc option_operation_string string_to_option with
            | Some option_channel, Some option_time, Some option_operation =>
                let option := Z.lor option_time option_operation in
                match py_float option_value_string with
                | Raise (ValueError _ _) => quit 1
                | Raise e => Raise e
                | Ok option_value =>
                    let present := default [] (lookup_key option input_option_dict) in
                    if existsb (fun '(c, x) => (c =? option_channel)%Z
                                               && (x =? option_value)%float) present
                    then quit 1
                    else Ok (store_key option (present ++ [(option_channel, option_value)])%list
                                       input_option_dict)
                end
            | _, _, _ => quit 1
            end
      | _, _ => Raise (IndexError "string index out of range")
      end
  | _ => quit 1
  end.

Fixpoint check_options (input_options : list string) (input_option_dict : option_dict)
  : result option_dict :=
  match input_options with
  | [] => Ok input_option_dict
  | input_option :: rest =>
      match check_option input_option input_option_dict with
      | Raise e => Raise e
      | Ok d => check_options rest d
      end
  end.

(** The attributes of the [ImageEditor], the files, and the trace. *)
Record Editor := {
  mode : Z;
  channels : list (Z * float);
  options : option_dict;
  images : list (string * list string);
  current_format : Z;
  current_mode : string;
  current_image : list (list Z);
  files : filesystem;
  trace : list event
}.

Definition L : Type -> Type := M Editor.

Definition emit (e : event) : L unit :=
  modify (fun ed =>
    {| mode := mode ed; channels := channels ed; options := options ed;
       images := images ed; current_format := current_format ed;
       current_mode := current_mode ed; current_image := current_image ed;
       files := files ed; trace := (trace ed ++ [e])%list |}).

Definition set_current (fmt : Z) (mode_name : string) (pixels : list (list Z)) : L unit :=
  modify (fun ed =>
    {| mode := mode ed; channels := channels ed; options := options ed;
       images := images ed; current_format := fmt;
       current_mode := mode_name; current_image := pixels;
       files := files ed; trace := trace ed |}).

Definition set_pixels (pixels : list (list Z)) : L unit :=
  modify (fun ed =>
    {| mode := mode ed; channels := channels ed; options := options ed;
       images := images ed; current_format := current_format ed;
       current_mode := current_mode ed; current_image := pixels;
       files := files ed; trace := trace ed |}).

Definition set_files (x : filesystem) : L unit :=
  modify (fun ed =>
    {| mode := mode ed; channels := channels ed; options := options ed;
       images := images ed; current_format := current_format ed;
       current_mode := current_mode ed; current_image := current_image ed;
       files := x; trace := trace ed |}).

(** The pixels of an image, as [image.load()] indexes them, and back. *)
Definition pixels_of (im : Image) : list (list Z) :=
  match im_bands im with
  | [] => []
  | band :: _ =>
      map (fun i => map (fun b => nth i b 0%Z) (im_bands im)) (seq 0 (length band))
  end.

Definition bands_of (count : nat) (pixels : list (list Z)) : list plane :=
  map (fun k => map (fun p => nth k p 0%Z) pixels) (seq 0 count).

(** *** Common operations *)

(** The call of [value_method] with the unpacked [operative_values] and
    [v].  [operative_values] is the list that [perform_operation] builds
    around the one-element list it was given, so the method receives that
    one-element list and [v]. *)
Definition call_value_method (method : value_method)
    (operative_values : list (list float)) (v : float) : result float :=
  match operative_values with
  | [first] =>
      match method with
      | offset_value =>
          match first with
          | x :: _ => Ok (v + x)%float
          | [] => Raise (IndexError "list index out of range")
          end
      | invert_value => Ok (1 - v)%float
      | min_clamp_value | max_clamp_value =>
          Raise (TypeError "'>' not supported between instances of 'float' and 'list'")
      end
  | _ => Raise (TypeError "wrong number of positional arguments")
  end.

(** [int(arg)] *)
Definition float_to_int (x : float) : result Z :=
  match trunc x with
  | Some z => Ok z
  | None =>
      if is_nan x
      then Raise (ValueError "cannot convert float NaN to integer" PyNone)
      else Raise (OverflowError "cannot convert float infinity to integer")
  end.

Definition float_to_int_number_space (args : list float) : result (list Z) :=
  (fix go (l : list float) : result (list Z) :=
     match l with
     | [] => Ok []
     | x :: l' =>
         match float_to_int x with
         | Raise e => Raise e
         | Ok z => match go l' with Raise e => Raise e | Ok zs => Ok (z :: zs) end
         end
     end) args.

(** *** Channel space operations *)

Definition get_starting_channel (channel : Z) : result Z :=
  if existsb (Z.eqb channel) [Channel.R; Channel.G; Channel.B; Channel.A]
  then Ok Channel.R
  else if existsb (Z.eqb channel) [Channel.H; Channel.S; Channel.V]
  then Ok Channel.H
  else Raise NotImplementedException.

Definition channel_ (method : value_method) (channel : Z)
    (operative_values : list (list float)) (values : list float)
  : result (list float) :=
  match get_starting_channel channel with
  | Raise e => Raise e
  | Ok start =>
      let channel_index := Z.to_nat (channel - start) in
      match values !! channel_index with
      | None => Raise (IndexError "list index out of range")
      | Some v =>
          match call_value_method method operative_values v with
          | Raise e => Raise e
          | Ok v' => Ok (<[channel_index := v']> values)
          end
      end
  end.

Definition normalize_rgba (r g b a : Z) : list float :=
  [(of_Z r / 255)%float; (of_Z g / 255)%float; (of_Z b / 255)%float; (of_Z a / 255)%float].

Definition denormalize_rgba (r g b a : float) : list float :=
  [(r * 255)%float; (g * 255)%float; (b * 255)%float; (a * 255)%float].

Definition normalize_hsv (h s v : Z) : list float :=
  [(of_Z h / 360)%float; (of_Z s / 100)%float; (of_Z v / 100)%float].

Definition denormalize_hsv (h s v : float) : list float :=
  [(h * 360)%float; (s * 100)%float; (v * 100)%float].

Definition arity {X} : result X := Raise (TypeError "wrong number of positional arguments").

(** *** Image space operations *)

Definition normalize_colorspace (current_format : Z) (pixel_color : list Z)
  : result (list float) :=
  if (current_format =? RGBA)%Z then
    match pixel_color with
    | [r; g; b; a] => Ok (normalize_rgba r g b a)
    | _ => arity
    end
  else if (current_format =? RGB)%Z then
    match pixel_color with
    | [r; g; b] => Ok (normalize_rgba r g b 1)
    | _ => Raise (ValueError "wrong number of values to unpack" PyNone)
    end
  else if (current_format =? HSV)%Z then
    match pixel_color with
    | [h; s; v] => Ok (normalize_hsv h s v)
    | _ => arity
    end
  else Raise NotImplementedException.

(** A function that reaches its end returns None, which the caller cannot
    unpack into the arguments of [float_to_int_number_space]. *)
Definition denormalize_colorspace (current_format : Z) (pixel_color : list float)
  : result (list float) :=
  if (current_format =? RGBA)%Z then
    match pixel_color with
    | [r; g; b; a] => Ok (denormalize_rgba r g b a)
    | _ => arity
    end
  else if (current_format =? RGB)%Z then
    match pixel_color with
    | [r; g; b] => Ok (denormalize_rgba r g b 1)
    | _ => Raise (ValueError "wrong number of values to unpack" PyNone)
    end
  else if (current_format =? HSV)%Z then
    match pixel_color with
    | [h; s; v] => Ok (denormalize_hsv h s v)
    | _ => arity
    end
  else Raise (TypeError "argument after * must be an iterable, not NoneType").

(** *** Color space operation functions *)

Definition get_colorspace (channel : Z) : result Z :=
  if existsb (Z.eqb channel) [Channel.R; Channel.G; Channel.B; Channel.A]
  then Ok RGBA
  else if existsb (Z.eqb channel) [Channel.H; Channel.S; Channel.V]
  then Ok HSV
  else Raise NotImplementedException.

Definition triple (t : float * float * float) : list float :=
  let '(x, y, z) := t in [x; y; z].

Definition same_colorspace := channel_.

Definition rgba_colorspace_in_hsv (method : value_method) (channel : Z)
    (values : list (list float)) (pixel_color : list float) : result (list float) :=
  match pixel_color with
  | [h; s; v] =>
      (* hsv_to_rgba gives r, g, b, 1 *)
      match channel_ method channel values (triple (hsv_to_rgb h s v) ++ [1%float])%list with
      | Raise e => Raise e
      | Ok [r; g; b; a] => Ok (triple (rgb_to_hsv r g b))
      | Ok _ => arity
      end
  | _ => arity
  end.

Definition hsv_colorspace_in_rgb (method : value_method) (channel : Z)
    (values : list (list float)) (pixel_color : list float) : result (list float) :=
  match pixel_color with
  | [r; g; b] =>
      match channel_ method channel values (triple (rgb_to_hsv r g b)) with
      | Raise e => Raise e
      | Ok [h; s; v] => Ok (triple (hsv_to_rgb h s v))
      | Ok _ => arity
      end
  | _ => arity
  end.

Definition hsv_colorspace_in_rgba (method : value_method) (channel : Z)
    (values : list (list float)) (pixel_color : list float) : result (list float) :=
  match pixel_color with
  | [r; g; b; a] =>
      match channel_ method channel values (triple (rgb_to_hsv r g b)) with
      | Raise e => Raise e
      | Ok [h; s; v] => Ok (triple (hsv_to_rgb h s v) ++ [a])%list
      | Ok _ => arity
      end
  | _ => Raise (ValueError "wrong number of values to unpack" PyNone)
  end.

(** [self.colorspace_transitions], by source and target format. *)
Definition colorspace_transitions (source target : Z)
  : option (option (value_method -> Z -> list (list float) -> list float
                      -> result (list float))) :=
  if (source =? RGB)%Z then
    Some (if (target =? HSV)%Z then Some hsv_colorspace_in_rgb else None)
  else if (source =? RGBA)%Z then
    Some (if (target =? HSV)%Z then Some hsv_colorspace_in_rgba else None)
  else if (source =? HSV)%Z then
    Some (if (target =? RGBA)%Z then Some rgba_colorspace_in_hsv else None)
  else None.

Definition colorspace (current_format colorspace_ : Z) (method : value_method)
    (channel : Z) (values : list (list float)) (pixel_color : list float)
  : result (list float) :=
  if (current_format =? colorspace_)%Z
  then same_colorspace method channel values pixel_color
  else
    match colorspace_transitions current_format colorspace_ with
    | None => Raise NotImplementedException
    | Some None => Raise NotImplementedException
    | Some (Some transition) => transition method channel values pixel_color
    end.

(** Assignment to [self.current_image[x, y]], one integer per band.
    Pillow first converts the tuple to C integers, the first component to a
    [long long] and the others to an [int] (the format [Lii|i] of its
    [getink]), and raises [OverflowError] when one of them does not fit;
    only then is each component clipped to a byte.  (Pillow also takes three
    integers for an RGBA pixel; the code never passes it fewer than one per
    band.) *)
Definition CLIP8 (z : Z) : Z := Z.max 0 (Z.min 255 z).

(** A [bits]-bit signed C integer holds [z]. *)
Definition fits (bits : Z) (z : Z) : bool :=
  (- 2 ^ (bits - 1) <=? z)%Z && (z <? 2 ^ (bits - 1))%Z.

Definition fits_ink (color : list Z) : bool :=
  match color with
  | [] => true
  | first :: others => fits 64 first && forallb (fits 32) others
  end.

Definition put_pixel (bands : nat) (color : list Z) : result (list Z) :=
  if (length color =? bands)%nat
  then
    if fits_ink color
    then Ok (map CLIP8 color)
    else Raise (OverflowError "Python int too large to convert to C integer")
  else Raise (TypeError "color must be int, or tuple of one per band").

Definition transform_pixel (current_format : Z) (bands : nat)
    (channel_colorspace : Z) (method : value_method) (channel : Z)
    (values : list (list float)) (pixel : list Z) : result (list Z) :=
  match normalize_colorspace current_format pixel with
  | Raise e => Raise e
  | Ok pixel_color =>
      match colorspace current_format channel_colorspace method channel values pixel_color with
      | Raise e => Raise e
      | Ok pixel_color =>
          match denormalize_colorspace current_format pixel_color with
          | Raise e => Raise e
          | Ok pixel_color =>
              match float_to_int_number_space pixel_color with
              | Raise e => Raise e
              | Ok color => put_pixel bands color
              end
          end
      end
  end.

(** The two nested loops of [transform_pixels]: every pixel in turn, each
    written back before the next is read; the first failure ends the run with
    the pixels before it already changed. *)
Fixpoint transform_each (f : list Z -> result (list Z)) (done todo : list (list Z))
  : result unit * list (list Z) :=
  match todo with
  | [] => (Ok tt, done)
  | p :: rest =>
      match f p with
      | Raise e => (Raise e, (done ++ todo)%list)
      | Ok p' => transform_each f (done ++ [p'])%list rest
      end
  end.

Definition transform_pixels (method : value_method) (channel : Z)
    (values : list (list float)) : L unit :=
  let* channel_colorspace := lift (get_colorspace channel) in
  let* fmt := gets current_format in
  let* mode_name := gets current_mode in
  let* pixels := gets current_image in
  let* bands := lift (getmodebands mode_name) in
  let '(r, pixels') :=
    transform_each
      (transform_pixel fmt bands channel_colorspace method channel values) [] pixels in
  set_pixels pixels' ;;
  lift r.

(** *** Imagespace operation functions *)

Definition perform_operation (operation : Z) (channel : Z) (value : list float) : L unit :=
  let* value_method :=
    if (Z.land operation OFFSET =? OFFSET)%Z then ret offset_value
    else if (Z.land operation INVERT =? INVERT)%Z then ret invert_value
    else if (Z.land operation MIN =? MIN)%Z then ret min_clamp_value
    else if (Z.land operation MAX =? MAX)%Z then ret max_clamp_value
    else raise NotImplementedException in
  match value with
  | [x] => emit (Transform value_method channel x)
  | _ => ret tt
  end ;;
  transform_pixels value_method channel [value].

Definition perform_pre_operations : L unit :=
  let* opts := gets options in
  for_each opts (fun '(option, entries) =>
    if negb (Z.land option Channel.B =? Channel.B)%Z then ret tt
    else for_each entries (fun '(channel, value) =>
           perform_operation option channel [value])).

Definition perform_operations : L unit :=
  let* chans := gets channels in
  let* m := gets mode in
  for_each chans (fun '(channel, value) => perform_operation m channel [value]).

Definition perform_post_operations : L unit :=
  let* opts := gets options in
  for_each opts (fun '(option, entries) =>
    if negb (Z.land option Channel.A =? Channel.A)%Z then ret tt
    else for_each entries (fun '(channel, value) =>
           perform_operation option channel [value])).

Definition transform_images : L unit :=
  let* imgs := gets images in
  for_each imgs (fun '(input_image, outputs) =>
    let* disk := gets files in
    let* image := lift (image_open disk input_image) in
    emit (Load input_image) ;;
    let* fmt := lift (dict_get string_to_format (PyStr (im_mode image))) in
    set_current fmt (im_mode image) (pixels_of image) ;;
    perform_pre_operations ;;
    perform_operations ;;
    perform_post_operations ;;
    for_each outputs (fun output_name =>
      emit (Save input_image output_name) ;;
      let* pixels := gets current_image in
      let result_image :=
        {| im_format := im_format image; im_mode := im_mode image;
           im_bands := bands_of (length (im_bands image)) pixels |} in
      let* container := lift (pil_format_for output_name) in
      let* data := lift (pil_encode result_image (Some container)) in
      let* disk := gets files in
      set_files (<[output_name := data]> disk))).

(** The editor the script builds under "Start Output". *)
Definition editor (input_mode : Z) (input_channels : list (Z * float))
    (input_options : option_dict) (input_images : list (string * list string))
    (disk : filesystem) : Editor :=
  {| mode := input_mode; channels := input_channels; options := input_options;
     images := input_images; current_format := 0; current_mode := "";
     current_image := []; files := disk; trace := [] |}.

End Script.

End Legacy.

(** ** Small instances of the library interfaces

    The theorems below hold for every implementation of the interfaces.
    These instances exist to evaluate the code on concrete inputs: reductions
    as numpy computes them on a plane of a few values, a container format
    that is a header followed by the raw bytes, and conversions between the
    modes that only add, drop or repeat a band. *)

Module Sample.

Definition total (v : list float) : float := fold_left PrimFloat.add v 0%float.

Definition count (v : list float) : float := of_Z (Z.of_nat (length v)).

Definition average (v : list float) : float := (total v / count v)%float.

Definition least (v : list float) : float :=
  match v with
  | [] => nan
  | x :: v' => fold_left (fun a b => if (b <? a)%float then b else a) v' x
  end.

Definition greatest (v : list float) : float :=
  match v with
  | [] => nan
  | x :: v' => fold_left (fun a b => if (a <? b)%float then b else a) v' x
  end.

Fixpoint insert_sorted (x : float) (v : list float) : list float :=
  match v with
  | [] => [x]
  | y :: v' => if (x <=? y)%float then x :: v else y :: insert_sorted x v'
  end.

Definition middle (v : list float) : float :=
  let sorted := fold_right insert_sorted [] v in
  let n := length sorted in
  if Nat.even n
  then ((nth (n / 2 - 1) sorted nan + nth (n / 2) sorted nan) / 2)%float
  else nth (n / 2) sorted nan.

Definition deviation (v : list float) : float :=
  let m := average v in
  PrimFloat.sqrt (average (map (fun x => (x - m) * (x - m))%float v)).

#[export] Instance numpy : Numpy := {|
  reduce f v :=
    match f with
    | np_mean => average v
    | np_median => middle v
    | np_min => least v
    | np_max => greatest v
    | np_sum => total v
    | np_std => deviation v
    end;
  (* the conversion of x86-64: through a 32-bit integer, of which the low
     byte is kept *)
  cast_overflow x :=
    match trunc x with
    | Some z => if (Z.abs z <? 2 ^ 31)%Z then z mod 256 else 0
    | None => 0
    end
|}.

Definition byte_of (c : ascii) : Z := Z.of_nat (nat_of_ascii c).
Definition char_of (b : Z) : ascii := ascii_of_nat (Z.to_nat b).

Fixpoint chunks {X} (size : nat) (count : nat) (l : list X) : list (list X) :=
  match count with
  | O => []
  | S count' => take size l :: chunks size count' (drop size l)
  end.

(** The container: the format name, a colon, the mode, a colon, and the
    planes one after the other. *)
Definition encode (im : Image) (format : option string) : result bytes :=
  match format with
  | None => Raise (ValueError "unknown file extension" PyNone)
  | Some name =>
      Ok (name ++ ":" ++ im_mode im ++ ":"
          ++ string_of_list_ascii (map char_of (concat (im_bands im))))
  end.

Definition decode (data : bytes) : result Image :=
  match split_on ":" data with
  | name :: mode :: _ =>
      let body := substring (String.length name + String.length mode + 2)
                            (String.length data) data in
      match getmodebands mode with
      | Raise _ => Raise (OSError "cannot identify image file")
      | Ok n =>
          let raw := map byte_of (list_ascii_of_string body) in
          Ok {| im_format := Some name; im_mode := mode;
                im_bands := chunks (length raw / n) n raw |}
      end
  | _ => Raise (OSError "cannot identify image file")
  end.

Definition change_mode (im : Image) (mode : string) : result Image :=
  let to := fun bands => Ok {| im_format := None; im_mode := mode; im_bands := bands |} in
  match im_mode im, mode, im_bands im with
  | "RGB", "RGBA", [r; g; b] => to [r; g; b; map (fun _ => 255) r]
  | "RGBA", "RGB", [r; g; b; _] => to [r; g; b]
  | "L", "RGB", [l] => to [l; l; l]
  | "L", "RGBA", [l] => to [l; l; l; map (fun _ => 255) l]
  | "LA", "RGBA", [l; a] => to [l; l; l; a]
  | _, _, _ =>
      if String.eqb (im_mode im) mode then to (im_bands im)
      else Raise (ValueError "conversion not supported" (PyStr mode))
  end.

#[export] Instance pillow : Pillow := {|
  pil_convert := change_mode;
  pil_decode := decode;
  pil_encode := encode;
  EXTENSION_values := ["PNG"; "JPEG"; "JPEG"; "GIF"; "BMP"];
  pil_format_for filename :=
    if endswith filename ".png" then Ok "PNG"
    else if endswith filename ".jpg" then Ok "JPEG"
    else Raise (ValueError "unknown file extension" (PyStr filename))
|}.

(** [float] on the decimal texts used below; the payload of a data URI is
    carried unencoded. *)
#[export] Instance builtins : Builtins := {|
  py_float text :=
    match assoc text [("0", 0%float); ("0.0", 0%float); ("0.25", 0.25%float);
                      ("0.5", 0.5%float); ("1", 1%float); ("1.0", 1%float)] with
    | Some x => Ok x
    | None => Raise (ValueError "could not convert string to float:" (PyStr text))
    end;
  b64decode text := Ok text;
  b64encode data := data;
  requests_get url := Raise (OSError "no route to host")
|}.

(** colorsys on greys, where the hue and the saturation are 0. *)
#[export] Instance colorsys : Colorsys := {|
  rgb_to_hsv r g b := (0%float, 0%float, greatest [r; g; b]);
  hsv_to_rgb h s v := (v, v, v)
|}.

(** An RGB image of one red pixel, in a PNG container. *)
Definition red_pixel : Image :=
  {| im_format := Some "PNG"; im_mode := "RGB"; im_bands := [[255]; [0]; [0]] |}.

Definition cyan_pixel : Image :=
  {| im_format := Some "PNG"; im_mode := "RGB"; im_bands := [[0]; [255]; [255]] |}.

Definition black_pixel : Image :=
  {| im_format := Some "PNG"; im_mode := "RGB"; im_bands := [[0]; [0]; [0]] |}.

(** Two pixels whose red values are 0 and 255. *)
Definition two_pixels : Image :=
  {| im_format := Some "PNG"; im_mode := "RGB";
     im_bands := [[0; 255]; [10; 20]; [30; 40]] |}.

Definition png (im : Image) : bytes :=
  match encode im (Some "PNG") with Ok data => data | Raise _ => "" end.

(** Containers that do not hold every image as it is, in the manner of
    Pillow's: the encoder of "JPEG" is lossy, it keeps the seven high bits of
    every sample, so that the red pixel 255, 0, 0 is written as 254, 0, 0,
    which is what Pillow's JPEG encoder makes of it; "PSD" is a container
    that Pillow reads and has no encoder for, [Image.save] raises the
    [KeyError] of its table of encoders; the other containers are as
    above. *)
Definition coarse (im : Image) : Image :=
  {| im_format := im_format im; im_mode := im_mode im;
     im_bands := map (map (fun b => 2 * (b / 2))) (im_bands im) |}.

Definition encode_container (im : Image) (format : option string) : result bytes :=
  match format with
  | Some name =>
      if String.eqb name "JPEG" then encode (coarse im) format
      else if String.eqb name "PSD" then Raise (KeyError (PyStr "PSD"))
      else encode im format
  | None => encode im format
  end.

Definition container_pillow : Pillow := {|
  pil_convert := change_mode;
  pil_decode := decode;
  pil_encode := encode_container;
  EXTENSION_values := ["PNG"; "JPEG"; "JPEG"; "GIF"; "BMP"];
  pil_format_for filename :=
    if endswith filename ".png" then Ok "PNG"
    else if endswith filename ".jpg" then Ok "JPEG"
    else Raise (ValueError "unknown file extension" (PyStr filename))
|}.

(** The red pixel as an image whose container format is JPEG, and as one
    that was read from a PSD file. *)
Definition red_pixel_jpeg : Image :=
  {| im_format := Some "JPEG"; im_mode := "RGB"; im_bands := [[255]; [0]; [0]] |}.

Definition red_pixel_psd : Image :=
  {| im_format := Some "PSD"; im_mode := "RGB"; im_bands := [[255]; [0]; [0]] |}.

End Sample.

(** * Properties *)

(** ** The order of binary64 numbers *)

Section FloatOrder.

Lemma SFcompare_antisym (x y : spec_float) :
  SFcompare y x = option_map CompOpp (SFcompare x y).
Proof.
  destruct x as [sx|sx| |sx mx ex], y as [sy|sy| |sy my ey]; simpl; try reflexivity;
    try (destruct sx; reflexivity); try (destruct sy; reflexivity);
    try (destruct sx, sy; reflexivity).
  destruct sx, sy; simpl; try reflexivity;
    rewrite (Z.compare_antisym ex ey);
    destruct (ex ?= ey)%Z; simpl; try reflexivity;
    rewrite (Pos.compare_cont_antisym mx my Eq); simpl;
    destruct (Pos.compare_cont Eq mx my); reflexivity.
Qed.

Lemma not_nan_compare (x : float) :
  is_nan x = false -> SFcompare (Prim2SF x) (Prim2SF x) = Some Eq.
Proof.
  unfold is_nan. rewrite FloatAxioms.eqb_spec. unfold SFeqb.
  destruct (SFcompare (Prim2SF x) (Prim2SF x)) as [[]|]; simpl; congruence.
Qed.

Lemma not_nan_spec (x : float) : is_nan x = false -> Prim2SF x <> S754_nan.
Proof.
  intros Hx E. apply not_nan_compare in Hx. rewrite E in Hx. discriminate.
Qed.

Lemma SFcompare_defined (x y : spec_float) :
  x <> S754_nan -> y <> S754_nan -> exists c, SFcompare x y = Some c.
Proof.
  intros Hx Hy. destruct x, y; simpl; try congruence; eauto.
Qed.

Lemma leb_refl (x : float) : is_nan x = false -> (x <=? x)%float = true.
Proof.
  intros Hx. rewrite FloatAxioms.leb_spec. unfold SFleb.
  now rewrite (not_nan_compare x Hx).
Qed.

Lemma leb_total (x y : float) :
  is_nan x = false -> is_nan y = false ->
  (x <=? y)%float = false -> (y <=? x)%float = true.
Proof.
  intros Hx Hy. rewrite !FloatAxioms.leb_spec. unfold SFleb.
  rewrite (SFcompare_antisym (Prim2SF x) (Prim2SF y)).
  destruct (SFcompare_defined _ _ (not_nan_spec x Hx) (not_nan_spec y Hy)) as [c ->].
  destruct c; simpl; congruence.
Qed.

Lemma leb_not_nan_l (x y : float) : (x <=? y)%float = true -> is_nan x = false.
Proof.
  rewrite FloatAxioms.leb_spec. unfold SFleb, is_nan.
  rewrite FloatAxioms.eqb_spec. unfold SFeqb.
  destruct (Prim2SF x) as [sx|sx| |sx mx ex] eqn:Ex; simpl; try discriminate; intros _.
  - reflexivity.
  - destruct sx; reflexivity.
  - destruct sx; rewrite Z.compare_refl, Pos.compare_cont_refl; reflexivity.
Qed.

End FloatOrder.

(** ** Elementwise facts: [fmin], [fmax], [_clamp] and the byte round trip *)

Section Elementwise.
Import Engine.

Lemma fmin_le_right (x s : float) :
  is_nan x = false -> is_nan s = false -> (fmin x s <=? s)%float = true.
Proof.
  intros Hx Hs. unfold fmin. rewrite Hs, orb_false_r.
  destruct (x <=? s)%float eqn:E; [exact E | now apply leb_refl].
Qed.

Lemma fmin_le_left (x s : float) :
  is_nan x = false -> is_nan s = false -> (fmin x s <=? x)%float = true.
Proof.
  intros Hx Hs. unfold fmin. rewrite Hs, orb_false_r.
  destruct (x <=? s)%float eqn:E; [now apply leb_refl | now apply leb_total].
Qed.

Lemma fmax_ge_right (x s : float) :
  is_nan x = false -> is_nan s = false -> (s <=? fmax x s)%float = true.
Proof.
  intros Hx Hs. unfold fmax. rewrite Hs, orb_false_r.
  destruct (s <=? x)%float eqn:E; [exact E | now apply leb_refl].
Qed.

Lemma fmax_ge_left (x s : float) :
  is_nan x = false -> is_nan s = false -> (x <=? fmax x s)%float = true.
Proof.
  intros Hx Hs. unfold fmax. rewrite Hs, orb_false_r.
  destruct (s <=? x)%float eqn:E; [now apply leb_refl | now apply leb_total].
Qed.

Lemma fmin_cases (x s : float) : fmin x s = x \/ fmin x s = s.
Proof. unfold fmin. destruct ((x <=? s)%float || is_nan s); auto. Qed.

Lemma fmax_cases (x s : float) : fmax x s = x \/ fmax x s = s.
Proof. unfold fmax. destruct ((s <=? x)%float || is_nan s); auto. Qed.

Lemma _clamp_in_unit (x : float) : in_unit (_clamp x) = true.
Proof.
  unfold _clamp, fmin, fmax.
  change (is_nan 1) with false. change (is_nan 0) with false.
  rewrite !orb_false_r.
  destruct (x <=? 1)%float eqn:E1.
  - destruct (0 <=? x)%float eqn:E0.
    + unfold in_unit. now rewrite E0, E1.
    + reflexivity.
  - reflexivity.
Qed.

Lemma _clamp_id (x : float) : in_unit x = true -> _clamp x = x.
Proof.
  unfold in_unit, _clamp, fmin, fmax. intros [E0 E1]%andb_prop.
  change (is_nan 1) with false. change (is_nan 0) with false.
  now rewrite !orb_false_r, E1, E0.
Qed.

Lemma in_unit_not_nan (x : float) : in_unit x = true -> is_nan x = false.
Proof.
  unfold in_unit. intros [_ E1]%andb_prop. exact (leb_not_nan_l _ _ E1).
Qed.

(** A property checked on each of the 256 bytes holds of every byte. *)
Definition all_bytes : list Z := map Z.of_nat (seq 0 256).

Lemma byte_in_all (b : Z) : is_byte b = true -> In b all_bytes.
Proof.
  unfold is_byte. intros [H0 H1]%andb_prop.
  apply Z.leb_le in H0. apply Z.leb_le in H1.
  unfold all_bytes. apply in_map_iff. exists (Z.to_nat b). split; [lia|].
  apply in_seq. lia.
Qed.

Lemma for_all_bytes (P : Z -> bool) :
  forallb P all_bytes = true -> forall b, is_byte b = true -> P b = true.
Proof.
  intros HP b Hb. rewrite forallb_forall in HP. apply HP, byte_in_all, Hb.
Qed.

Lemma normalize_in_unit (b : Z) : is_byte b = true -> in_unit (normalize b) = true.
Proof. apply (for_all_bytes (fun b => in_unit (normalize b))). vm_compute. reflexivity. Qed.

End Elementwise.

(** ** Invariants of monadic code *)

Section Maintains.
Context {S : Type} (I : S -> Prop).

(** [m] maintains [I]: from a state where [I] holds it ends, by return or by
    exception, in a state where [I] holds. *)
Definition maintains {A} (m : M S A) : Prop :=
  forall s, I s -> I (state_after (m s)).

Lemma maintains_ret {A} (a : A) : maintains (ret a).
Proof. intros s Hs. exact Hs. Qed.

Lemma maintains_raise {A} (e : exn) : maintains (@raise S A e).
Proof. intros s Hs. exact Hs. Qed.

Lemma maintains_lift {A} (r : result A) : maintains (lift r).
Proof. intros s Hs. exact Hs. Qed.

Lemma maintains_gets {A} (f : S -> A) : maintains (gets f).
Proof. intros s Hs. exact Hs. Qed.

Lemma maintains_modify (f : S -> S) :
  (forall s, I s -> I (f s)) -> maintains (modify f).
Proof. intros Hf s Hs. apply Hf, Hs. Qed.

Lemma maintains_bind {A B} (m : M S A) (k : A -> M S B) :
  maintains m -> (forall a, maintains (k a)) -> maintains (bind m k).
Proof.
  intros Hm Hk s Hs. unfold bind, state_after.
  specialize (Hm s Hs). unfold state_after in Hm.
  destruct (m s) as [[a|e] s']; simpl in *.
  - apply Hk, Hm.
  - exact Hm.
Qed.

Lemma maintains_for_each {A} (l : list A) (body : A -> M S unit) :
  (forall a, maintains (body a)) -> maintains (for_each l body).
Proof.
  intros Hb. induction l as [|a l IH]; simpl.
  - apply maintains_ret.
  - apply maintains_bind; [apply Hb | intros _; exact IH].
Qed.

Lemma maintains_if {A} (b : bool) (m1 m2 : M S A) :
  maintains m1 -> maintains m2 -> maintains (if b then m1 else m2).
Proof. destruct b; auto. Qed.

End Maintains.

(** ** The engine keeps what its setters keep *)

Section EngineInvariant.
Import Engine.
Context `{np : Numpy} `{pil : Pillow}.
Variable I : Session -> Prop.
Hypothesis I_handle : forall x s, I s -> I (update (set_image_handle x) s).
Hypothesis I_loaded : forall x s, I s -> I (update (set_loaded_channels x) s).
Hypothesis I_current : forall x s, I s -> I (update (set_current_format x) s).
Hypothesis I_output : forall x s, I s -> I (update (set_output_format x) s).
Hypothesis I_write : forall v s,
  I s -> I (record_write (if _auto_clamp (self s) then map _clamp v else v) s).

Local Ltac kept :=
  repeat first
    [ apply maintains_ret | apply maintains_raise | apply maintains_lift
    | apply maintains_gets
    | apply maintains_modify; solve [auto]
    | apply maintains_if
    | apply maintains_bind; [|intros ?] ].

Lemma maintains_attr {A} (f : ColorspaceModifier -> A) : maintains I (attr f).
Proof. apply maintains_gets. Qed.

Lemma maintains__close_channels : maintains I _close_channels.
Proof.
  unfold _close_channels, attr, assign.
  apply maintains_bind; [kept|]. intros [bands|]; kept.
Qed.

Lemma maintains__convert_image new_format : maintains I (_convert_image new_format).
Proof.
  unfold _convert_image, attr, assign. apply maintains_if; [kept|].
  apply maintains_bind; [apply maintains__close_channels|]. intros _. kept.
Qed.

Lemma maintains__get_channel channel : maintains I (_get_channel channel).
Proof.
  unfold _get_channel, attr, assign.
  apply maintains_bind; [kept|]. intros loaded.
  apply maintains_bind; [destruct loaded; kept|]. intros _.
  kept. destruct (_ ≫= _); kept.
Qed.

Lemma maintains__pre channel : maintains I (_pre channel).
Proof.
  unfold _pre, attr.
  apply maintains_bind; [kept|]. intros c.
  apply maintains_bind; [kept|]. intros current.
  apply maintains_bind.
  - apply maintains_if; [|kept].
    apply maintains_bind; [kept|]. intros target. apply maintains__convert_image.
  - intros _. apply maintains_bind; [apply maintains__get_channel|]. intros v. kept.
Qed.

Lemma maintains__post channel value : maintains I (_post channel value).
Proof.
  intros s Hs. unfold _post, _set_channel, attr, assign, state_after, bind, gets, lift,
    modify, raise. simpl.
  destruct (str_index (upper channel) (_current_format (self s))) as [ix|e]; simpl;
    [|exact Hs].
  destruct (_loaded_channels (self s)) as [bands|]; simpl; [|exact Hs].
  destruct (ix <? length bands)%nat; simpl; [|exact Hs].
  set (w := if _auto_clamp (self s) then map _clamp value else value).
  exact (I_write value
           (update (set_loaded_channels (Some (<[ix := map quantize w]> bands))) s)
           (I_loaded _ s Hs)).
Qed.

Lemma maintains_save_image output_format : maintains I (save_image output_format).
Proof.
  unfold save_image, attr.
  apply maintains_bind.
  { apply maintains_if; [kept|]. apply maintains_if; kept. }
  intros fmt. apply maintains_bind; [kept|]. intros current.
  apply maintains_bind.
  { apply maintains_if; [apply maintains__convert_image|kept]. }
  intros _. apply maintains_bind; [apply maintains__close_channels|]. intros _. kept.
Qed.

Lemma maintains_convert new_format : maintains I (convert new_format).
Proof.
  unfold convert, assign.
  apply maintains_bind; [apply maintains__convert_image|]. intros _. kept.
Qed.

Lemma maintains_invert channels : maintains I (invert channels).
Proof.
  apply maintains_for_each. intros channel.
  apply maintains_bind; [apply maintains__pre|]. intros [v c]. apply maintains__post.
Qed.

Lemma maintains_offset channels : maintains I (offset channels).
Proof.
  apply maintains_for_each. intros [channel x].
  apply maintains_bind; [apply maintains__pre|]. intros [v c]. apply maintains__post.
Qed.

Lemma maintains_scale channels : maintains I (scale channels).
Proof.
  apply maintains_for_each. intros [channel x].
  apply maintains_bind; [apply maintains__pre|]. intros [v c]. apply maintains__post.
Qed.

Lemma maintains_threshold channels : maintains I (threshold channels).
Proof.
  apply maintains_for_each. intros [channel color].
  apply maintains_bind; [apply maintains__pre|]. intros [v c].
  apply maintains_bind; [kept|]. intros f. apply maintains__post.
Qed.

Lemma maintains_clamp channels : maintains I (clamp channels).
Proof.
  apply maintains_for_each. intros [[channel mode] color].
  apply maintains_bind; [apply maintains__pre|]. intros [v c].
  apply maintains_bind; [kept|]. intros known. apply maintains_if; [kept|].
  apply maintains_bind; [kept|]. intros f.
  apply maintains_bind; [kept|]. intros known'. apply maintains_if; [kept|].
  apply maintains_bind; [kept|]. intros g. apply maintains__post.
Qed.

Lemma maintains_perform (c : call) : maintains I (perform c).
Proof.
  destruct c; simpl.
  - apply maintains_invert.
  - apply maintains_offset.
  - apply maintains_scale.
  - apply maintains_threshold.
  - apply maintains_clamp.
Qed.

Lemma maintains_perform_all (calls : list call) : maintains I (perform_all calls).
Proof. apply maintains_for_each, maintains_perform. Qed.

End EngineInvariant.

(** ** C5: the auto-clamp invariant *)

Section AutoClamp.
Import Engine.
Context `{np : Numpy} `{pil : Pillow}.

(** The auto-clamp flag is on and every plane that [_set_channel] has
    received so far holds only values of [0,1]. *)
Definition clamped (s : Session) : Prop :=
  _auto_clamp (self s) = true /\
  Forall (Forall (fun x => in_unit x = true)) (written s).

Lemma clamped_write (v : list float) (s : Session) :
  clamped s ->
  clamped (record_write (if _auto_clamp (self s) then map _clamp v else v) s).
Proof.
  intros [Hauto Hw]. split; [exact Hauto|]. simpl. rewrite Hauto.
  constructor; [|exact Hw].
  induction v as [|x v IH]; simpl; constructor;
    [apply _clamp_in_unit | exact IH].
Qed.

(** C5.  With the auto-clamp flag enabled, whatever operations (invert,
    offset, scale, threshold, clamp) are called one after the other, with
    whatever channels and parameters, and whether they return or raise, every
    plane handed to the write-back holds only values of [0,1] in normalized
    space, before its conversion to bytes; and the flag stays enabled. *)
Theorem auto_clamp_invariant (calls : list call) (s : Session) :
  clamped s -> clamped (state_after (perform_all calls s)).
Proof.
  apply (maintains_perform_all clamped); try (intros x s' [Ha Hw]; split; assumption).
  exact clamped_write.
Qed.

End AutoClamp.

(** The invariant on a concrete run: an offset that leaves [0,1], a scale and
    an invert on the two-pixel image. *)
Lemma auto_clamp_invariant_witness :
  let s := Engine.new {| Engine._image_handle := Sample.two_pixels;
                         Engine._loaded_channels := None;
                         Engine._auto_clamp := true;
                         Engine._debug := false;
                         Engine._image_format := Some "PNG";
                         Engine._current_format := "RGB";
                         Engine._output_format := "RGB" |} in
  clamped (state_after
    (Engine.perform_all (np := Sample.numpy) (pil := Sample.pillow)
       [Engine.Offset [("r", 0.5%float)]; Engine.Scale [("g", 100%float)];
        Engine.Invert ["b"]] s)).
Proof.
  intros s.
  apply (auto_clamp_invariant (np := Sample.numpy) (pil := Sample.pillow)).
  split; [reflexivity | constructor].
Defined.

(** ** C7: [load_image] and [set_handle] test the container format *)

Section ContainerFormat.
Import Engine.
Context `{np : Numpy} `{pil : Pillow}.

Lemma perform_all_keeps_image_format (calls : list call) (s : Session) :
  _image_format (self (state_after (perform_all calls s))) = _image_format (self s).
Proof.
  apply (maintains_perform_all
           (fun s' => _image_format (self s') = _image_format (self s)));
    auto.
Qed.

Lemma __init___image_format image auto debug o :
  __init__ image auto debug = Ok o -> _image_format o = im_format image.
Proof.
  unfold __init__. destruct (negb _); [discriminate|]. intros [= <-]. reflexivity.
Qed.

(** C7.  Take a session constructed from an image whose container format
    name is not one of the five mode names, after any operations.  For every
    file that opens as an image, of whatever mode, [load_image] raises
    "Unsupported image format" with the remembered container format, and so
    does [set_handle] for every image handed to it.  The remembered format is
    the same after the failed call, so every later call fails alike. *)
Theorem load_image_tests_container_format
    (image : Image) (auto_clamp debug : bool) (o : ColorspaceModifier)
    (calls : list call) (fs : filesystem) (filename : string) (new_image : Image) :
  __init__ image auto_clamp debug = Ok o ->
  dict_has SUPPORTED_PIL_MODES (opt_str (im_format image)) = false ->
  image_open fs filename = Ok new_image ->
  let s := state_after (perform_all calls (new o)) in
  let unsupported := ValueError "Unsupported image format" (opt_str (im_format image)) in
  outcome (load_image fs filename s) = Raise unsupported /\
  outcome (set_handle new_image s) = Raise unsupported /\
  _image_format (self (state_after (load_image fs filename s))) = im_format image /\
  _image_format (self (state_after (set_handle new_image s))) = im_format image.
Proof.
  intros Hinit Hfmt Hopen s unsupported.
  assert (Hs : _image_format (self s) = im_format image).
  { unfold s. rewrite perform_all_keeps_image_format. simpl.
    eapply __init___image_format, Hinit. }
  unfold load_image, set_handle, outcome, state_after, bind, lift, attr, assign,
    gets, modify, raise.
  rewrite Hopen. simpl. rewrite Hs, Hfmt. simpl. auto.
Qed.

End ContainerFormat.

(** A session on a PNG file; a second PNG file is loaded into it. *)
Lemma load_image_tests_container_format_witness :
  let fs : filesystem := {[ "b.png" := Sample.png Sample.red_pixel ]} in
  let o := {| Engine._image_handle := Sample.two_pixels;
              Engine._loaded_channels := None;
              Engine._auto_clamp := true;
              Engine._debug := false;
              Engine._image_format := Some "PNG";
              Engine._current_format := "RGB";
              Engine._output_format := "RGB" |} in
  let s := state_after
    (Engine.perform_all (np := Sample.numpy) (pil := Sample.pillow)
       [Engine.Invert ["r"]] (Engine.new o)) in
  let unsupported := ValueError "Unsupported image format" (PyStr "PNG") in
  outcome (Engine.load_image (pil := Sample.pillow) fs "b.png" s) = Raise unsupported /\
  outcome (Engine.set_handle Sample.red_pixel s) = Raise unsupported /\
  Engine._image_format
    (Engine.self (state_after (Engine.load_image (pil := Sample.pillow) fs "b.png" s)))
    = Some "PNG" /\
  Engine._image_format
    (Engine.self (state_after (Engine.set_handle Sample.red_pixel s))) = Some "PNG".
Proof.
  intros fs o s unsupported.
  apply (load_image_tests_container_format (np := Sample.numpy) (pil := Sample.pillow)
           Sample.two_pixels true false o [Engine.Invert ["r"]] fs "b.png"
           Sample.red_pixel).
  - reflexivity.
  - reflexivity.
  - vm_compute. reflexivity.
Defined.

(** ** C9: saving an untouched image *)

Section RoundTrip.
Import Engine.
Context `{np : Numpy} `{pil : Pillow}.

(** C9, as the code has it.  For every image in one of the five supported
    modes, the constructor succeeds, and [save_image] with
    [output_format='default'] on the fresh session hands the encoder the very
    image that was loaded (same mode, same planes, no conversion, no merge
    and no arithmetic) together with the container format it was read from.
    What it writes to the stream is exactly the encoding of that image in
    that container, whether the encoder returns or raises, and the session
    is left as it was.  So when the codec reads back what it writes for this
    image, the image written has the mode and the pixel data of the
    original, exactly. *)
Theorem save_default_round_trip (image : Image) (auto_clamp debug : bool) :
  dict_has SUPPORTED_PIL_MODES (PyStr (im_mode image)) = true ->
  exists o,
    __init__ image auto_clamp debug = Ok o /\
    save_image "default" (new o) = (Ok (image, im_format image), new o) /\
    save_image_into_stream "default" (new o)
    = (pil_encode image (im_format image), new o) /\
    (reads_back image (im_format image) ->
     forall data,
       outcome (save_image_into_stream "default" (new o)) = Ok data ->
       exists written,
         pil_decode data = Ok written /\
         im_mode written = im_mode image /\
         im_bands written = im_bands image).
Proof.
  intros Hmode. unfold __init__. rewrite Hmode. simpl.
  eexists. split; [reflexivity|].
  match goal with
  | |- ?P /\ _ =>
      assert (Hsave : P);
      [ unfold save_image, bind, attr, gets, _close_channels, ret; simpl;
        rewrite String.eqb_refl; reflexivity |]
  end.
  split; [exact Hsave|].
  match goal with
  | |- ?P /\ _ =>
      assert (Hstream : P);
      [ unfold save_image_into_stream; unfold bind at 1; rewrite Hsave; reflexivity |]
  end.
  split; [exact Hstream|].
  intros Hcodec data Hdata. rewrite Hstream in Hdata. apply Hcodec, Hdata.
Qed.

End RoundTrip.

(** The sample container holds the planes as they are: it reads back the
    two-pixel image. *)
Lemma sample_reads_back_two_pixels :
  Engine.reads_back (pil := Sample.pillow) Sample.two_pixels (Some "PNG").
Proof.
  intros data Hdata. vm_compute in Hdata. injection Hdata as <-.
  eexists. split; [vm_compute; reflexivity|]. split; reflexivity.
Qed.

(** The two-pixel image from a PNG file: the stream holds its encoding, which
    decodes to the same two pixels. *)
Lemma save_default_round_trip_witness :
  exists o data written,
    Engine.__init__ Sample.two_pixels true false = Ok o /\
    Engine.save_image (pil := Sample.pillow) "default" (Engine.new o)
    = (Ok (Sample.two_pixels, Some "PNG"), Engine.new o) /\
    Engine.save_image_into_stream (pil := Sample.pillow) "default" (Engine.new o)
    = (Ok data, Engine.new o) /\
    pil_decode (Pillow := Sample.pillow) data = Ok written /\
    im_mode written = "RGB" /\
    im_bands written = [[0; 255]; [10; 20]; [30; 40]].
Proof.
  destruct (save_default_round_trip (pil := Sample.pillow) Sample.two_pixels true false
              eq_refl) as (o & Hinit & Hsave & Hstream & Hback).
  assert (Hdata : outcome (Engine.save_image_into_stream (pil := Sample.pillow)
                             "default" (Engine.new o))
                  = Ok (Sample.png Sample.two_pixels)).
  { rewrite Hstream. reflexivity. }
  destruct (Hback sample_reads_back_two_pixels _ Hdata) as (written & Hdec & Hm & Hb).
  exists o, (Sample.png Sample.two_pixels), written.
  split; [exact Hinit|]. split; [exact Hsave|]. split; [exact Hstream|].
  split; [exact Hdec|]. split; [exact Hm | exact Hb].
Defined.

(** The claim C9 at two images whose container does not hold them as they
    are; no operation, [save_image] with the default format.  The red pixel
    255, 0, 0 with the container format JPEG: the engine hands over the
    image as it is, the encoder writes it as JPEG, and the image in the
    stream is the pixel 254, 0, 0, not the original.  The same pixel read
    from a PSD file: [Image.save] has no encoder for the container,
    [save_image] raises its [KeyError], and nothing is written. *)
Lemma save_default_not_the_original :
  (exists o data written,
     Engine.__init__ Sample.red_pixel_jpeg true false = Ok o /\
     Engine.save_image_into_stream (pil := Sample.container_pillow) "default"
       (Engine.new o) = (Ok data, Engine.new o) /\
     pil_decode (Pillow := Sample.container_pillow) data = Ok written /\
     im_mode written = "RGB" /\
     im_bands written = [[254]; [0]; [0]] /\
     im_bands written <> im_bands Sample.red_pixel_jpeg) /\
  (exists o,
     Engine.__init__ Sample.red_pixel_psd true false = Ok o /\
     Engine.save_image_into_stream (pil := Sample.container_pillow) "default"
       (Engine.new o) = (Raise (KeyError (PyStr "PSD")), Engine.new o)).
Proof.
  split.
  - eexists. eexists. eexists.
    split; [reflexivity|].
    split; [vm_compute; reflexivity|].
    split; [vm_compute; reflexivity|].
    split; [reflexivity|].
    split; [reflexivity|].
    vm_compute. discriminate.
  - eexists. split; [reflexivity|]. vm_compute. reflexivity.
Qed.

(** ** One channel operation, executed symbolically *)

Section ChannelAccess.
Import Engine.
Context `{np : Numpy} `{pil : Pillow}.

(** The first statement of [_pre]: a name that is not one character long is
    looked up in [COLOR_CHANNEL_TO_SHORTHAND]. *)
Definition shorthand_of (channel : string) : result string :=
  if negb (String.length channel =? 1)%nat
  then dict_get COLOR_CHANNEL_TO_SHORTHAND (PyStr (lower channel))
  else Ok channel.

(** The planes the next access works on: the cached ones, or the bands of
    the image when none are cached. *)
Definition planes (s : Session) : list plane :=
  match _loaded_channels (self s) with
  | Some bands => bands
  | None => split (_image_handle (self s))
  end.

Definition materialized (s : Session) : Session :=
  update (set_loaded_channels (Some (planes s))) s.

(** What [_post] passes on. *)
Definition post_value (auto : bool) (v : list float) : list float :=
  if auto then map _clamp v else v.

(** The session after plane [ix] has been replaced by the bytes of
    [value]. *)
Definition stored (ix : nat) (value : list float) (s : Session) : Session :=
  record_write value
    (update (set_loaded_channels (Some (<[ix := map quantize value]> (planes s)))) s).

Lemma _pre_present (channel sh : string) (s : Session) (ix : nat) (band : plane) :
  shorthand_of channel = Ok sh ->
  str_in (upper sh) (_current_format (self s)) = true ->
  str_index (upper (upper sh)) (_current_format (self s)) = Ok ix ->
  planes s !! ix = Some band ->
  _pre channel s = (Ok (map normalize band, upper sh), materialized s).
Proof.
  intros Hsh Hin Hix Hband.
  unfold _pre, bind, attr, gets, lift, ret.
  revert Hsh. unfold shorthand_of.
  destruct (negb (String.length channel =? 1)%nat); intros Hsh;
    [rewrite Hsh | injection Hsh as ->]; simpl; rewrite Hin; simpl.
  all: unfold _get_channel, bind, attr, gets, assign, modify, lift, ret, raise.
  all: unfold planes in Hband; unfold materialized, planes.
  all: destruct s as [o w]; simpl in *.
  all: destruct (_loaded_channels o) as [bands|] eqn:Hl; simpl.
  all: rewrite ?Hl; simpl; rewrite Hix; simpl; rewrite ?Hl; simpl; rewrite Hband.
  all: try reflexivity.
  all: destruct o; simpl in *; subst; reflexivity.
Qed.

Lemma _post_present (c : string) (value : list float) (s : Session) (ix : nat)
    (bands : list plane) :
  _loaded_channels (self s) = Some bands ->
  str_index (upper c) (_current_format (self s)) = Ok ix ->
  (ix < length bands)%nat ->
  _post c value s =
    (Ok tt, stored ix (post_value (_auto_clamp (self s)) value) s).
Proof.
  intros Hl Hix Hlt.
  unfold _post, _set_channel, bind, attr, gets, assign, modify, lift, ret, raise.
  rewrite Hix. simpl. rewrite Hl.
  apply Nat.ltb_lt in Hlt. rewrite Hlt.
  unfold stored, planes, post_value. rewrite Hl. reflexivity.
Qed.

(** A body "read the channel, compute, write it back" on a channel that the
    current mode has. *)
Lemma channel_update (f : list float -> list float) (channel sh : string)
    (s : Session) (ix : nat) (band : plane) :
  shorthand_of channel = Ok sh ->
  str_in (upper sh) (_current_format (self s)) = true ->
  str_index (upper (upper sh)) (_current_format (self s)) = Ok ix ->
  planes s !! ix = Some band ->
  (let* (v, c) := _pre channel in _post c (f v)) s =
    (Ok tt, stored ix (post_value (_auto_clamp (self s)) (f (map normalize band))) s).
Proof.
  intros Hsh Hin Hix Hband. unfold bind at 1.
  rewrite (_pre_present channel sh s ix band Hsh Hin Hix Hband).
  rewrite (_post_present (upper sh) _ (materialized s) ix (planes s)).
  - reflexivity.
  - reflexivity.
  - exact Hix.
  - apply lookup_lt_Some in Hband. exact Hband.
Qed.

Lemma invert_present (channel sh : string) (s : Session) (ix : nat) (band : plane) :
  shorthand_of channel = Ok sh ->
  str_in (upper sh) (_current_format (self s)) = true ->
  str_index (upper (upper sh)) (_current_format (self s)) = Ok ix ->
  planes s !! ix = Some band ->
  invert [channel] s =
    (Ok tt, stored ix (post_value (_auto_clamp (self s))
                         (map (fun x => 1 - x)%float (map normalize band))) s).
Proof.
  intros Hsh Hin Hix Hband. unfold invert, for_each. unfold bind at 1.
  rewrite (channel_update (map (fun x => 1 - x)%float) channel sh s ix band
             Hsh Hin Hix Hband).
  reflexivity.
Qed.

End ChannelAccess.

(** ** C8: invert twice *)

Section InvertTwice.
Import Engine.
Context `{np : Numpy} `{pil : Pillow}.

(** What one [invert] does to one stored byte: normalize, subtract from 1,
    clamp when the flag is on, multiply by 255 and truncate. *)
Definition invert_byte (auto : bool) (b : Z) : Z :=
  quantize (let x := (1 - normalize b)%float in if auto then _clamp x else x).

Lemma invert_plane (auto : bool) (band : plane) :
  map quantize (post_value auto (map (fun x => 1 - x)%float (map normalize band)))
  = map (invert_byte auto) band.
Proof.
  unfold post_value, invert_byte.
  destruct auto; rewrite !map_map; reflexivity.
Qed.

Lemma invert_byte_is_byte (auto : bool) (b : Z) :
  is_byte b = true -> is_byte (invert_byte auto b) = true.
Proof.
  destruct auto.
  - apply (for_all_bytes (fun b => is_byte (invert_byte true b))).
    vm_compute. reflexivity.
  - apply (for_all_bytes (fun b => is_byte (invert_byte false b))).
    vm_compute. reflexivity.
Qed.

(** The byte round trip is off by at most one step of the 255 scale. *)
Lemma invert_byte_twice (auto : bool) (b : Z) :
  is_byte b = true -> Z.abs (invert_byte auto (invert_byte auto b) - b) <= 1.
Proof.
  intros Hb. apply Z.leb_le. revert b Hb. destruct auto.
  - apply (for_all_bytes
             (fun b => Z.abs (invert_byte true (invert_byte true b) - b) <=? 1)%Z).
    vm_compute. reflexivity.
  - apply (for_all_bytes
             (fun b => Z.abs (invert_byte false (invert_byte false b) - b) <=? 1)%Z).
    vm_compute. reflexivity.
Qed.

(** It is not exact: the byte 1 comes back as 0, because 1 - 254/255 is
    below 1/255 in binary64. *)
Lemma invert_byte_twice_drifts (auto : bool) :
  invert_byte auto 1 = 254 /\ invert_byte auto 254 = 0 /\
  invert_byte auto (invert_byte auto 1) = 0.
Proof. destruct auto; vm_compute; auto. Qed.

Lemma stored_planes (ix : nat) (value : list float) (s : Session) :
  planes (stored ix value s) = <[ix := map quantize value]> (planes s).
Proof. reflexivity. Qed.

Lemma invert_twice_present (channel sh : string) (s : Session) (ix : nat) (band : plane) :
  shorthand_of channel = Ok sh ->
  str_in (upper sh) (_current_format (self s)) = true ->
  str_index (upper (upper sh)) (_current_format (self s)) = Ok ix ->
  planes s !! ix = Some band ->
  exists s2,
    (invert [channel] ;; invert [channel]) s = (Ok tt, s2) /\
    planes s2 =
      <[ix := map (invert_byte (_auto_clamp (self s)))
                (map (invert_byte (_auto_clamp (self s))) band)]> (planes s).
Proof.
  intros Hsh Hin Hix Hband.
  pose proof (lookup_lt_Some _ _ _ Hband) as Hlt.
  unfold bind at 1.
  rewrite (invert_present channel sh s ix band Hsh Hin Hix Hband).
  cbv beta iota.
  set (s1 := stored ix _ s).
  rewrite (invert_present channel sh s1 ix
             (map (invert_byte (_auto_clamp (self s))) band) Hsh Hin Hix).
  - eexists. split; [reflexivity|].
    unfold s1. rewrite !stored_planes. simpl.
    rewrite !invert_plane, list_insert_insert_eq. reflexivity.
  - unfold s1. rewrite stored_planes, invert_plane.
    apply list_lookup_insert_eq. exact Hlt.
Qed.

Lemma supported_mode_cases (mode : string) (names : list string) :
  assoc mode SUPPORTED_PIL_MODES = Some names ->
  (mode = "RGB" /\ names = ["red"; "green"; "blue"]) \/
  (mode = "RGBA" /\ names = ["red"; "green"; "blue"; "alpha"]) \/
  (mode = "L" /\ names = ["luminance"]) \/
  (mode = "LA" /\ names = ["luminance"; "alpha"]) \/
  (mode = "HSV" /\ names = ["hue"; "saturation"; "value"]).
Proof.
  unfold SUPPORTED_PIL_MODES. simpl.
  repeat match goal with
         | |- context [String.eqb mode ?k] =>
             destruct (String.eqb_spec mode k) as [->|_]; [intros [= <-]; tauto|]
         end.
  discriminate.
Qed.

(** C8.  Take an image in one of the five supported modes, with bytes in its
    planes, and one of the channels of its mode, given by its full name or by
    its shorthand letter.  On a fresh session, with the auto-clamp flag on or
    off, two calls of [invert] on that channel both return; afterwards every
    other plane is what it was, and every byte of the channel's plane is
    within one step of the 255 scale of the byte it started from (the
    quantization error: the byte itself is not always recovered, see
    [invert_byte_twice_drifts]). *)
Theorem invert_twice_restores
    (image : Image) (auto_clamp debug : bool) (names : list string)
    (name channel : string) (ix : nat) (band : plane) :
  assoc (im_mode image) SUPPORTED_PIL_MODES = Some names ->
  names !! ix = Some name ->
  channel = name \/ assoc name COLOR_CHANNEL_TO_SHORTHAND = Some channel ->
  im_bands image !! ix = Some band ->
  Forall (fun b => is_byte b = true) band ->
  exists o s2 band2,
    __init__ image auto_clamp debug = Ok o /\
    (invert [channel] ;; invert [channel]) (new o) = (Ok tt, s2) /\
    (forall j, j <> ix -> planes s2 !! j = im_bands image !! j) /\
    planes s2 !! ix = Some band2 /\
    Forall2 (fun b b2 => Z.abs (b2 - b) <= 1) band band2.
Proof.
  intros Hmode Hname Hchannel Hband Hbytes.
  pose proof (lookup_lt_Some _ _ _ Hband) as Hlt.
  assert (Hinit : __init__ image auto_clamp debug
                  = Ok {| _image_handle := image; _loaded_channels := None;
                          _auto_clamp := auto_clamp; _debug := debug;
                          _image_format := im_format image;
                          _current_format := im_mode image;
                          _output_format := im_mode image |}).
  { unfold __init__, dict_has. rewrite Hmode. reflexivity. }
  set (o := {| _image_handle := image |}) in Hinit.
  assert (Hrun : exists sh,
             shorthand_of channel = Ok sh /\
             str_in (upper sh) (im_mode image) = true /\
             str_index (upper (upper sh)) (im_mode image) = Ok ix).
  { apply supported_mode_cases in Hmode.
    destruct Hmode as [[-> ->]|[[-> ->]|[[-> ->]|[[-> ->]|[-> ->]]]]];
      repeat (destruct ix as [|ix]; simpl in Hname; try discriminate);
      injection Hname as <-;
      (destruct Hchannel as [->|[= <-]]; eexists; repeat split; reflexivity). }
  destruct Hrun as (sh & Hsh & Hin & Hix).
  destruct (invert_twice_present channel sh (new o) ix band Hsh Hin Hix Hband)
    as (s2 & Hs2 & Hplanes).
  exists o, s2, (map (invert_byte auto_clamp) (map (invert_byte auto_clamp) band)).
  split; [exact Hinit|]. split; [exact Hs2|].
  rewrite Hplanes. simpl. repeat split.
  - intros j Hj. apply list_lookup_insert_ne. congruence.
  - apply list_lookup_insert_eq. exact Hlt.
  - clear -Hbytes. induction Hbytes as [|b band Hb _ IH]; simpl; constructor.
    + apply invert_byte_twice, Hb.
    + exact IH.
Qed.

End InvertTwice.

(** The red channel of the two-pixel image, by its full name. *)
Lemma invert_twice_restores_witness :
  exists o s2 band2,
    Engine.__init__ Sample.two_pixels true false = Ok o /\
    (Engine.invert (np := Sample.numpy) (pil := Sample.pillow) ["red"] ;;
     Engine.invert (np := Sample.numpy) (pil := Sample.pillow) ["red"]) (Engine.new o)
    = (Ok tt, s2) /\
    (forall j, j <> 0%nat -> planes s2 !! j = im_bands Sample.two_pixels !! j) /\
    planes s2 !! 0%nat = Some band2 /\
    Forall2 (fun b b2 => Z.abs (b2 - b) <= 1) [0; 255] band2.
Proof.
  apply (invert_twice_restores (np := Sample.numpy) (pil := Sample.pillow)
           Sample.two_pixels true false ["red"; "green"; "blue"] "red" "red" 0 [0; 255]).
  - reflexivity.
  - reflexivity.
  - left. reflexivity.
  - reflexivity.
  - repeat constructor.
Defined.

(** ** What a successful [_pre] leaves behind *)

Section PreInversion.
Import Engine.
Context `{np : Numpy} `{pil : Pillow}.

Lemma _get_channel_inv (channel : string) (s s1 : Session) (v : list float) :
  _get_channel channel s = (Ok v, s1) ->
  exists ix bands band,
    _loaded_channels (self s1) = Some bands /\
    str_index (upper channel) (_current_format (self s1)) = Ok ix /\
    bands !! ix = Some band /\
    v = map normalize band.
Proof.
  unfold _get_channel, bind, attr, gets, assign, modify, lift, ret, raise.
  destruct s as [o w]. simpl.
  destruct (_loaded_channels o) as [bands|] eqn:Hl; simpl; rewrite ?Hl; simpl.
  - destruct (str_index (upper channel) (_current_format o)) as [ix|e] eqn:Hix;
      simpl; [|discriminate].
    rewrite ?Hl. simpl.
    destruct (bands !! ix) as [band|] eqn:Hband; simpl; [|discriminate].
    intros [= <- <-]. exists ix, bands, band. simpl. auto.
  - destruct (str_index (upper channel) (_current_format o)) as [ix|e] eqn:Hix;
      simpl; [|discriminate].
    destruct (split (_image_handle o) !! ix) as [band|] eqn:Hband; simpl;
      [|discriminate].
    intros [= <- <-]. exists ix, (split (_image_handle o)), band. simpl. auto.
Qed.

Lemma _pre_inv (channel c : string) (s s1 : Session) (v : list float) :
  _pre channel s = (Ok (v, c), s1) ->
  exists ix bands band,
    _loaded_channels (self s1) = Some bands /\
    str_index (upper c) (_current_format (self s1)) = Ok ix /\
    bands !! ix = Some band /\
    v = map normalize band.
Proof.
  unfold _pre.
  unfold bind at 1.
  match goal with
  | |- match ?m with _ => _ end = _ -> _ =>
      destruct m as [[sh|e] s'] eqn:E1; [|discriminate]
  end.
  unfold bind at 1. unfold attr at 1. unfold gets at 1.
  unfold bind at 1.
  match goal with
  | |- match ?m with _ => _ end = _ -> _ =>
      destruct m as [[[]|e] s''] eqn:E2; [|discriminate]
  end.
  unfold bind at 1.
  destruct (_get_channel (upper sh) s'') as [[v'|e] s3] eqn:E3; [|discriminate].
  unfold ret. intros [= <- <- <-].
  apply (_get_channel_inv _ _ _ _ E3).
Qed.

Lemma _pre_keeps_auto_clamp (channel : string) (s : Session) :
  _auto_clamp (self (state_after (_pre channel s))) = _auto_clamp (self s).
Proof.
  apply (maintains__pre (fun s' => _auto_clamp (self s') = _auto_clamp (self s))); auto.
Qed.

(** The write-back after a successful [_pre] succeeds, whatever plane it is
    given. *)
Lemma _post_after__pre (channel c : string) (s s1 : Session) (v : list float) :
  _pre channel s = (Ok (v, c), s1) ->
  exists ix band,
    planes s1 !! ix = Some band /\
    v = map normalize band /\
    forall w,
      _post c w s1 = (Ok tt, stored ix (post_value (_auto_clamp (self s)) w) s1).
Proof.
  intros Hpre.
  destruct (_pre_inv _ _ _ _ _ Hpre) as (ix & bands & band & Hl & Hix & Hband & Hv).
  exists ix, band. split; [|split].
  - unfold planes. rewrite Hl. exact Hband.
  - exact Hv.
  - intros w.
    rewrite (_post_present c w s1 ix bands Hl Hix (lookup_lt_Some _ _ _ Hband)).
    pose proof (_pre_keeps_auto_clamp channel s) as Ha.
    rewrite Hpre in Ha. simpl in Ha. rewrite Ha. reflexivity.
Qed.

End PreInversion.

(** ** C4: the bounds of [clamp] *)

Section ClampBounds.
Import Engine.
Context `{np : Numpy} `{pil : Pillow}.

(** One [clamp] with a keyword and a known mode: the plane it passes to
    [_post]. *)
Lemma clamp_keyword (channel mode keyword : string) (f : Aggregate)
    (g : float -> float -> float) (s s1 : Session) (v : list float) (c : string) :
  _pre channel s = (Ok (v, c), s1) ->
  assoc keyword SUPPORTED_KEYWORD_PARAMS = Some f ->
  assoc mode SUPPORTED_CLAMP_MODES = Some g ->
  clamp [(channel, PyStr mode, PyStr keyword)] s
  = (_post c (map (fun x => g x (reduce f v)) v) ;; ret tt) s1.
Proof.
  intros Hpre Hkw Hmode.
  unfold clamp, for_each. unfold bind at 1. unfold bind at 1. rewrite Hpre.
  unfold dict_contains, dict_get, dict_has, hashable, lift.
  rewrite Hkw, Hmode. reflexivity.
Qed.

Lemma clamp_value_unchanged (auto : bool) (g : float -> float -> float)
    (sc : float) (v : list float) :
  (forall x, g x sc = x \/ g x sc = sc) ->
  Forall (fun x => in_unit x = true) v ->
  auto = false \/ in_unit sc = true ->
  post_value auto (map (fun x => g x sc) v) = map (fun x => g x sc) v.
Proof.
  intros Hg Hv [->|Hsc]; [reflexivity|].
  unfold post_value. destruct auto; [|reflexivity].
  induction Hv as [|x v Hx _ IH]; simpl; [reflexivity|].
  rewrite IH. f_equal. apply _clamp_id.
  destruct (Hg x) as [->| ->]; assumption.
Qed.

Lemma fmin_plane_bounds (sc : float) (v : list float) :
  is_nan sc = false ->
  Forall (fun x => in_unit x = true) v ->
  Forall2 (fun x y => y = fmin x sc /\
                      (y <=? sc)%float = true /\
                      (y <=? x)%float = true) v (map (fun x => fmin x sc) v).
Proof.
  intros Hnan Hv. induction Hv as [|x v Hx _ IH]; simpl; constructor; [|exact IH].
  pose proof (in_unit_not_nan x Hx) as Hx'.
  repeat split; [apply fmin_le_right | apply fmin_le_left]; assumption.
Qed.

Lemma fmax_plane_bounds (sc : float) (v : list float) :
  is_nan sc = false ->
  Forall (fun x => in_unit x = true) v ->
  Forall2 (fun x y => y = fmax x sc /\
                      (sc <=? y)%float = true /\
                      (x <=? y)%float = true) v (map (fun x => fmax x sc) v).
Proof.
  intros Hnan Hv. induction Hv as [|x v Hx _ IH]; simpl; constructor; [|exact IH].
  pose proof (in_unit_not_nan x Hx) as Hx'.
  repeat split; [apply fmax_ge_right | apply fmax_ge_left]; assumption.
Qed.

(** C4, as the code has it.  Take a channel whose plane [_pre] delivers
    (values of [0,1]: the plane of bytes divided by 255), a keyword of the
    Aggregate Function table, and let s be the scalar it resolves to on that
    plane; s is not NaN and, when the auto-clamp flag is on, lies in [0,1].
    Then [clamp] returns for both modes, and the plane it hands to the
    write-back is, element by element: for 'min', [fmin(x, s)], which is at
    most s and at most x (no value is raised); for 'max', [fmax(x, s)], which
    is at least s and at least x (no value is lowered).  The stored plane is
    the truncation to bytes of that plane. *)
Theorem clamp_bounds_before_write_back
    (channel keyword : string) (f : Aggregate) (s s1 : Session)
    (v : list float) (c : string) :
  _pre channel s = (Ok (v, c), s1) ->
  Forall (fun x => in_unit x = true) v ->
  assoc keyword SUPPORTED_KEYWORD_PARAMS = Some f ->
  is_nan (reduce f v) = false ->
  _auto_clamp (self s) = false \/ in_unit (reduce f v) = true ->
  exists ix lowered raised,
    clamp [(channel, PyStr "min", PyStr keyword)] s = (Ok tt, stored ix lowered s1) /\
    clamp [(channel, PyStr "max", PyStr keyword)] s = (Ok tt, stored ix raised s1) /\
    Forall2 (fun x y => y = fmin x (reduce f v) /\
                        (y <=? reduce f v)%float = true /\
                        (y <=? x)%float = true) v lowered /\
    Forall2 (fun x y => y = fmax x (reduce f v) /\
                        (reduce f v <=? y)%float = true /\
                        (x <=? y)%float = true) v raised.
Proof.
  intros Hpre Hv Hkw Hnan Hauto.
  set (sc := reduce f v) in *.
  destruct (_post_after__pre channel c s s1 v Hpre) as (ix & band & _ & _ & Hpost).
  exists ix, (map (fun x => fmin x sc) v), (map (fun x => fmax x sc) v).
  split; [|split; [|split]].
  - rewrite (clamp_keyword channel "min" keyword f fmin s s1 v c Hpre Hkw eq_refl).
    unfold bind. fold sc. rewrite Hpost.
    rewrite (clamp_value_unchanged _ fmin sc v (fun x => fmin_cases x sc) Hv Hauto).
    reflexivity.
  - rewrite (clamp_keyword channel "max" keyword f fmax s s1 v c Hpre Hkw eq_refl).
    unfold bind. fold sc. rewrite Hpost.
    rewrite (clamp_value_unchanged _ fmax sc v (fun x => fmax_cases x sc) Hv Hauto).
    reflexivity.
  - apply fmin_plane_bounds; assumption.
  - apply fmax_plane_bounds; assumption.
Qed.

End ClampBounds.

(** The fresh session on the two-pixel image, auto-clamp on. *)
Definition two_pixel_session : Engine.Session :=
  Engine.new {| Engine._image_handle := Sample.two_pixels;
                Engine._loaded_channels := None;
                Engine._auto_clamp := true;
                Engine._debug := false;
                Engine._image_format := Some "PNG";
                Engine._current_format := "RGB";
                Engine._output_format := "RGB" |}.

(** The red plane 0, 255 of the two-pixel image and the keyword 'mean', which
    resolves to 0.5. *)
Lemma clamp_bounds_before_write_back_witness :
  let v := [0%float; 1%float] in
  let s1 := materialized two_pixel_session in
  exists ix lowered raised,
    Engine.clamp (np := Sample.numpy) (pil := Sample.pillow)
      [("r", PyStr "min", PyStr "mean")] two_pixel_session
    = (Ok tt, stored (np := Sample.numpy) ix lowered s1) /\
    Engine.clamp (np := Sample.numpy) (pil := Sample.pillow)
      [("r", PyStr "max", PyStr "mean")] two_pixel_session
    = (Ok tt, stored (np := Sample.numpy) ix raised s1) /\
    Forall2 (fun x y => y = fmin x (reduce (Numpy := Sample.numpy) np_mean v) /\
                        (y <=? reduce (Numpy := Sample.numpy) np_mean v)%float = true /\
                        (y <=? x)%float = true) v lowered /\
    Forall2 (fun x y => y = fmax x (reduce (Numpy := Sample.numpy) np_mean v) /\
                        (reduce (Numpy := Sample.numpy) np_mean v <=? y)%float = true /\
                        (x <=? y)%float = true) v raised.
Proof.
  intros v s1.
  apply (clamp_bounds_before_write_back (np := Sample.numpy) (pil := Sample.pillow)
           "r" "mean" np_mean two_pixel_session s1 v "R").
  - vm_compute. reflexivity.
  - repeat constructor.
  - reflexivity.
  - vm_compute. reflexivity.
  - right. vm_compute. reflexivity.
Defined.

(** The claim C4 reads the bound on the stored plane.  On the two-pixel
    image, [clamp] with mode 'max' and the keyword 'mean' resolves s = 0.5 and
    returns; the red byte 0 is raised to 0.5, written back as
    int(0.5 * 255) = 127, and reads as 127/255, which is below s. *)
Lemma clamp_max_stored_value_below_scalar :
  let r := Engine.clamp (np := Sample.numpy) (pil := Sample.pillow)
             [("r", PyStr "max", PyStr "mean")] two_pixel_session in
  outcome r = Ok tt /\
  reduce (Numpy := Sample.numpy) np_mean (map normalize [0; 255]) = 0.5%float /\
  planes (state_after r) !! 0%nat = Some [127; 255] /\
  (normalize 127 <? 0.5)%float = true.
Proof. vm_compute. repeat split. Qed.

(** ** C2: a numeric parameter of [threshold] and [clamp] *)

Section NumericParameter.
Import Engine.
Context `{np : Numpy} `{pil : Pillow}.

(** C2 (what the code does).  [threshold] looks its parameter up in
    [SUPPORTED_KEYWORD_PARAMS] whatever its type, and [clamp] refuses a
    parameter that is not a key of that table: with a number as the
    parameter of the first channel, neither call returns, whatever the
    session, the channel, the number and the clamp mode. *)
Theorem numeric_parameter_never_returns
    (channel : string) (x : float) (mode : pyval) (s : Session)
    (more : list (string * pyval)) (more' : list (string * pyval * pyval)) :
  is_ok (outcome (threshold ((channel, PyFloat x) :: more) s)) = false /\
  is_ok (outcome (clamp ((channel, mode, PyFloat x) :: more') s)) = false.
Proof.
  split.
  - unfold threshold, outcome. simpl for_each.
    unfold bind at 1. unfold bind at 1.
    destruct (_pre channel s) as [[[v c]|e] s1]; reflexivity.
  - unfold clamp, outcome. simpl for_each.
    unfold bind at 1. unfold bind at 1.
    destruct (_pre channel s) as [[[v c]|e] s1]; reflexivity.
Qed.

(** When the channel can be read, the exceptions are the [KeyError] of the
    table lookup and the [ValueError] "Invalid clamp color", and nothing has
    been written. *)
Lemma numeric_parameter_exceptions
    (channel : string) (x : float) (mode : pyval) (s s1 : Session)
    (v : list float) (c : string) :
  _pre channel s = (Ok (v, c), s1) ->
  threshold [(channel, PyFloat x)] s = (Raise (KeyError (PyFloat x)), s1) /\
  clamp [(channel, mode, PyFloat x)] s
  = (Raise (ValueError "Invalid clamp color" (PyFloat x)), s1).
Proof.
  intros Hpre. split.
  - unfold threshold, for_each. unfold bind at 1. unfold bind at 1.
    rewrite Hpre. reflexivity.
  - unfold clamp, for_each. unfold bind at 1. unfold bind at 1.
    rewrite Hpre. reflexivity.
Qed.

End NumericParameter.

(** On the two-pixel image: 0.5 is refused by both operations, the keyword
    'mean' is accepted by both. *)
Lemma numeric_parameter_examples :
  outcome (Engine.threshold (np := Sample.numpy) (pil := Sample.pillow)
             [("r", PyFloat 0.5)] two_pixel_session)
  = Raise (KeyError (PyFloat 0.5)) /\
  outcome (Engine.clamp (np := Sample.numpy) (pil := Sample.pillow)
             [("r", PyStr "min", PyFloat 0.5)] two_pixel_session)
  = Raise (ValueError "Invalid clamp color" (PyFloat 0.5)) /\
  outcome (Engine.threshold (np := Sample.numpy) (pil := Sample.pillow)
             [("r", PyStr "mean")] two_pixel_session)
  = Ok tt /\
  outcome (Engine.clamp (np := Sample.numpy) (pil := Sample.pillow)
             [("r", PyStr "min", PyStr "mean")] two_pixel_session)
  = Ok tt.
Proof. vm_compute. repeat split. Qed.

(** ** Splitting a data spec at its comma *)

Section Comma.

Lemma prefix_comma (c : ascii) (s : string) :
  String.prefix "," (String c s) = Ascii.eqb c ",".
Proof.
  change (String.prefix "," (String c s))
    with (if ascii_dec "," c then String.prefix "" s else false).
  destruct (ascii_dec "," c) as [<-|Hne].
  - destruct s; reflexivity.
  - symmetry. apply Ascii.eqb_neq. congruence.
Qed.

Lemma str_in_comma_cons (c : ascii) (s : string) :
  str_in "," (String c s) = Ascii.eqb c "," || str_in "," s.
Proof.
  unfold str_in. cbn [String.index]. rewrite prefix_comma.
  destruct (Ascii.eqb c ","); [reflexivity|].
  destruct (String.index 0 "," s); reflexivity.
Qed.

Lemma split_on_no_comma (s : string) :
  str_in "," s = false -> split_on "," s = [s].
Proof.
  induction s as [|c s IH]; [reflexivity|].
  rewrite str_in_comma_cons. intros [Hc Hs]%orb_false_elim.
  simpl. rewrite Hc, (IH Hs). reflexivity.
Qed.

Lemma split_on_comma_app (a b : string) :
  str_in "," a = false ->
  split_on "," (a ++ String "," b) = a :: split_on "," b.
Proof.
  induction a as [|c a IH]; [reflexivity|].
  rewrite str_in_comma_cons. intros [Hc Ha]%orb_false_elim.
  simpl. rewrite Hc, (IH Ha). reflexivity.
Qed.

Lemma str_in_comma_app (a b : string) : str_in "," (a ++ String "," b) = true.
Proof.
  induction a as [|c a IH].
  { change ("" ++ String "," b) with (String "," b).
    rewrite str_in_comma_cons. reflexivity. }
  change (String c a ++ String "," b) with (String c (a ++ String "," b)).
  rewrite str_in_comma_cons, IH. apply orb_true_r.
Qed.

Lemma prefix_empty (s : string) : String.prefix "" s = true.
Proof. destruct s; reflexivity. Qed.

End Comma.

(** ** Splitting a text at a separator *)

Section Split.

Lemma split_on_not_nil (sep : ascii) (s : string) : split_on sep s <> [].
Proof.
  induction s as [|c s IH]; cbn [split_on]; [discriminate|].
  destruct (Ascii.eqb c sep); [discriminate|].
  destruct (split_on sep s); [contradiction|discriminate].
Qed.

Lemma split_on_one (sep : ascii) (s b : string) : split_on sep s = [b] -> s = b.
Proof.
  revert b. induction s as [|c s IH]; intros b; cbn [split_on].
  - intros [= <-]. reflexivity.
  - destruct (Ascii.eqb c sep).
    + intros [= _ E]. destruct (split_on_not_nil _ _ E).
    + destruct (split_on sep s) as [|w ws] eqn:E; [destruct (split_on_not_nil _ _ E)|].
      intros [= <- ->]. rewrite (IH w eq_refl). reflexivity.
Qed.

(** A text that splits into two parts is the first part, the separator and
    the second part. *)
Lemma split_on_two (sep : ascii) (s a b : string) :
  split_on sep s = [a; b] -> s = a ++ String sep b.
Proof.
  revert a. induction s as [|c s IH]; intros a; cbn [split_on]; [discriminate|].
  destruct (Ascii.eqb_spec c sep) as [->|Hne].
  - intros [= <- E]. rewrite (split_on_one _ _ _ E). reflexivity.
  - destruct (split_on sep s) as [|w ws] eqn:E; [discriminate|].
    intros [= <- ->]. rewrite (IH w eq_refl). reflexivity.
Qed.

Lemma length_split_on_app (sep : ascii) (a b : string) :
  length (split_on sep (a ++ String sep b))
  = (length (split_on sep a) + length (split_on sep b))%nat.
Proof.
  induction a as [|c a IH].
  - change ("" ++ String sep b) with (String sep b). cbn [split_on].
    rewrite Ascii.eqb_refl. reflexivity.
  - change (String c a ++ String sep b) with (String c (a ++ String sep b)).
    cbn [split_on]. destruct (Ascii.eqb c sep).
    + cbn [length]. rewrite IH. reflexivity.
    + destruct (split_on sep (a ++ String sep b)) as [|w ws] eqn:E;
        [destruct (split_on_not_nil _ _ E)|].
      destruct (split_on sep a) as [|w' ws'] eqn:E'; [destruct (split_on_not_nil _ _ E')|].
      cbn [length] in *. exact IH.
Qed.

End Split.

(** ** C10 and C1: the service *)

Section ServiceFacts.
Import Engine Api.
Context `{np : Numpy} `{pil : Pillow} `{py : Builtins}.

Definition forbidden : exn :=
  HTTPException 403 "Tried to access a local server resource".

Lemma parse_file_forbidden (content_type payload : string) (w : Server) :
  str_in "," content_type = false ->
  str_in "," payload = false ->
  startswith content_type "file:" = true ->
  parse_file (content_type ++ String "," payload) w = (Raise forbidden, w).
Proof.
  intros Hc Hp Hfile. unfold parse_file.
  rewrite str_in_comma_app, split_on_comma_app, (split_on_no_comma payload Hp) by exact Hc.
  simpl negb. cbv iota. rewrite Hfile. reflexivity.
Qed.

Lemma channels_accepted (channels : list string) (w : Server) :
  forallb (fun c => str_mem c SUPPORTED_COLOR_CHANNEL_SHORTHANDS) channels = true ->
  for_each channels (fun c =>
    if negb (str_mem c SUPPORTED_COLOR_CHANNEL_SHORTHANDS)
    then raise (HTTPException 400 ("Unsupported channel: " ++ c))
    else ret tt) w = (Ok tt, w).
Proof.
  induction channels as [|c channels IH]; [reflexivity|].
  cbn [forallb]. intros [Hc Hrest]%andb_prop.
  cbn [for_each]. unfold bind. rewrite Hc. cbn [negb]. unfold ret at 1.
  exact (IH Hrest).
Qed.

(** Whatever the request, a handler that got as far as its first input never
    returns: either an earlier statement raised, or the call of
    [encode_output] with two arguments does. *)
Lemma api_operation_never_answers
    (data : Operation) (first : string * string) (more : list (string * string))
    (w : Server) :
  input data = Some (first :: more) ->
  is_ok (outcome (api_operation data w)) = false.
Proof.
  intros Hinput. unfold api_operation, outcome. rewrite Hinput.
  destruct (negb (str_mem (action data) SUPPORTED_OPERATIONS)); [reflexivity|].
  unfold bind at 1.
  destruct (for_each (channels data) _ w) as [[[]|e] w1]; [|reflexivity].
  destruct first as [input_name input_data]. cbn [process].
  unfold bind at 1.
  destruct (render data input_data w1) as [[buffer|e] w2]; reflexivity.
Qed.

Lemma parse_file_png (payload raw : string) (w : Server) :
  str_in "," payload = false ->
  str_mem "image/png" (map snd SUPPORTED_IMAGE_TYPES) = true ->
  b64decode payload = Ok raw ->
  parse_file ("data:image/png;base64" ++ String "," payload) w = (Ok raw, w).
Proof.
  intros Hp Hmime Hraw. unfold parse_file.
  rewrite str_in_comma_app, split_on_comma_app, (split_on_no_comma payload Hp)
    by reflexivity.
  simpl negb. cbv iota.
  change (startswith "data:image/png;base64" "file:") with false.
  change (startswith "data:image/png;base64" "data:") with true.
  cbv iota.
  change (str_index ":" "data:image/png;base64") with (@Ok nat 4%nat).
  change (str_index ";" "data:image/png;base64") with (@Ok nat 14%nat).
  unfold bind, lift.
  change (slice (4 + 1) 14 "data:image/png;base64") with "image/png".
  rewrite Hmime. cbn [negb].
  change (endswith "data:image/png;base64" ";base64") with true. cbv iota.
  rewrite Hraw. reflexivity.
Qed.

(** C1, as the code has it.  Take the request of the scenario: the action
    invert on the channel r, and one input whose data spec is
    [data:image/png;base64,] followed by a payload that decodes to an RGB
    image.  Up to [convert.close_image()] the handler decodes the image,
    inverts its red plane byte by byte, leaves the green and blue planes as
    they are, and saves the result in the container format of the input: the
    output buffer holds the encoding of that image. *)
Theorem render_inverts_red_only
    (data : Operation) (payload raw : string) (image : Image)
    (red green blue : list Z) (w : Server) :
  action data = "invert" ->
  channels data = ["r"] ->
  str_in "," payload = false ->
  str_mem "image/png" (map snd SUPPORTED_IMAGE_TYPES) = true ->
  b64decode payload = Ok raw ->
  pil_decode raw = Ok image ->
  im_mode image = "RGB" ->
  im_bands image = [red; green; blue] ->
  render data ("data:image/png;base64" ++ String "," payload) w
  = (pil_encode {| im_format := None; im_mode := "RGB";
                   im_bands := [map (invert_byte (auto_clamp data)) red; green; blue] |}
                (im_format image), w).
Proof.
  intros Haction Hchannels Hp Hmime Hraw Himage Hmode Hbands.
  destruct image as [fmt mode bands]. simpl in Hmode, Hbands. subst mode bands.
  unfold render. unfold bind at 1. rewrite (parse_file_png payload raw w Hp Hmime Hraw).
  unfold bind at 1. unfold lift at 1. rewrite Himage.
  unfold bind at 1. unfold lift at 1. unfold __init__. cbn [im_mode im_format].
  change (dict_has SUPPORTED_PIL_MODES (PyStr "RGB")) with true. cbn [negb].
  cbv iota.
  unfold bind at 1. unfold in_session.
  rewrite Haction, Hchannels.
  change (do_operation "invert" ["r"] (params data)) with (invert ["r"]).
  unfold bind at 1.
  match goal with
  | |- context [invert ["r"] ?s] =>
      rewrite (invert_present "r" "r" s 0%nat red eq_refl eq_refl eq_refl eq_refl)
  end.
  cbv iota beta.
  unfold stored, planes. simpl.
  rewrite invert_plane. reflexivity.
Qed.

End ServiceFacts.

(** The requests of the two service scenarios, on the sample libraries. *)
Definition idle_server : Api.Server := {| Api.disk := ∅; Api.trace := [] |}.

Definition red_pixel_spec : string :=
  "data:image/png;base64"
  ++ String "," (b64encode (Builtins := Sample.builtins) (Sample.png Sample.red_pixel)).

Definition red_pixel_request : Api.Operation :=
  {| Api.auto_clamp := false;
     Api.action := "invert";
     Api.channels := ["r"];
     Api.params := None;
     Api.input := Some [("img", red_pixel_spec)];
     Api.output_format := None |}.

Definition passwd_request (action : string) (spec : string) : Api.Operation :=
  {| Api.auto_clamp := false;
     Api.action := action;
     Api.channels := ["r"];
     Api.params := None;
     Api.input := Some [("img", spec)];
     Api.output_format := None |}.

Lemma render_inverts_red_only_witness :
  Api.render (np := Sample.numpy) (pil := Sample.pillow) (py := Sample.builtins)
    red_pixel_request red_pixel_spec idle_server
  = (pil_encode (Pillow := Sample.pillow)
       {| im_format := None; im_mode := "RGB";
          im_bands := [map (invert_byte (np := Sample.numpy) false) [255]; [0]; [0]] |}
       (im_format Sample.red_pixel), idle_server).
Proof.
  apply (render_inverts_red_only (np := Sample.numpy) (pil := Sample.pillow)
           (py := Sample.builtins) red_pixel_request
           (Sample.png Sample.red_pixel) (Sample.png Sample.red_pixel)
           Sample.red_pixel [255] [0] [0] idle_server); vm_compute; reflexivity.
Defined.

(** The claim C1 at its own request: the handler does not return the
    mapping to a cyan pixel.  It raises the [TypeError] of the call
    [encode_output(output_handle.getvalue(), data.output_format)]; and the
    image it had saved before is the black pixel (red 255 inverted to 0, green
    and blue 0 as they were), which is not the cyan one. *)
Lemma api_operation_red_pixel_not_cyan :
  let response :=
    outcome (Api.api_operation (np := Sample.numpy) (pil := Sample.pillow)
               (py := Sample.builtins) red_pixel_request idle_server) in
  response = Raise (TypeError "encode_output() takes 1 positional argument") /\
  response <> Ok {[ "img" := Api.encode_output (py := Sample.builtins)
                               (Sample.png Sample.cyan_pixel) ]} /\
  outcome (Api.render (np := Sample.numpy) (pil := Sample.pillow)
             (py := Sample.builtins) red_pixel_request red_pixel_spec idle_server)
  = Ok (Sample.png Sample.black_pixel) /\
  Sample.png Sample.black_pixel <> Sample.png Sample.cyan_pixel.
Proof.
  assert (E : outcome (Api.api_operation (np := Sample.numpy) (pil := Sample.pillow)
                         (py := Sample.builtins) red_pixel_request idle_server)
              = Raise (TypeError "encode_output() takes 1 positional argument")).
  { vm_compute. reflexivity. }
  cbv zeta. split; [exact E|]. split; [|split].
  - intros Hcyan. congruence.
  - vm_compute. reflexivity.
  - vm_compute. discriminate.
Qed.

(** ** C10: a data spec that names a file *)

Section FileSpec.
Import Engine Api.
Context `{np : Numpy} `{pil : Pillow} `{py : Builtins}.












End FileSpec.



(** ** C6: what [run_commands] writes *)

Section CliFacts.
Import Engine Cli.
Context `{np : Numpy} `{pil : Pillow} `{py : Builtins}.

(** The files are those of [d]. *)
Definition disk_is (d : filesystem) (w : World) : Prop := fs w = d.

Lemma on_handle_keeps_disk {A} (d : filesystem) (m : E A) :
  maintains (disk_is d) (on_handle m).
Proof.
  intros w Hw. unfold on_handle, state_after.
  destruct (handle (image w)) as [s|]; [|exact Hw].
  destruct (m s) as [r s']. exact Hw.
Qed.

(** [save_to_output] opens the file for reading: it raises, at the latest
    when Pillow writes the first bytes, and the files are what they were. *)
Lemma save_to_output_raises (w : World) :
  exists e w', save_to_output w = (Raise e, w') /\ fs w' = fs w.
Proof.
  unfold save_to_output, open_, write, on_handle.
  unfold bind, gets, modify, ret, raise, lift.
  change (String.eqb "rb" "rb") with true. cbv iota.
  destruct (output_name (image w)) as [path|]; simpl;
    [|do 2 eexists; split; reflexivity].
  destruct (exists_ (fs w) path); simpl; [|do 2 eexists; split; reflexivity].
  destruct (handle (image w)) as [s|]; simpl; [|do 2 eexists; split; reflexivity].
  destruct (save_image "default" s) as [[[im fmt]|e] s']; simpl;
    [|do 2 eexists; split; reflexivity].
  destruct (pil_encode im fmt) as [data|e]; simpl; do 2 eexists; split; reflexivity.
Qed.

Lemma save_to_output_writes_nothing (w : World) :
  fs (state_after (save_to_output w)) = fs w /\
  is_ok (outcome (save_to_output w)) = false.
Proof.
  destruct (save_to_output_raises w) as (e & w' & -> & Hfs). split; [exact Hfs|reflexivity].
Qed.

Lemma save_to_output_keeps_disk (d : filesystem) : maintains (disk_is d) save_to_output.
Proof.
  intros w Hw. unfold disk_is.
  rewrite (proj1 (save_to_output_writes_nothing w)). exact Hw.
Qed.

Local Ltac quiet :=
  repeat first
    [ apply maintains_ret | apply maintains_raise | apply maintains_lift
    | apply maintains_gets
    | apply on_handle_keeps_disk
    | apply save_to_output_keeps_disk
    | apply maintains_modify; intros ? ?; assumption
    | apply maintains_if
    | apply maintains_bind; [|intros ?] ].

Lemma run_argument_keeps_disk (d : filesystem) (debug clamp : bool)
    (name k : string) (v : argval) :
  maintains (disk_is d) (run_argument debug clamp name k v).
Proof.
  unfold run_argument, to_float, value_or_keyword.
  apply maintains_if; [quiet|].
  apply maintains_if.
  { destruct v; quiet.
    match goal with
    | |- maintains _ (match ?h with _ => _ end) => destruct h; quiet
    end. }
  apply maintains_if.
  { destruct v; quiet. }
  repeat (apply maintains_if; [quiet|]). quiet.
Qed.

Lemma run_chain_keeps_disk (d : filesystem) (debug clamp : bool) (total ix : nat)
    (commands : list (string * Namespace)) :
  maintains (disk_is d) (run_chain debug clamp total ix commands).
Proof.
  revert ix. induction commands as [|[name values] rest IH]; intros ix;
    cbn [run_chain].
  - quiet.
  - apply maintains_bind.
    { apply maintains_for_each. intros [k v]. apply run_argument_keeps_disk. }
    intros _. quiet. apply IH.
Qed.

(** C6 (what the code does).  Whatever the chain of commands and the files
    present, [run_commands] writes no file, neither an intermediate copy nor
    the final image, and it does not return: every save opens its target
    with mode ['rb']. *)
Theorem run_commands_writes_nothing
    (commands : list (string * Namespace)) (debug clamp : bool) (w : World) :
  fs (state_after (run_commands commands debug clamp w)) = fs w /\
  is_ok (outcome (run_commands commands debug clamp w)) = false.
Proof.
  split.
  - assert (Hm : maintains (disk_is (fs w)) (run_commands commands debug clamp)).
    { unfold run_commands. quiet.
      - apply run_chain_keeps_disk.
      - match goal with
        | |- maintains _ (match ?o with _ => _ end) => destruct o; quiet
        end. }
    exact (Hm w eq_refl).
  - unfold run_commands, outcome.
    unfold bind at 1. unfold modify at 1.
    unfold bind at 1.
    destruct (run_chain debug clamp (length commands) 0 commands _) as [[[]|e] w1];
      [|reflexivity].
    unfold bind at 1. unfold gets at 1.
    unfold bind at 1.
    match goal with
    | |- context [match ?m w1 with _ => _ end] =>
        destruct (m w1) as [[[]|e] w2]; [|reflexivity]
    end.
    exact (proj2 (save_to_output_writes_nothing w2)).
Qed.

End CliFacts.

(** Three chains on a disk that holds [in.png]: an intermediate [-o] whose
    file does not exist yet, the same with the file present, and a single
    command without [-o]. *)
Definition start (disk : filesystem) : Cli.World :=
  {| Cli.fs := disk;
     Cli.image := {| Cli.input_name := None; Cli.output_name := None;
                     Cli.handle := None |} |}.

Definition invert_red (out : option string) : string * Cli.Namespace :=
  ("invert", {| Cli.input := Some "in.png"; Cli.output := out;
                Cli.no_clamp := false; Cli.debug := false;
                Cli.flags := [("red", Cli.ABool true)] |}).

Definition offset_red (out : option string) : string * Cli.Namespace :=
  ("offset", {| Cli.input := None; Cli.output := out;
                Cli.no_clamp := false; Cli.debug := false;
                Cli.flags := [("red", Cli.AList ["0.25"])] |}).

Lemma run_commands_examples :
  let run := Cli.run_commands (np := Sample.numpy) (pil := Sample.pillow)
               (py := Sample.builtins) in
  let disk : filesystem := {[ "in.png" := Sample.png Sample.two_pixels ]} in
  let disk' : filesystem := <[ "mid.png" := "old" ]> disk in
  let chain := [invert_red (Some "mid.png"); offset_red (Some "out.png")] in
  (outcome (run chain false true (start disk)) = Raise (FileNotFoundError "mid.png") /\
   Cli.fs (state_after (run chain false true (start disk))) = disk) /\
  (outcome (run chain false true (start disk')) = Raise (UnsupportedOperation "write") /\
   Cli.fs (state_after (run chain false true (start disk'))) = disk') /\
  (outcome (run [invert_red None] false true (start disk))
   = Raise (UnsupportedOperation "write") /\
   Cli.fs (state_after (run [invert_red None] false true (start disk))) = disk).
Proof. vm_compute. repeat split. Qed.

(** Switching the input inside a chain: the second command names another
    PNG file with [-i], and [load_image] refuses it. *)
Lemma run_commands_switching_input :
  let disk : filesystem := {[ "in.png" := Sample.png Sample.two_pixels;
                              "b.png" := Sample.png Sample.red_pixel ]} in
  let second := ("invert", {| Cli.input := Some "b.png"; Cli.output := None;
                              Cli.no_clamp := false; Cli.debug := false;
                              Cli.flags := [("red", Cli.ABool true)] |}) in
  outcome (Cli.run_commands (np := Sample.numpy) (pil := Sample.pillow)
             (py := Sample.builtins) [invert_red None; second] false true (start disk))
  = Raise (ValueError "Unsupported image format" (PyStr "PNG")).
Proof. vm_compute. reflexivity. Qed.

(** ** C3: the phases of the legacy tool *)

Section LegacyFacts.
Import Legacy.

(** The composite keys of the six options of the grammar. *)
Lemma option_keys :
  Z.lor BEFORE OFFSET = 5 /\ Z.lor BEFORE MIN = 5 /\ Z.lor BEFORE MAX = 7 /\
  Z.lor AFTER OFFSET = 6 /\ Z.lor AFTER MIN = 7 /\ Z.lor AFTER MAX = 6.
Proof. repeat split. Qed.

(** The test of [perform_pre_operations] is against the channel constant [B]
    (blue, 6) and that of [perform_post_operations] against [A] (alpha, 7),
    not against [BEFORE] and [AFTER]. *)
Lemma phase_tests (time operation : Z) :
  In time [BEFORE; AFTER] -> In operation [OFFSET; MIN; MAX] ->
  let option := Z.lor time operation in
  ((Z.land option Channel.B =? Channel.B) = (option =? 6) || (option =? 7))%Z /\
  ((Z.land option Channel.A =? Channel.A) = (option =? 7))%Z /\
  Z.land option OFFSET = OFFSET.
Proof.
  simpl. intros [<-|[<-|[]]] [<-|[<-|[<-|[]]]]; repeat split.
Qed.

End LegacyFacts.

(** An RGBA image of one pixel. *)
Definition rgba_pixel : Image :=
  {| im_format := Some "PNG"; im_mode := "RGBA";
     im_bands := [[10]; [20]; [30]; [255]] |}.

(** C3 (what the code does).  The invocation
    [invert r:0 rbmin:0.5 gamax:0.25 , in.png:out.png] on an RGBA image.  The
    options are stored under the keys 5 and 6.  The run loads the image,
    performs the option stored for "after, max clamp, green" before the
    primary operation and as an offset, then inverts red, performs nothing
    after it, and saves; the option "before, min clamp, red" is never
    performed.  The saved pixel has green 20 + 0.25 * 255 = 83. *)
Theorem legacy_options_leave_their_phase :
  let tokens := ["rbmin:0.5"; "gamax:0.25"] in
  let options := [(5, [(Legacy.Channel.R, 0.5%float)]);
                  (6, [(Legacy.Channel.G, 0.25%float)])] in
  let disk : filesystem := {[ "in.png" := Sample.png rgba_pixel ]} in
  let run := Legacy.transform_images (pil := Sample.pillow) (cs := Sample.colorsys)
               (Legacy.editor Legacy.INVERT [(Legacy.Channel.R, 0%float)] options
                  [("in.png", ["out.png"])] disk) in
  Legacy.check_options (py := Sample.builtins) tokens [] = Ok options /\
  outcome run = Ok tt /\
  Legacy.trace (state_after run)
  = [Legacy.Load "in.png";
     Legacy.Transform Legacy.offset_value Legacy.Channel.G 0.25;
     Legacy.Transform Legacy.invert_value Legacy.Channel.R 0;
     Legacy.Save "in.png" "out.png"] /\
  Legacy.current_image (state_after run) = [[245; 83; 30; 255]].
Proof. vm_compute. repeat split. Qed.

(** Two options under the key 7, "before, max clamp" and "after, min clamp":
    each is performed in both phases, as an offset. *)
Lemma legacy_key_seven_runs_twice :
  let options := [(7, [(Legacy.Channel.R, 0.5%float); (Legacy.Channel.G, 0.25%float)])] in
  let disk : filesystem := {[ "in.png" := Sample.png rgba_pixel ]} in
  let run := Legacy.transform_images (pil := Sample.pillow) (cs := Sample.colorsys)
               (Legacy.editor Legacy.INVERT [(Legacy.Channel.B, 0%float)] options
                  [("in.png", ["out.png"])] disk) in
  Legacy.check_options (py := Sample.builtins) ["rbmax:0.5"; "gamin:0.25"] []
  = Ok options /\
  Legacy.trace (state_after run)
  = [Legacy.Load "in.png";
     Legacy.Transform Legacy.offset_value Legacy.Channel.R 0.5;
     Legacy.Transform Legacy.offset_value Legacy.Channel.G 0.25;
     Legacy.Transform Legacy.invert_value Legacy.Channel.B 0;
     Legacy.Transform Legacy.offset_value Legacy.Channel.R 0.5;
     Legacy.Transform Legacy.offset_value Legacy.Channel.G 0.25;
     Legacy.Save "in.png" "out.png"].
Proof. vm_compute. repeat split. Qed.

(** * Further properties of the engine *)

(** ** The mode that [_get_format] chooses *)

Section TargetFormat.
Import Engine.

Lemma shorthand_cases (k : string) :
  str_mem k SUPPORTED_COLOR_CHANNEL_SHORTHANDS = true ->
  In k ["h"; "s"; "v"; "r"; "g"; "b"; "a"; "l"].
Proof.
  unfold str_mem, SUPPORTED_COLOR_CHANNEL_SHORTHANDS. simpl.
  repeat match goal with
         | |- context [String.eqb k ?c] =>
             destruct (String.eqb_spec k c) as [->|_]; [intros _; auto 10|]
         end.
  discriminate.
Qed.

Lemma supported_mode_names (mode : string) :
  dict_has SUPPORTED_PIL_MODES (PyStr mode) = true ->
  In mode ["RGB"; "RGBA"; "L"; "LA"; "HSV"].
Proof.
  unfold dict_has.
  destruct (assoc mode SUPPORTED_PIL_MODES) as [names|] eqn:E; [|discriminate].
  intros _. apply supported_mode_cases in E. simpl.
  destruct E as [[-> _]|[[-> _]|[[-> _]|[[-> _]|[-> _]]]]]; auto 6.
Qed.

(** X1.  For each of the five supported modes and each of the eight channel
    letters.  When the mode lacks the channel (the upper-case letter does not
    occur in the mode name), [_get_format] returns a mode, that mode is one
    of the five supported ones, and it has the channel.  When the mode has
    the channel already, [_get_format] raises [ValueError]: its table lists,
    for each mode, channels of the other modes only. *)
Theorem _get_format_reaches_channel (current k : string) :
  dict_has SUPPORTED_PIL_MODES (PyStr current) = true ->
  str_mem k SUPPORTED_COLOR_CHANNEL_SHORTHANDS = true ->
  if str_in (upper k) current
  then _get_format current (upper k)
       = Raise (ValueError "No format supports the channel" (PyStr (upper k)))
  else exists target,
         _get_format current (upper k) = Ok target /\
         dict_has SUPPORTED_PIL_MODES (PyStr target) = true /\
         str_in (upper k) target = true.
Proof.
  intros Hmode Hk.
  apply supported_mode_names in Hmode. apply shorthand_cases in Hk.
  simpl in Hmode, Hk.
  destruct Hmode as [<-|[<-|[<-|[<-|[<-|[]]]]]];
    destruct Hk as [<-|[<-|[<-|[<-|[<-|[<-|[<-|[<-|[]]]]]]]]];
    first [ reflexivity
          | eexists; split; [reflexivity|]; split; reflexivity ].
Qed.

End TargetFormat.

(** The alpha channel of a greyscale image: the target is RGBA. *)
Lemma _get_format_reaches_channel_witness :
  if str_in (upper "a") "L"
  then Engine._get_format "L" (upper "a")
       = Raise (ValueError "No format supports the channel" (PyStr (upper "a")))
  else exists target,
         Engine._get_format "L" (upper "a") = Ok target /\
         dict_has Engine.SUPPORTED_PIL_MODES (PyStr target) = true /\
         str_in (upper "a") target = true.
Proof.
  apply (_get_format_reaches_channel "L" "a"); reflexivity.
Defined.

(** The whole table: for each mode, the target of each of the eight letters
    in the order h, s, v, r, g, b, a, l; [None] where [_get_format] raises,
    which is where the mode has the letter. *)
Lemma _get_format_table :
  let row := fun current =>
    map (fun k => match Engine._get_format current (upper k) with
                  | Ok target => Some target
                  | Raise _ => None
                  end) Engine.SUPPORTED_COLOR_CHANNEL_SHORTHANDS in
  row "RGB" = [Some "HSV"; Some "HSV"; Some "HSV"; None; None; None;
               Some "RGBA"; Some "L"] /\
  row "RGBA" = [Some "HSV"; Some "HSV"; Some "HSV"; None; None; None; None; Some "L"] /\
  row "HSV" = [None; None; None; Some "RGBA"; Some "RGBA"; Some "RGBA";
               Some "RGBA"; Some "LA"] /\
  row "L" = [Some "HSV"; Some "HSV"; Some "HSV"; Some "RGB"; Some "RGB"; Some "RGB";
             Some "RGBA"; None] /\
  row "LA" = [Some "HSV"; Some "HSV"; Some "HSV"; Some "RGBA"; Some "RGBA";
              Some "RGBA"; None; None].
Proof. vm_compute. repeat split. Qed.

(** ** Channels that do not exist *)

Section UnknownChannel.
Import Engine.
Context `{np : Numpy} `{pil : Pillow}.

(** An operation whose first channel cannot be read ends with the exception
    of [_pre], in the state that [_pre] left. *)
Lemma first_channel_fails (channel : string) (e : exn) (s s1 : Session)
    (x : float) (p m : pyval)
    (more : list string) (more_f : list (string * float))
    (more_t : list (string * pyval)) (more_c : list (string * pyval * pyval)) :
  _pre channel s = (Raise e, s1) ->
  invert (channel :: more) s = (Raise e, s1) /\
  offset ((channel, x) :: more_f) s = (Raise e, s1) /\
  scale ((channel, x) :: more_f) s = (Raise e, s1) /\
  threshold ((channel, p) :: more_t) s = (Raise e, s1) /\
  clamp ((channel, m, p) :: more_c) s = (Raise e, s1).
Proof.
  intros Hpre.
  unfold invert, offset, scale, threshold, clamp. cbn [for_each].
  repeat split; unfold bind at 1; unfold bind at 1; rewrite Hpre; reflexivity.
Qed.

Lemma _pre_unknown_name (channel : string) (s : Session) :
  String.length channel <> 1%nat ->
  assoc (lower channel) COLOR_CHANNEL_TO_SHORTHAND = None ->
  _pre channel s = (Raise (KeyError (PyStr (lower channel))), s).
Proof.
  intros Hlen Hname. unfold _pre. unfold bind at 1.
  apply Nat.eqb_neq in Hlen. rewrite Hlen. cbn [negb].
  unfold lift, dict_get. rewrite Hname. reflexivity.
Qed.

(** X2.  A channel name of ASCII characters that is not one character long
    and whose lower-case form is not a key of [COLOR_CHANNEL_TO_SHORTHAND]
    (the empty name included): each of the five operations, given it as the
    first channel, raises [KeyError] with the lower-cased name, whatever the
    session and the parameters, and leaves the session exactly as it was.
    (For a name with other characters Python counts code points and maps
    case by the Unicode tables; the statement does not cover it.) *)
Theorem unknown_channel_name_raises_KeyError
    (channel : string) (s : Session) (x : float) (p m : pyval)
    (more : list string) (more_f : list (string * float))
    (more_t : list (string * pyval)) (more_c : list (string * pyval * pyval)) :
  is_ascii channel = true ->
  String.length channel <> 1%nat ->
  assoc (lower channel) COLOR_CHANNEL_TO_SHORTHAND = None ->
  invert (channel :: more) s = (Raise (KeyError (PyStr (lower channel))), s) /\
  offset ((channel, x) :: more_f) s = (Raise (KeyError (PyStr (lower channel))), s) /\
  scale ((channel, x) :: more_f) s = (Raise (KeyError (PyStr (lower channel))), s) /\
  threshold ((channel, p) :: more_t) s = (Raise (KeyError (PyStr (lower channel))), s) /\
  clamp ((channel, m, p) :: more_c) s = (Raise (KeyError (PyStr (lower channel))), s).
Proof.
  intros _ Hlen Hname.
  apply first_channel_fails, _pre_unknown_name; assumption.
Qed.

(** [c in mode] for a one-character text. *)
Lemma single_in (u : ascii) (mode : string) :
  str_in (String u "") mode = existsb (Ascii.eqb u) (list_ascii_of_string mode).
Proof.
  unfold str_in.
  induction mode as [|c mode IH]; [reflexivity|].
  cbn [String.index list_ascii_of_string existsb].
  change (String.prefix (String u "") (String c mode))
    with (if ascii_dec u c then String.prefix "" mode else false).
  destruct (ascii_dec u c) as [<-|Hne].
  - rewrite prefix_empty, Ascii.eqb_refl. reflexivity.
  - apply Ascii.eqb_neq in Hne. rewrite Hne. cbn [orb].
    rewrite <- IH. destruct (String.index 0 (String u "") mode); reflexivity.
Qed.

Lemma _pre_unknown_letter (c : ascii) (s : Session) :
  dict_has SUPPORTED_PIL_MODES (PyStr (_current_format (self s))) = true ->
  existsb (Ascii.eqb (upper_ascii c)) (list_ascii_of_string "HSVRGBAL") = false ->
  _pre (String c "") s
  = (Raise (ValueError "No format supports the channel"
              (PyStr (String (upper_ascii c) ""))), s).
Proof.
  intros Hmode Hc.
  cbn [list_ascii_of_string existsb] in Hc.
  repeat match type of Hc with
         | (_ || _) = false => apply orb_false_elim in Hc; destruct Hc as [? Hc]
         end.
  clear Hc.
  unfold _pre. unfold bind at 1.
  change (negb (String.length (String c "") =? 1)%nat) with false. cbv iota.
  unfold ret at 1. unfold bind at 1. unfold attr at 1, gets at 1.
  change (upper (String c "")) with (String (upper_ascii c) "").
  set (u := upper_ascii c) in *.
  apply supported_mode_names in Hmode. simpl in Hmode.
  destruct Hmode as [E|[E|[E|[E|[E|[]]]]]]; rewrite <- E;
    rewrite single_in; cbn [list_ascii_of_string existsb];
    repeat match goal with H : Ascii.eqb u _ = false |- _ => rewrite H end;
    cbn [orb negb]; unfold bind at 1; unfold bind at 1;
    unfold _get_format, supported, lift; cbn [assoc String.eqb Ascii.eqb Bool.eqb];
    cbn [find str_mem existsb String.eqb];
    repeat match goal with H : Ascii.eqb u _ = false |- _ => rewrite H end;
    reflexivity.
Qed.

(** X3.  A channel of one ASCII character whose upper-case form is none of
    H, S, V, R, G, B, A, L, on a session whose current mode is one of the
    five supported ones: each of the five operations, given it as the first
    channel, raises [ValueError] "No format supports the channel" with the
    upper-cased character, and leaves the session exactly as it was (no
    conversion has been attempted).  (A character outside ASCII is not
    covered: Python maps its case by the Unicode tables, by which the long s
    becomes S, a channel that exists.) *)
Theorem unknown_channel_letter_raises_ValueError
    (c : ascii) (s : Session) (x : float) (p m : pyval)
    (more : list string) (more_f : list (string * float))
    (more_t : list (string * pyval)) (more_c : list (string * pyval * pyval)) :
  is_ascii_char c = true ->
  dict_has SUPPORTED_PIL_MODES (PyStr (_current_format (self s))) = true ->
  existsb (Ascii.eqb (upper_ascii c)) (list_ascii_of_string "HSVRGBAL") = false ->
  let channel := String c "" in
  let e := ValueError "No format supports the channel" (PyStr (upper channel)) in
  invert (channel :: more) s = (Raise e, s) /\
  offset ((channel, x) :: more_f) s = (Raise e, s) /\
  scale ((channel, x) :: more_f) s = (Raise e, s) /\
  threshold ((channel, p) :: more_t) s = (Raise e, s) /\
  clamp ((channel, m, p) :: more_c) s = (Raise e, s).
Proof.
  intros _ Hmode Hc channel e.
  apply first_channel_fails, _pre_unknown_letter; assumption.
Qed.

End UnknownChannel.

(** The name [Magenta] and the empty parameter lists, on the two-pixel
    image. *)
Lemma unknown_channel_name_raises_KeyError_witness :
  Engine.invert (np := Sample.numpy) (pil := Sample.pillow) ["Magenta"] two_pixel_session
  = (Raise (KeyError (PyStr (lower "Magenta"))), two_pixel_session) /\
  Engine.offset (np := Sample.numpy) (pil := Sample.pillow)
    [("Magenta", 0.5%float)] two_pixel_session
  = (Raise (KeyError (PyStr (lower "Magenta"))), two_pixel_session) /\
  Engine.scale (np := Sample.numpy) (pil := Sample.pillow)
    [("Magenta", 0.5%float)] two_pixel_session
  = (Raise (KeyError (PyStr (lower "Magenta"))), two_pixel_session) /\
  Engine.threshold (np := Sample.numpy) (pil := Sample.pillow)
    [("Magenta", PyStr "mean")] two_pixel_session
  = (Raise (KeyError (PyStr (lower "Magenta"))), two_pixel_session) /\
  Engine.clamp (np := Sample.numpy) (pil := Sample.pillow)
    [("Magenta", PyStr "min", PyStr "mean")] two_pixel_session
  = (Raise (KeyError (PyStr (lower "Magenta"))), two_pixel_session).
Proof.
  apply (unknown_channel_name_raises_KeyError (np := Sample.numpy) (pil := Sample.pillow)
           "Magenta" two_pixel_session 0.5%float (PyStr "mean") (PyStr "min")
           [] [] [] []).
  - reflexivity.
  - simpl. lia.
  - reflexivity.
Defined.

(** The letter [x] on the two-pixel image. *)
Lemma unknown_channel_letter_raises_ValueError_witness :
  let e := ValueError "No format supports the channel" (PyStr "X") in
  Engine.invert (np := Sample.numpy) (pil := Sample.pillow) ["x"] two_pixel_session
  = (Raise e, two_pixel_session) /\
  Engine.offset (np := Sample.numpy) (pil := Sample.pillow)
    [("x", 0.5%float)] two_pixel_session = (Raise e, two_pixel_session) /\
  Engine.scale (np := Sample.numpy) (pil := Sample.pillow)
    [("x", 0.5%float)] two_pixel_session = (Raise e, two_pixel_session) /\
  Engine.threshold (np := Sample.numpy) (pil := Sample.pillow)
    [("x", PyStr "mean")] two_pixel_session = (Raise e, two_pixel_session) /\
  Engine.clamp (np := Sample.numpy) (pil := Sample.pillow)
    [("x", PyStr "min", PyStr "mean")] two_pixel_session = (Raise e, two_pixel_session).
Proof.
  apply (unknown_channel_letter_raises_ValueError (np := Sample.numpy)
           (pil := Sample.pillow) "x"%char two_pixel_session 0.5%float
           (PyStr "mean") (PyStr "min") [] [] [] []); reflexivity.
Defined.

(** ** [threshold]: the two assignments are a hard step *)

Section StrictOrder.

(** Of two numbers, exactly one of [x < c] and [c <= x] holds. *)
Lemma ltb_negb_leb (x c : float) :
  is_nan x = false -> is_nan c = false -> (x <? c)%float = negb (c <=? x)%float.
Proof.
  intros Hx Hc. rewrite FloatAxioms.ltb_spec, FloatAxioms.leb_spec.
  unfold SFltb, SFleb.
  rewrite (SFcompare_antisym (Prim2SF x) (Prim2SF c)).
  destruct (SFcompare_defined _ _ (not_nan_spec x Hx) (not_nan_spec c Hc)) as [o ->].
  destruct o; reflexivity.
Qed.

(** A number above a non-negative one is above zero. *)
Lemma above_nonnegative (x c : float) :
  (0 <=? x)%float = true -> (x <? c)%float = true -> (c <=? 0)%float = false.
Proof.
  rewrite FloatAxioms.ltb_spec, !FloatAxioms.leb_spec.
  change (Prim2SF 0) with (S754_zero false).
  unfold SFltb, SFleb.
  destruct (Prim2SF x) as [[]|[]| |[] mx ex], (Prim2SF c) as [[]|[]| |[] mc ec];
    simpl; try discriminate; try reflexivity.
Qed.

End StrictOrder.

Section Threshold.
Import Engine.
Context `{np : Numpy} `{pil : Pillow}.

(** The second assignment of [threshold] reads what the first has written.
    On values of [0,1] and a threshold that is a number, the two together
    give 0 below the threshold and 1 from the threshold on. *)
Lemma step_is_hard (color : float) (v : list float) :
  is_nan color = false ->
  Forall (fun x => in_unit x = true) v ->
  step color v = map (fun x => if (x <? color)%float then 0%float else 1%float) v.
Proof.
  intros Hc Hv. unfold step. rewrite map_map.
  induction Hv as [|x v Hx _ IH]; [reflexivity|].
  cbn [map]. rewrite IH. f_equal.
  pose proof (in_unit_not_nan x Hx) as Hnan.
  unfold in_unit in Hx. apply andb_prop in Hx. destruct Hx as [H0 _].
  destruct (x <? color)%float eqn:E.
  - rewrite (above_nonnegative x color H0 E). reflexivity.
  - rewrite (ltb_negb_leb x color Hnan Hc) in E.
    apply negb_false_iff in E. rewrite E. reflexivity.
Qed.

Lemma post_value_black_or_white (auto : bool) (color : float) (v : list float) :
  map quantize
    (post_value auto (map (fun x => if (x <? color)%float then 0%float else 1%float) v))
  = map (fun x => if (x <? color)%float then 0 else 255) v.
Proof.
  unfold post_value. destruct auto; rewrite !map_map; apply map_ext; intros x;
    destruct (x <? color)%float; vm_compute; reflexivity.
Qed.

(** X4.  Take a channel whose plane [_pre] delivers (values of [0,1]) and a
    keyword of the aggregate table whose value t on that plane is a number.
    Then [threshold] returns; the plane it hands to the write-back holds 0
    where the value is below t and 1 elsewhere (with the auto-clamp flag on
    or off), the stored plane holds the byte 0 where the value is below t and
    255 elsewhere, and no other plane changes. *)
Theorem threshold_stores_black_or_white
    (channel keyword : string) (f : Aggregate) (s s1 : Session)
    (v : list float) (c : string) :
  _pre channel s = (Ok (v, c), s1) ->
  Forall (fun x => in_unit x = true) v ->
  assoc keyword SUPPORTED_KEYWORD_PARAMS = Some f ->
  is_nan (reduce f v) = false ->
  exists ix s2,
    threshold [(channel, PyStr keyword)] s = (Ok tt, s2) /\
    written s2
    = map (fun x => if (x <? reduce f v)%float then 0%float else 1%float) v :: written s1 /\
    planes s2
    = <[ix := map (fun x => if (x <? reduce f v)%float then 0 else 255) v]> (planes s1) /\
    (ix < length (planes s1))%nat.
Proof.
  intros Hpre Hv Hkw Hnan.
  destruct (_post_after__pre channel c s s1 v Hpre) as (ix & band & Hband & _ & Hpost).
  exists ix. eexists. split; [|split; [|split]].
  - unfold threshold, for_each. unfold bind at 1. unfold bind at 1. rewrite Hpre.
    unfold bind at 1. unfold lift, dict_get. rewrite Hkw.
    rewrite (step_is_hard _ v Hnan Hv). rewrite Hpost. reflexivity.
  - cbn [stored record_write written]. f_equal.
    unfold post_value. destruct (_auto_clamp (self s)); [|reflexivity].
    rewrite map_map. apply map_ext. intros x.
    destruct (x <? reduce f v)%float; reflexivity.
  - rewrite stored_planes, post_value_black_or_white. reflexivity.
  - apply lookup_lt_Some in Hband. exact Hband.
Qed.

End Threshold.

(** The red plane 0, 255 of the two-pixel image against its mean 0.5. *)
Lemma threshold_stores_black_or_white_witness :
  let v := [0%float; 1%float] in
  let t := reduce (Numpy := Sample.numpy) np_mean v in
  exists ix s2,
    Engine.threshold (np := Sample.numpy) (pil := Sample.pillow)
      [("r", PyStr "mean")] two_pixel_session = (Ok tt, s2) /\
    Engine.written s2
    = map (fun x => if (x <? t)%float then 0%float else 1%float) v
      :: Engine.written (materialized two_pixel_session) /\
    planes s2
    = <[ix := map (fun x => if (x <? t)%float then 0 else 255) v]>
        (planes (materialized two_pixel_session)) /\
    (ix < length (planes (materialized two_pixel_session)))%nat.
Proof.
  intros v t.
  apply (threshold_stores_black_or_white (np := Sample.numpy) (pil := Sample.pillow)
           "r" "mean" np_mean two_pixel_session (materialized two_pixel_session) v "R").
  - vm_compute. reflexivity.
  - repeat constructor.
  - reflexivity.
  - vm_compute. reflexivity.
Defined.

(** ** Operations that change nothing *)

Section Neutral.
Import Engine.
Context `{np : Numpy} `{pil : Pillow}.




End Neutral.


(** ** One call on several channels *)

Section Composition.
Import Engine.
Context `{np : Numpy} `{pil : Pillow}.

Lemma for_each_app {S A} (l1 l2 : list A) (body : A -> M S unit) (s : S) :
  for_each (l1 ++ l2) body s = (for_each l1 body ;; for_each l2 body) s.
Proof.
  revert s. induction l1 as [|a l1 IH]; intros s; [reflexivity|].
  cbn [app for_each]. unfold bind at 1 2 3.
  destruct (body a s) as [[[]|e] s']; [|reflexivity].
  apply IH.
Qed.

(** X6.  For each of the five operations, one call on a list of channels is
    the call on the first part of the list followed by the call on the rest,
    on the same object: the same result, the same exception when one of them
    raises (the channels after it are then not touched), and the same final
    state.  In particular a call on several channels is the sequence of the
    calls on each channel, which is how the command line tool makes them. *)
Theorem channel_lists_compose (s : Session)
    (a b : list string) (af bf : list (string * float))
    (at_ bt : list (string * pyval)) (ac bc : list (string * pyval * pyval)) :
  invert (a ++ b) s = (invert a ;; invert b) s /\
  offset (af ++ bf) s = (offset af ;; offset bf) s /\
  scale (af ++ bf) s = (scale af ;; scale bf) s /\
  threshold (at_ ++ bt) s = (threshold at_ ;; threshold bt) s /\
  clamp (ac ++ bc) s = (clamp ac ;; clamp bc) s.
Proof. repeat split; apply for_each_app. Qed.

End Composition.

(** ** The mode of the saved image *)

Section OperationInvariant.
Import Engine.
Context `{np : Numpy} `{pil : Pillow}.
Variable I : Session -> Prop.
Hypothesis I_loaded : forall x s, I s -> I (update (set_loaded_channels x) s).
Hypothesis I_write : forall v s, I s -> I (record_write v s).
Hypothesis I_convert : forall new_format, maintains I (_convert_image new_format).

Local Ltac kept :=
  repeat first
    [ apply maintains_ret | apply maintains_raise | apply maintains_lift
    | apply maintains_gets
    | apply maintains_modify; solve [auto]
    | apply maintains_if
    | apply maintains_bind; [|intros ?] ].

Lemma kept_by__get_channel channel : maintains I (_get_channel channel).
Proof.
  unfold _get_channel, attr, assign.
  apply maintains_bind; [kept|]. intros loaded.
  apply maintains_bind; [destruct loaded; kept|]. intros _.
  kept. destruct (_ ≫= _); kept.
Qed.

Lemma kept_by__pre channel : maintains I (_pre channel).
Proof.
  unfold _pre, attr.
  apply maintains_bind; [kept|]. intros c.
  apply maintains_bind; [kept|]. intros current.
  apply maintains_bind.
  - apply maintains_if; [|kept].
    apply maintains_bind; [kept|]. intros target. apply I_convert.
  - intros _. apply maintains_bind; [apply kept_by__get_channel|]. intros v. kept.
Qed.

Lemma kept_by__post channel value : maintains I (_post channel value).
Proof.
  unfold _post, _set_channel, attr, assign.
  apply maintains_bind; [kept|]. intros auto.
  apply maintains_bind; [kept|]. intros fmt.
  apply maintains_bind; [kept|]. intros ix.
  apply maintains_bind; [kept|]. intros [bands|]; kept.
Qed.

Lemma kept_by_perform (c : call) : maintains I (perform c).
Proof.
  destruct c as [channels|channels|channels|channels|channels]; cbn [perform];
    apply maintains_for_each.
  - intros channel.
    apply maintains_bind; [apply kept_by__pre|]. intros [v c]. apply kept_by__post.
  - intros [channel x].
    apply maintains_bind; [apply kept_by__pre|]. intros [v c]. apply kept_by__post.
  - intros [channel x].
    apply maintains_bind; [apply kept_by__pre|]. intros [v c]. apply kept_by__post.
  - intros [channel color].
    apply maintains_bind; [apply kept_by__pre|]. intros [v c].
    apply maintains_bind; [kept|]. intros f. apply kept_by__post.
  - intros [[channel mode] color].
    apply maintains_bind; [apply kept_by__pre|]. intros [v c].
    apply maintains_bind; [kept|]. intros known. apply maintains_if; [kept|].
    apply maintains_bind; [kept|]. intros f.
    apply maintains_bind; [kept|]. intros known'. apply maintains_if; [kept|].
    apply maintains_bind; [kept|]. intros g. apply kept_by__post.
Qed.

Lemma kept_by_perform_all (calls : list call) : maintains I (perform_all calls).
Proof. apply maintains_for_each, kept_by_perform. Qed.

End OperationInvariant.

Section SavedMode.
Import Engine.
Context `{np : Numpy} `{pil : Pillow}.

(** [Image.convert(mode)] returns an image of that mode. *)
Hypothesis pil_convert_mode : forall im mode im',
  pil_convert im mode = Ok im' -> im_mode im' = mode.

(** The image is in the mode that the object takes it to be in, and the
    output mode and the container format are [mode] and [format]. *)
Definition settled (mode : string) (format : option string) (s : Session) : Prop :=
  im_mode (_image_handle (self s)) = _current_format (self s) /\
  _output_format (self s) = mode /\
  _image_format (self s) = format.

Lemma settled__close_channels mode format : maintains (settled mode format) _close_channels.
Proof.
  intros s (Hmode & Hout & Hfmt).
  unfold _close_channels, state_after, bind, attr, gets, lift, assign, modify, merge.
  destruct (_loaded_channels (self s)) as [bands|]; simpl; [|repeat split; assumption].
  destruct (getmodebands (_current_format (self s))) as [n|e]; simpl;
    [|repeat split; assumption].
  destruct (n =? length bands)%nat; simpl; repeat split; assumption.
Qed.

Lemma settled__convert_image mode format new_format :
  maintains (settled mode format) (_convert_image new_format).
Proof.
  intros s Hs. unfold _convert_image.
  destruct (negb (dict_has SUPPORTED_PIL_MODES (PyStr new_format))); [exact Hs|].
  unfold state_after, bind at 1.
  pose proof (settled__close_channels mode format s Hs) as Hs1.
  unfold state_after in Hs1.
  destruct (_close_channels s) as [[[]|e] s1]; simpl in Hs1 |- *; [|exact Hs1].
  unfold bind, attr, gets, lift, assign, modify. simpl.
  destruct (pil_convert (_image_handle (self s1)) new_format) as [im|e] eqn:E; simpl;
    [|exact Hs1].
  destruct Hs1 as (_ & Hout & Hfmt). repeat split; try assumption.
  simpl. exact (pil_convert_mode _ _ _ E).
Qed.

Lemma settled_perform_all mode format (calls : list call) :
  maintains (settled mode format) (perform_all calls).
Proof.
  apply kept_by_perform_all.
  - intros x s (Hm & Ho & Hf). repeat split; assumption.
  - intros v s (Hm & Ho & Hf). repeat split; assumption.
  - intros new_format. apply settled__convert_image.
Qed.

Lemma settled___init__ image auto_clamp debug o :
  __init__ image auto_clamp debug = Ok o ->
  settled (im_mode image) (im_format image) (new o).
Proof.
  unfold __init__. destruct (negb _); [discriminate|].
  intros [= <-]. repeat split.
Qed.

Lemma _close_channels_returns (s s1 : Session) :
  _close_channels s = (Ok tt, s1) ->
  _loaded_channels (self s1) = None /\
  _current_format (self s1) = _current_format (self s).
Proof.
  unfold _close_channels, bind, attr, gets, lift, assign, modify, ret.
  destruct (_loaded_channels (self s)) as [bands|] eqn:Hl; simpl.
  - destruct (merge (_current_format (self s)) bands) as [im|e]; simpl; [|discriminate].
    intros [= <-]. split; reflexivity.
  - intros [= <-]. split; [exact Hl | reflexivity].
Qed.

Lemma _convert_image_returns (new_format : string) (s s1 : Session) :
  _convert_image new_format s = (Ok tt, s1) ->
  _loaded_channels (self s1) = None /\ _current_format (self s1) = new_format.
Proof.
  unfold _convert_image.
  destruct (negb (dict_has SUPPORTED_PIL_MODES (PyStr new_format))); [discriminate|].
  unfold bind at 1.
  destruct (_close_channels s) as [[[]|e] s0] eqn:Hclose; [|discriminate].
  destruct (_close_channels_returns s s0 Hclose) as [Hl _].
  unfold bind, attr, gets, lift, assign, modify. simpl.
  destruct (pil_convert (_image_handle (self s0)) new_format) as [im|e]; simpl;
    [|discriminate].
  intros [= <-]. split; [exact Hl | reflexivity].
Qed.

(** What [save_image('default')] hands to the codec when it returns. *)
Lemma save_default_settled mode format (s s' : Session) (im : Image) (fmt : option string) :
  settled mode format s ->
  save_image "default" s = (Ok (im, fmt), s') ->
  im_mode im = mode /\ fmt = format /\
  _current_format (self s') = mode /\
  _output_format (self s') = mode /\
  _loaded_channels (self s') = None.
Proof.
  intros Hs. unfold save_image.
  change (String.eqb "default" "default") with true. cbv iota.
  unfold bind at 1. unfold attr at 1, gets at 1. cbv beta iota.
  unfold bind at 1. unfold attr at 1, gets at 1. cbv beta iota.
  destruct Hs as (Hmode & Hout & Hfmt). rewrite Hout.
  assert (Hs : settled mode format s) by (repeat split; assumption).
  unfold bind at 1.
  match goal with
  | |- (let (_, _) := ?m in _) = _ -> _ =>
      assert (Hstep : exists r s1,
                 m = (r, s1) /\ settled mode format s1 /\
                 (r = Ok tt -> _current_format (self s1) = mode))
  end.
  { destruct (String.eqb_spec (_current_format (self s)) mode) as [E|E]; cbn [negb].
    - exists (Ok tt), s. split; [reflexivity|]. split; [exact Hs|]. intros _. exact E.
    - pose proof (settled__convert_image mode format mode s Hs) as Hs1.
      unfold state_after in Hs1.
      destruct (_convert_image mode s) as [r s1] eqn:Hc. simpl in Hs1.
      exists r, s1. split; [reflexivity|]. split; [exact Hs1|].
      intros ->. exact (proj2 (_convert_image_returns mode s s1 Hc)). }
  destruct Hstep as (r & s1 & -> & Hs1 & Hcur).
  destruct r as [[]|e]; [|discriminate].
  specialize (Hcur eq_refl).
  unfold bind at 1.
  pose proof (settled__close_channels mode format s1 Hs1) as Hs2.
  unfold state_after in Hs2.
  destruct (_close_channels s1) as [[[]|e] s2] eqn:Hclose; [|discriminate].
  simpl in Hs2.
  destruct (_close_channels_returns s1 s2 Hclose) as [Hl2 Hcur2].
  unfold bind, attr, gets, ret. intros [= <- <- <-].
  destruct Hs2 as (Hm2 & Ho2 & Hf2).
  rewrite Hm2, Hcur2, Hcur. auto.
Qed.

(** X7.  Assume that Pillow's [convert] returns an image of the mode it was
    asked for.  Take a session constructed from an image, and any sequence
    of the five operations on it, with whatever channels and parameters
    (they may have converted the image to other modes, and may have raised).
    If [save_image] with the default output format then returns, the image
    that it hands to the codec is in the mode of the input image, the
    container format is the one the input was read from, the object is back
    in that mode and it holds no cached planes. *)
Theorem save_after_operations_restores_mode
    (image : Image) (auto_clamp debug : bool) (o : ColorspaceModifier)
    (calls : list call) (saved : Image) (fmt : option string) (s' : Session) :
  __init__ image auto_clamp debug = Ok o ->
  save_image "default" (state_after (perform_all calls (new o))) = (Ok (saved, fmt), s') ->
  im_mode saved = im_mode image /\
  fmt = im_format image /\
  _current_format (self s') = im_mode image /\
  _loaded_channels (self s') = None.
Proof.
  intros Hinit Hsave.
  assert (Hs : settled (im_mode image) (im_format image)
                 (state_after (perform_all calls (new o)))).
  { apply settled_perform_all. eapply settled___init__, Hinit. }
  destruct (save_default_settled _ _ _ _ _ _ Hs Hsave) as (H1 & H2 & H3 & _ & H4).
  auto.
Qed.

(** X8.  Under the same assumption on Pillow: when [convert] to a mode
    returns on a fresh session, that mode is the output mode from then on.
    Whatever operations follow, if [save_image] with the default output
    format returns, the image handed to the codec is in the mode given to
    [convert], still with the container format of the input. *)
Theorem convert_sets_the_saved_mode
    (image : Image) (auto_clamp debug : bool) (o : ColorspaceModifier)
    (new_format : string) (calls : list call)
    (saved : Image) (fmt : option string) (s' : Session) :
  __init__ image auto_clamp debug = Ok o ->
  (convert new_format ;; perform_all calls ;; save_image "default") (new o)
  = (Ok (saved, fmt), s') ->
  im_mode saved = new_format /\
  fmt = im_format image /\
  _current_format (self s') = new_format /\
  _output_format (self s') = new_format.
Proof.
  intros Hinit.
  pose proof (settled___init__ _ _ _ _ Hinit) as H0.
  unfold bind at 1. unfold convert. unfold bind at 1.
  pose proof (settled__convert_image _ _ new_format _ H0) as H1.
  unfold state_after in H1.
  destruct (_convert_image new_format (new o)) as [[[]|e] s1]; [|discriminate].
  simpl in H1. unfold assign at 1, modify at 1.
  set (s2 := update (set_output_format new_format) s1).
  assert (H2 : settled new_format (im_format image) s2).
  { destruct H1 as (Hm & _ & Hf). repeat split; assumption. }
  unfold bind at 1.
  pose proof (settled_perform_all _ _ calls s2 H2) as H3.
  unfold state_after in H3.
  destruct (perform_all calls s2) as [[[]|e] s3]; [|discriminate].
  simpl in H3. intros Hsave.
  destruct (save_default_settled _ _ _ _ _ _ H3 Hsave) as (Hmode & Hfmt & Hcur & Hout & _).
  auto.
Qed.

End SavedMode.

(** The conversions of the sample library return the mode asked for. *)
Lemma change_mode_gives_mode (im : Image) (mode : string) (im' : Image) :
  Sample.change_mode im mode = Ok im' -> im_mode im' = mode.
Proof.
  unfold Sample.change_mode.
  assert (Hto : forall bands,
             Ok {| im_format := None; im_mode := mode; im_bands := bands |} = Ok im' ->
             im_mode im' = mode) by (intros bands [= <-]; reflexivity).
  assert (Hfall : (if String.eqb (im_mode im) mode
                   then Ok {| im_format := None; im_mode := mode; im_bands := im_bands im |}
                   else Raise (ValueError "conversion not supported" (PyStr mode))) = Ok im' ->
                  im_mode im' = mode).
  { destruct (String.eqb (im_mode im) mode); [apply Hto | discriminate]. }
  revert Hfall.
  generalize (if String.eqb (im_mode im) mode
              then Ok {| im_format := None; im_mode := mode; im_bands := im_bands im |}
              else Raise (ValueError "conversion not supported" (PyStr mode))).
  intros fallback Hfall.
  destruct (im_mode im) as [|a1 m1]; [exact Hfall|].
  repeat match goal with
         | |- (match ?x with _ => _ end) = _ -> _ =>
             destruct x; try exact Hfall; try apply Hto
         end.
Qed.

(** An invert of the alpha channel, which converts the two-pixel image to
    RGBA, and an offset of red: the saved image is RGB again. *)
Lemma save_after_operations_restores_mode_witness :
  let calls := [Engine.Invert ["a"]; Engine.Offset [("r", 0.25%float)]] in
  let s := state_after (Engine.perform_all (np := Sample.numpy) (pil := Sample.pillow)
                          calls two_pixel_session) in
  let saved := {| im_format := None; im_mode := "RGB";
                  im_bands := [[63; 255]; [10; 20]; [30; 40]] |} in
  im_mode saved = im_mode Sample.two_pixels /\
  Some "PNG" = im_format Sample.two_pixels /\
  Engine._current_format
    (Engine.self (state_after (Engine.save_image (pil := Sample.pillow) "default" s)))
  = im_mode Sample.two_pixels /\
  Engine._loaded_channels
    (Engine.self (state_after (Engine.save_image (pil := Sample.pillow) "default" s)))
  = None.
Proof.
  intros calls s saved.
  apply (save_after_operations_restores_mode (np := Sample.numpy) (pil := Sample.pillow)
           change_mode_gives_mode Sample.two_pixels true false
           (Engine.self two_pixel_session) calls saved (Some "PNG")).
  - reflexivity.
  - vm_compute. reflexivity.
Defined.

(** A conversion to RGBA and an invert of red: the saved image is RGBA. *)
Lemma convert_sets_the_saved_mode_witness :
  let run :=
    (Engine.convert (pil := Sample.pillow) "RGBA" ;;
     Engine.perform_all (np := Sample.numpy) (pil := Sample.pillow)
       [Engine.Invert ["r"]] ;;
     Engine.save_image (pil := Sample.pillow) "default") two_pixel_session in
  let saved := {| im_format := None; im_mode := "RGBA";
                  im_bands := [[255; 0]; [10; 20]; [30; 40]; [255; 255]] |} in
  im_mode saved = "RGBA" /\
  Some "PNG" = im_format Sample.two_pixels /\
  Engine._current_format (Engine.self (state_after run)) = "RGBA" /\
  Engine._output_format (Engine.self (state_after run)) = "RGBA".
Proof.
  intros run saved.
  apply (convert_sets_the_saved_mode (np := Sample.numpy) (pil := Sample.pillow)
           change_mode_gives_mode Sample.two_pixels true false
           (Engine.self two_pixel_session) "RGBA" [Engine.Invert ["r"]] saved (Some "PNG")).
  - reflexivity.
  - vm_compute. reflexivity.
Defined.

(** * Further properties of the command line tool *)

(** ** [first_index] *)

Section FirstIndex.
Import Engine Cli.

Lemma list_index_Some (item : string) (l : list string) (i : nat) :
  list_index item l = Some i ->
  l !! i = Some item /\ forall j x, (j < i)%nat -> l !! j = Some x -> x <> item.
Proof.
  revert i. induction l as [|y l IH]; intros i; [discriminate|].
  cbn [list_index]. destruct (String.eqb_spec y item) as [->|Hne].
  - intros [= <-]. split; [reflexivity|]. intros j x Hj. lia.
  - destruct (list_index item l) as [i'|]; [|discriminate].
    intros [= <-]. destruct (IH i' eq_refl) as [Hi Hlt]. split; [exact Hi|].
    intros [|j] x Hj; simpl.
    + intros [= <-]. exact Hne.
    + apply Hlt. lia.
Qed.

Lemma list_index_found (item : string) (l : list string) (j : nat) :
  l !! j = Some item -> exists i, list_index item l = Some i /\ (i <= j)%nat.
Proof.
  revert j. induction l as [|y l IH]; intros j; [discriminate|].
  cbn [list_index]. destruct (String.eqb_spec y item) as [->|Hne].
  - intros _. exists 0%nat. split; [reflexivity|lia].
  - destruct j as [|j]; simpl; [intros [= E]; contradiction|].
    intros Hj. destruct (IH j Hj) as (i & -> & Hi).
    exists (S i). split; [reflexivity|lia].
Qed.

Lemma str_mem_In (x : string) (l : list string) : str_mem x l = true <-> In x l.
Proof.
  unfold str_mem. rewrite existsb_exists. split.
  - intros (y & Hy & E). apply String.eqb_eq in E. subst y. exact Hy.
  - intros Hx. exists x. split; [exact Hx | apply String.eqb_refl].
Qed.

(** The loop of [first_index]: the least of the first positions of the
    items. *)
Lemma fold_first (L iterable : list string) (k0 : nat) :
  let k := fold_left (fun first item =>
                        match list_index item L with
                        | Some i => Nat.min first i
                        | None => first
                        end) iterable k0 in
  (k <= k0)%nat /\
  (forall item i, In item iterable -> list_index item L = Some i -> (k <= i)%nat) /\
  (k = k0 \/ exists item, In item iterable /\ list_index item L = Some k).
Proof.
  revert k0. induction iterable as [|a iterable IH]; intros k0; cbn [fold_left].
  - split; [lia|]. split; [intros ? ? []|]. left. reflexivity.
  - set (k1 := match list_index a L with Some i => Nat.min k0 i | None => k0 end).
    destruct (IH k1) as (Hle & Hall & Hex).
    assert (H1 : (k1 <= k0)%nat /\
                 (forall i, list_index a L = Some i -> (k1 <= i)%nat) /\
                 (k1 = k0 \/ list_index a L = Some k1)).
    { unfold k1. destruct (list_index a L) as [i|].
      - split; [lia|]. split; [intros ? [= <-]; lia|].
        destruct (Nat.min_spec k0 i) as [[_ ->]|[_ ->]]; auto.
      - split; [lia|]. split; [discriminate|]. auto. }
    destruct H1 as (H1le & H1a & H1ex).
    split; [lia|]. split.
    + intros item i [<-|Hin] Hi.
      * specialize (H1a i Hi). lia.
      * exact (Hall item i Hin Hi).
    + destruct Hex as [E|(item & Hin & Hi)].
      * destruct H1ex as [E1|Ha].
        -- left. congruence.
        -- right. exists a. split; [left; reflexivity|]. rewrite E. exact Ha.
      * right. exists item. split; [right; exact Hin | exact Hi].
Qed.

(** The result lies between [start] and the length of the list; no token
    from [start] up to it is, in lower case, among the items; and the token
    at it, when there is one, is. *)
Lemma first_index_least (input_list iterable : list string) (start : nat) :
  let r := first_index input_list iterable start in
  (start <= r)%nat /\
  (r <= Nat.max start (length input_list))%nat /\
  (forall j x, (start <= j < r)%nat -> input_list !! j = Some x ->
               str_mem (lower x) iterable = false) /\
  (forall x, input_list !! r = Some x -> str_mem (lower x) iterable = true).
Proof.
  unfold first_index.
  set (L := map lower (drop start input_list)).
  destruct (fold_first L iterable (length L)) as (Hle & Hall & Hex).
  set (k := fold_left _ iterable (length L)) in *.
  assert (HL : length L = (length input_list - start)%nat).
  { unfold L. rewrite length_map, length_drop. reflexivity. }
  assert (Hat : forall i x, input_list !! (start + i)%nat = Some x -> L !! i = Some (lower x)).
  { intros i x Hx. unfold L. rewrite list_lookup_fmap, lookup_drop, Hx. reflexivity. }
  cbv zeta. split; [lia|]. split; [lia|]. split.
  - intros j x Hj Hx.
    destruct (str_mem (lower x) iterable) eqn:E; [|reflexivity].
    apply str_mem_In in E.
    replace j with (start + (j - start))%nat in Hx by lia.
    apply Hat in Hx.
    destruct (list_index_found _ _ _ Hx) as (i & Hi & Hij).
    specialize (Hall _ _ E Hi). lia.
  - intros x Hx.
    pose proof (lookup_lt_Some _ _ _ Hx) as Hlt.
    destruct Hex as [E|(item & Hin & Hi)]; [lia|].
    apply list_index_Some in Hi. destruct Hi as [Hi _].
    replace (k + start)%nat with (start + k)%nat in Hx by lia.
    apply Hat in Hx. rewrite Hx in Hi. injection Hi as <-.
    apply str_mem_In. exact Hin.
Qed.




End FirstIndex.

(** ** [main]: how the command line is cut into commands *)

Section MainLoop.
Import Engine Cli.
Context `{np : Numpy} `{pil : Pillow} `{py : Builtins} `{ap : Argparse}.

(** A token that is the name of an operation, in any case. *)
Definition is_operation (token : string) : bool :=
  str_mem (lower token) SUPPORTED_OPERATIONS.

(** The command line read from left to right: the tokens before the first
    operation name, and then one segment for each operation name, made of
    the name and of the tokens up to the next one. *)
Fixpoint segments_from (tokens : list string)
  : list string * list (string * list string) :=
  match tokens with
  | [] => ([], [])
  | t :: rest =>
      let '(args, segs) := segments_from rest in
      if is_operation t then ([], (t, args) :: segs) else (t :: args, segs)
  end.

(** The first token opens a segment whatever it is. *)
Definition segments (tokens : list string) : list (string * list string) :=
  match tokens with
  | [] => []
  | t :: rest => let '(args, segs) := segments_from rest in (t, args) :: segs
  end.

(** The two parser calls of [main], made on each segment in turn. *)
Fixpoint parse_segments (argv : list string) (segs : list (string * list string))
    (l : Locals) : result Locals :=
  match segs with
  | [] => Ok l
  | (t, args) :: segs' =>
      match parse_operation [t] with
      | Raise e => Raise e
      | Ok parsed =>
          match parse_command argv (command parsed) args (need_input l) with
          | Raise e => Raise e
          | Ok values =>
              parse_segments argv segs'
                {| end_ := end_ l + 1 + length args;
                   need_input := false;
                   debug_ := debug_ l || (debug values || parsed_debug parsed);
                   no_clamp_ := no_clamp_ l || (no_clamp values || parsed_no_clamp parsed);
                   commands := (commands l ++ [(command parsed, values)])%list |}
          end
      end
  end.

Lemma segments_from_split (rest : list string) (k : nat) :
  Forall (fun x => is_operation x = false) (take k rest) ->
  (forall x, rest !! k = Some x -> is_operation x = true) ->
  segments_from rest = (take k rest, segments (drop k rest)).
Proof.
  revert k. induction rest as [|t rest IH]; intros k Hargs Hop.
  - destruct k; reflexivity.
  - destruct k as [|k].
    + cbn [take drop segments segments_from].
      rewrite (Hop t eq_refl). destruct (segments_from rest); reflexivity.
    + cbn [take drop segments_from]. cbn [take] in Hargs.
      apply Forall_cons in Hargs. destruct Hargs as [Ht Hargs].
      rewrite (IH k Hargs Hop), Ht. reflexivity.
Qed.

Lemma first_index_splits (argv : list string) (start : nat) :
  (start < length argv)%nat ->
  let r := first_index argv SUPPORTED_OPERATIONS (start + 1) in
  let rest := drop (start + 1) argv in
  (start + 1 <= r <= length argv)%nat /\
  segments_from rest = (take (r - (start + 1)) rest, segments (drop r argv)).
Proof.
  intros Hstart r rest.
  destruct (first_index_least argv SUPPORTED_OPERATIONS (start + 1))
    as (Hlo & Hhi & Hbefore & Hat).
  fold r in Hlo, Hhi, Hbefore, Hat.
  split; [lia|].
  replace (drop r argv) with (drop (r - (start + 1)) rest).
  2:{ unfold rest. rewrite drop_drop. f_equal. lia. }
  apply segments_from_split.
  - apply Forall_lookup. intros i x Hi.
    apply lookup_take_Some in Hi. destruct Hi as [Hi Hlt].
    unfold rest in Hi. rewrite lookup_drop in Hi.
    apply (Hbefore (start + 1 + i)%nat x); [lia | exact Hi].
  - intros x Hx. unfold rest in Hx. rewrite lookup_drop in Hx.
    replace (start + 1 + (r - (start + 1)))%nat with r in Hx by lia.
    exact (Hat x Hx).
Qed.

(** The loop visits the segments, one in each turn, and never needs more
    turns than there are tokens left. *)
Lemma parse_chain_segments (argv : list string) (fuel : nat) (l : Locals) :
  (length argv - end_ l <= fuel)%nat ->
  parse_chain fuel argv l
  = Some (parse_segments argv (segments (drop (end_ l) argv)) l).
Proof.
  revert l. induction fuel as [|fuel IH]; intros l Hfuel.
  - cbn [parse_chain].
    destruct (Nat.ltb_spec (end_ l) (length argv)) as [Hlt|Hge]; [lia|].
    rewrite drop_ge by lia. reflexivity.
  - cbn [parse_chain].
    destruct (Nat.ltb_spec (end_ l) (length argv)) as [Hlt|Hge].
    2:{ rewrite drop_ge by lia. reflexivity. }
    destruct (lookup_lt_is_Some_2 argv (end_ l) Hlt) as [t Ht].
    rewrite (drop_S _ _ _ Ht).
    destruct (first_index_splits argv (end_ l) Hlt) as [Hr Hsplit].
    cbn [take segments]. replace (S (end_ l)) with (end_ l + 1)%nat by lia.
    rewrite Hsplit, take_0. cbn [parse_segments].
    destruct (parse_operation [t]) as [parsed|e]; [|reflexivity].
    destruct (parse_command argv (command parsed) _ (need_input l)) as [values|e];
      [|reflexivity].
    rewrite IH by (cbn [end_]; lia). cbn [end_].
    rewrite length_take, length_drop.
    replace (end_ l + 1 + (first_index argv SUPPORTED_OPERATIONS (end_ l + 1) - (end_ l + 1))
               `min` (length argv - (end_ l + 1)))%nat
      with (first_index argv SUPPORTED_OPERATIONS (end_ l + 1)) by lia.
    reflexivity.
Qed.

Lemma segments_from_partition (tokens : list string) :
  let '(args, segs) := segments_from tokens in
  (args ++ flat_map (fun '(t, a) => t :: a) segs)%list = tokens /\
  Forall (fun x => is_operation x = false) args /\
  Forall (fun '(t, a) => Forall (fun x => is_operation x = false) a) segs /\
  Forall (fun '(t, a) => is_operation t = true) segs.
Proof.
  induction tokens as [|t tokens IH]; cbn [segments_from].
  - repeat split; constructor.
  - destruct (segments_from tokens) as [args segs].
    destruct IH as (Hcat & Hargs & Hsegs & Hheads).
    destruct (is_operation t) eqn:Ht.
    + cbn [flat_map app]. rewrite Hcat. repeat split; try constructor; assumption.
    + cbn [app]. rewrite Hcat. repeat split; try constructor; assumption.
Qed.

(** X10.  Whatever the command line and the two argparse parsers, the loop
    of [main] ends within [len(argv)] turns, and [main] is this: with the
    program name alone, the help request; otherwise the tokens after the
    program name are cut into segments, the first token opening the first
    segment and every later token that is an operation name in any case
    opening the next one; each segment gives its first token to
    [parse_operation] and its other tokens to [parse_command] (the input
    being positional for the first segment only), in order, the first
    failure ending the run; and [run_commands] receives the parsed commands
    with the accumulated debug flag and the negated no-clamp flag.  The
    segments put together are the tokens, no segment has an operation name
    among its arguments, and every segment but the first starts with one. *)
Theorem main_splits_at_operation_names (argv : list string) (w : World) :
  let l0 := {| end_ := 1; need_input := true; debug_ := false; no_clamp_ := false;
               commands := [] |} in
  let tokens := drop 1 argv in
  main argv w
  = (if (length argv =? 1)%nat then
       match parse_operation ["-h"] with
       | Raise e => Some (Raise e, w)
       | Ok _ => Some (Ok tt, w)
       end
     else
       match parse_segments argv (segments tokens) l0 with
       | Raise e => Some (Raise e, w)
       | Ok l => Some (run_commands (commands l) (debug_ l) (negb (no_clamp_ l)) w)
       end) /\
  flat_map (fun '(t, a) => t :: a) (segments tokens) = tokens /\
  Forall (fun '(t, a) => Forall (fun x => is_operation x = false) a) (segments tokens) /\
  Forall (fun '(t, a) => is_operation t = true) (tail (segments tokens)).
Proof.
  intros l0 tokens. split.
  - unfold main. destruct (length argv =? 1)%nat; [reflexivity|].
    fold l0. rewrite (parse_chain_segments argv (length argv) l0) by lia.
    reflexivity.
  - destruct tokens as [|t rest]; [repeat split; constructor|].
    cbn [segments].
    pose proof (segments_from_partition rest) as H.
    destruct (segments_from rest) as [args segs].
    destruct H as (Hcat & Hargs & Hsegs & Hheads).
    cbn [flat_map tail app]. rewrite Hcat.
    repeat split; try constructor; assumption.
Qed.

End MainLoop.

(** The command line of the help text, with an output in between; a file
    named like an operation opens a segment too. *)
Lemma segments_examples :
  segments ["invert"; "input.png"; "+rghl"; "-o"; "mid.png"; "Offset"; "+r"; "0.5"]
  = [("invert", ["input.png"; "+rghl"; "-o"; "mid.png"]); ("Offset", ["+r"; "0.5"])] /\
  segments ["invert"; "input.png"; "+r"; "-o"; "scale"]
  = [("invert", ["input.png"; "+r"; "-o"]); ("scale", [])].
Proof. split; reflexivity. Qed.

(** * Further properties of the service *)

(** ** What the handlers reach outside the process *)

Section ServiceAccess.
Import Engine Api.
Context `{np : Numpy} `{pil : Pillow} `{py : Builtins}.

(** X11.  A data spec with two commas or more, whatever stands around them
    (a [file:] prefix, a [url] prefix with an address that contains a
    comma), cannot be unpacked into a type and a payload: [parse_file] raises
    the [ValueError] of the unpacking, which the framework answers with the
    status 500, and nothing has been read or fetched. *)
Theorem parse_file_two_commas (a b c : string) (w : Server) :
  parse_file (a ++ String "," (b ++ String "," c)) w
  = (Raise (ValueError "too many values to unpack (expected 2)" PyNone), w) /\
  status_code_of (outcome (parse_file (a ++ String "," (b ++ String "," c)) w)) = 500.
Proof.
  assert (E : parse_file (a ++ String "," (b ++ String "," c)) w
              = (Raise (ValueError "too many values to unpack (expected 2)" PyNone), w)).
  { unfold parse_file. rewrite str_in_comma_app. cbn [negb].
    pose proof (length_split_on_app "," a (b ++ String "," c)) as Hlen.
    rewrite (length_split_on_app "," b c) in Hlen.
    pose proof (split_on_not_nil "," a) as Ha.
    pose proof (split_on_not_nil "," b) as Hb.
    pose proof (split_on_not_nil "," c) as Hc.
    destruct (split_on "," a) as [|? ?]; [contradiction|].
    destruct (split_on "," b) as [|? ?]; [contradiction|].
    destruct (split_on "," c) as [|? ?]; [contradiction|].
    destruct (split_on "," (a ++ String "," (b ++ String "," c))) as [|x [|y [|z rest]]];
      cbn [length] in Hlen; try lia.
    reflexivity. }
  rewrite E. split; reflexivity.
Qed.

(** The same interpreter on another network: [requests.get] answers with
    [get], everything else is as it was. *)
Definition with_network (get : string -> result (Z * string * bytes)) : Builtins :=
  {| py_float := py_float;
     b64decode := b64decode;
     b64encode := b64encode;
     requests_get := get |}.

(** Two runs, on two servers that have made the same accesses so far: they
    end alike, by the same return or the same exception, they have made the
    same accesses, and each leaves its disk as it was. *)
Definition same_run {X} (m1 m2 : A X) : Prop :=
  forall w1 w2, trace w1 = trace w2 ->
    outcome (m1 w1) = outcome (m2 w2) /\
    trace (state_after (m1 w1)) = trace (state_after (m2 w2)) /\
    disk (state_after (m1 w1)) = disk w1 /\
    disk (state_after (m2 w2)) = disk w2.

Lemma same_run_ret {X} (x : X) : same_run (ret x) (ret x).
Proof. intros w1 w2 Ht. repeat split. exact Ht. Qed.

Lemma same_run_raise {X} (e : exn) : same_run (@raise Server X e) (raise e).
Proof. intros w1 w2 Ht. repeat split. exact Ht. Qed.

Lemma same_run_lift {X} (r : result X) : same_run (lift r) (lift r).
Proof. intros w1 w2 Ht. repeat split. exact Ht. Qed.

Lemma same_run_log (e : event) : same_run (log e) (log e).
Proof.
  intros w1 w2 Ht. unfold log, modify, outcome, state_after. simpl.
  rewrite Ht. repeat split.
Qed.

Lemma same_run_bind {X Y} (m1 m2 : A X) (k1 k2 : X -> A Y) :
  same_run m1 m2 -> (forall x, same_run (k1 x) (k2 x)) ->
  same_run (bind m1 k1) (bind m2 k2).
Proof.
  intros Hm Hk w1 w2 Ht.
  destruct (Hm w1 w2 Ht) as (Ho & Htr & Hd1 & Hd2).
  unfold bind, outcome, state_after in *.
  destruct (m1 w1) as [[x1|e1] w1'], (m2 w2) as [[x2|e2] w2']; simpl in *;
    try discriminate.
  - injection Ho as <-.
    destruct (Hk x1 w1' w2' Htr) as (Ho' & Htr' & Hd1' & Hd2').
    unfold outcome, state_after in *.
    repeat split; congruence.
  - injection Ho as <-. repeat split; assumption.
Qed.

Lemma same_run_in_session {X} (s : Session) (m : E X) :
  same_run (in_session s m) (in_session s m).
Proof.
  intros w1 w2 Ht. unfold in_session, outcome, state_after.
  destruct (m s) as [[x|e] s']; repeat split; exact Ht.
Qed.

Lemma same_run_call_encode_output (args : list argument) :
  same_run (call_encode_output (S := Server) args) (call_encode_output args).
Proof.
  intros w1 w2 Ht. unfold call_encode_output, outcome, state_after.
  destruct args as [|[content|content|text] [|? ?]]; repeat split; exact Ht.
Qed.

Section Network.
Variable get : string -> result (Z * string * bytes).

Lemma do_operation_network (operation : string) (channels : list string)
    (params : option (list json)) :
  do_operation (py := with_network get) operation channels params
  = do_operation operation channels params.
Proof. reflexivity. Qed.

(** [parse_file] on the two networks, for a data spec at whose address, if
    it names one, they answer alike. *)
Lemma parse_file_same_run (data : string) :
  (forall url, data = "url" ++ String "," url -> get url = requests_get url) ->
  same_run (parse_file data) (parse_file (py := with_network get) data).
Proof.
  intros Hget. unfold parse_file.
  destruct (negb (str_in "," data)); [apply same_run_raise|].
  destruct (split_on "," data) as [|content_type [|content_string [|]]] eqn:Hsplit;
    try apply same_run_raise.
  destruct (startswith content_type "file:"); [apply same_run_raise|].
  destruct (startswith content_type "data:").
  { apply same_run_bind; [apply same_run_lift|]. intros i.
    apply same_run_bind; [apply same_run_lift|]. intros j.
    destruct (negb _); [apply same_run_raise|].
    destruct (endswith content_type ";base64"); [|apply same_run_raise].
    apply same_run_lift. }
  destruct (String.eqb_spec content_type "url") as [->|_]; [|apply same_run_raise].
  apply split_on_two in Hsplit.
  apply same_run_bind; [apply same_run_log|]. intros _.
  change (requests_get (Builtins := with_network get) content_string)
    with (get content_string).
  rewrite (Hget content_string Hsplit).
  apply same_run_bind; [apply same_run_lift|]. intros [[status text] content].
  destruct (negb (status =? 200)%Z); [apply same_run_raise | apply same_run_ret].
Qed.

Lemma render_same_run (data : Operation) (input_data : string) :
  (forall url, input_data = "url" ++ String "," url -> get url = requests_get url) ->
  same_run (render data input_data) (render (py := with_network get) data input_data).
Proof.
  intros Hget. unfold render.
  apply same_run_bind; [apply parse_file_same_run, Hget|]. intros raw.
  apply same_run_bind; [apply same_run_lift|]. intros input_handle.
  apply same_run_bind; [apply same_run_lift|]. intros convert.
  rewrite do_operation_network.
  apply same_run_bind; [apply same_run_in_session|]. intros [[im fmt] s].
  apply same_run_lift.
Qed.

Lemma process_same_run (data : Operation) (inputs : list (string * string))
    (files : gmap string string) :
  (forall name url, In (name, "url" ++ String "," url) inputs ->
     get url = requests_get url) ->
  same_run (process data inputs files)
           (process (py := with_network get) data inputs files).
Proof.
  revert files. induction inputs as [|[name spec] inputs IH]; intros files Hget;
    cbn [process].
  - apply same_run_ret.
  - apply same_run_bind.
    { apply render_same_run. intros url ->. apply (Hget name). left. reflexivity. }
    intros buffer.
    apply same_run_bind; [apply same_run_call_encode_output|]. intros output_data.
    apply IH. intros n url Hin. apply (Hget n). right. exact Hin.
Qed.

Lemma apply_operations_same_run (ops : list Operation) (convert : Session)
    (output_files : list string) :
  same_run (apply_operations ops convert output_files)
           (apply_operations (py := with_network get) ops convert output_files).
Proof.
  revert convert output_files.
  induction ops as [|op ops IH]; intros convert output_files; cbn [apply_operations].
  - apply same_run_ret.
  - rewrite do_operation_network.
    apply same_run_bind; [apply same_run_in_session|]. intros [[] convert1].
    destruct (output_format op) as [fmt|]; [|apply IH].
    apply same_run_bind; [apply same_run_in_session|]. intros [[im container] convert2].
    apply same_run_bind; [apply same_run_lift|]. intros buffer.
    apply same_run_bind; [apply same_run_call_encode_output|]. intros output_data.
    apply IH.
Qed.

Lemma render_all_same_run (data : MultiOperation) (input_data : string) :
  (forall url, input_data = "url" ++ String "," url -> get url = requests_get url) ->
  same_run (render_all data input_data)
           (render_all (py := with_network get) data input_data).
Proof.
  intros Hget. unfold render_all.
  apply same_run_bind; [apply parse_file_same_run, Hget|]. intros raw.
  apply same_run_bind; [apply same_run_lift|]. intros input_handle.
  apply same_run_bind; [apply same_run_lift|]. intros convert0.
  apply same_run_bind; [apply apply_operations_same_run|].
  intros [convert output_files].
  apply same_run_bind; [apply same_run_in_session|]. intros [[im fmt] convert1].
  apply same_run_bind; [apply same_run_lift|]. intros buffer.
  apply same_run_bind; [apply same_run_call_encode_output|]. intros output_data.
  apply same_run_bind; [apply same_run_in_session|]. intros closed.
  apply same_run_ret.
Qed.

Lemma process_all_same_run (data : MultiOperation) (inputs : list (string * string))
    (files : gmap string (list string)) :
  (forall name url, In (name, "url" ++ String "," url) inputs ->
     get url = requests_get url) ->
  same_run (process_all data inputs files)
           (process_all (py := with_network get) data inputs files).
Proof.
  revert files. induction inputs as [|[name spec] inputs IH]; intros files Hget;
    cbn [process_all].
  - apply same_run_ret.
  - apply same_run_bind.
    { apply render_all_same_run. intros url ->. apply (Hget name). left. reflexivity. }
    intros output_files. apply IH. intros n url Hin. apply (Hget n). right. exact Hin.
Qed.

End Network.

(** X12.  What the handlers of [POST /operation] and [POST /operations]
    answer, by return or by exception, and the addresses they request,
    depend on the world outside the request only through what
    [requests.get] returns at the addresses that the request itself names, in
    an input whose data spec is [url], a comma, and the address.  Run the
    handler on two servers with any two disks, and on two networks that agree
    at those addresses and may differ at every other one: the answers are
    the same, the requests made are the same, and each disk is left as it
    was.  So no file of the server and no other address has a part in the
    answer. *)
Theorem handlers_only_fetch_given_urls (single : Operation) (multi : MultiOperation)
    (get : string -> result (Z * string * bytes)) :
  (forall name url,
     In (name, "url" ++ String "," url) (default [] (input single) ++ multi_input multi) ->
     get url = requests_get url) ->
  same_run (api_operation single) (api_operation (py := with_network get) single) /\
  same_run (api_operations multi) (api_operations (py := with_network get) multi).
Proof.
  intros Hget. split.
  - unfold api_operation. destruct (input single) as [inputs|]; [|apply same_run_raise].
    destruct (negb (str_mem (action single) SUPPORTED_OPERATIONS));
      [apply same_run_raise|].
    apply same_run_bind.
    { induction (channels single) as [|c cs IH]; cbn [for_each]; [apply same_run_ret|].
      apply same_run_bind; [|intros _; exact IH].
      destruct (negb (str_mem c SUPPORTED_COLOR_CHANNEL_SHORTHANDS));
        [apply same_run_raise | apply same_run_ret]. }
    intros _. apply process_same_run. intros name url Hin.
    apply (Hget name). apply in_or_app. left. exact Hin.
  - unfold api_operations. apply process_all_same_run. intros name url Hin.
    apply (Hget name). apply in_or_app. right. exact Hin.
Qed.

End ServiceAccess.

(** A request for an image at an address, and a network that answers as the
    sample one at that address and returns a payload everywhere else. *)
Definition fetch_request : Api.Operation :=
  passwd_request "invert" "url,http://example.org/a.png".

Definition fetch_batch : Api.MultiOperation :=
  {| Api.multi_auto_clamp := false;
     Api.operations := [];
     Api.multi_input := [("img", "url,http://example.org/a.png")];
     Api.multi_output_format := "default" |}.

Definition other_network (url : string) : result (Z * string * bytes) :=
  if String.eqb url "http://example.org/a.png"
  then requests_get (Builtins := Sample.builtins) url
  else Ok (200, "", "another payload").

Lemma handlers_only_fetch_given_urls_witness :
  same_run
    (Api.api_operation (np := Sample.numpy) (pil := Sample.pillow)
       (py := Sample.builtins) fetch_request)
    (Api.api_operation (np := Sample.numpy) (pil := Sample.pillow)
       (py := with_network (py := Sample.builtins) other_network) fetch_request) /\
  same_run
    (Api.api_operations (np := Sample.numpy) (pil := Sample.pillow)
       (py := Sample.builtins) fetch_batch)
    (Api.api_operations (np := Sample.numpy) (pil := Sample.pillow)
       (py := with_network (py := Sample.builtins) other_network) fetch_batch).
Proof.
  apply (handlers_only_fetch_given_urls (np := Sample.numpy) (pil := Sample.pillow)
           (py := Sample.builtins) fetch_request fetch_batch other_network).
  intros name url Hin. simpl in Hin.
  destruct Hin as [H|[H|[]]]; injection H as _ <-; reflexivity.
Defined.

(** ** [POST /operations] and [do_operation] *)

Section MultiFacts.
Import Engine Api.
Context `{np : Numpy} `{pil : Pillow} `{py : Builtins}.

Lemma apply_operations_intermediate (ops : list Operation) (op : Operation) (fmt : string)
    (convert : Session) (output_files : list string) (w : Server) :
  In op ops -> output_format op = Some fmt ->
  is_ok (outcome (apply_operations ops convert output_files w)) = false.
Proof.
  intros Hin Hfmt. revert convert output_files.
  induction ops as [|op' ops IH]; intros convert output_files; [destruct Hin|].
  cbn [apply_operations]. unfold outcome, bind at 1, in_session at 1.
  destruct (do_operation (action op') (channels op') (params op') convert)
    as [[[]|e] convert1]; [|reflexivity].
  destruct (output_format op') as [fmt'|] eqn:Hfmt'.
  - unfold bind at 1, in_session at 1.
    destruct (save_image fmt' convert1) as [[[im container]|e] convert2]; [|reflexivity].
    unfold bind at 1, lift at 1.
    destruct (pil_encode im container) as [buffer|e]; reflexivity.
  - destruct Hin as [->|Hin]; [congruence|]. apply (IH Hin).
Qed.

(** X13.  A request to [POST /operations] with at least one input and with
    an operation that names an output format is never answered with a
    result: when nothing raises before, the handler reaches the call
    [encode_output(temp_handle.getvalue(), op.output_format)], which passes
    two arguments to a function of one. *)
Theorem operations_with_intermediate_format_never_answer
    (data : MultiOperation) (first : string * string) (more : list (string * string))
    (op : Operation) (fmt : string) (w : Server) :
  multi_input data = first :: more ->
  In op (operations data) ->
  output_format op = Some fmt ->
  is_ok (outcome (api_operations data w)) = false.
Proof.
  intros Hinput Hin Hfmt. unfold api_operations. rewrite Hinput.
  destruct first as [input_name input_data]. cbn [process_all].
  unfold outcome, bind at 1, render_all.
  unfold bind at 1.
  destruct (parse_file input_data w) as [[raw|e] w1]; [|reflexivity].
  unfold bind at 1, lift at 1.
  destruct (pil_decode raw) as [input_handle|e]; [|reflexivity].
  unfold bind at 1, lift at 1.
  destruct (__init__ input_handle (multi_auto_clamp data) false) as [convert|e];
    [|reflexivity].
  unfold bind at 1.
  pose proof (apply_operations_intermediate (operations data) op fmt (new convert) [] w1
                Hin Hfmt) as Hnever.
  unfold outcome in Hnever.
  destruct (apply_operations (operations data) (new convert) [] w1) as [[[]|e] w2];
    [discriminate|reflexivity].
Qed.

(** X14.  For every request to [POST /operations] whose first input has a
    data spec made of a type prefix that starts with [file:], one comma and
    a payload without a comma, whatever operations it lists (none of them is
    looked at before), the handler raises the HTTP exception 403 and the
    state of the server is what it was. *)
Theorem operations_file_prefix_is_forbidden
    (data : MultiOperation) (input_name content_type payload : string)
    (more : list (string * string)) (w : Server) :
  multi_input data = (input_name, content_type ++ String "," payload) :: more ->
  startswith content_type "file:" = true ->
  str_in "," content_type = false ->
  str_in "," payload = false ->
  api_operations data w = (Raise forbidden, w) /\
  status_code_of (outcome (api_operations data w)) = 403.
Proof.
  intros Hinput Hfile Hc Hp.
  assert (E : api_operations data w = (Raise forbidden, w)).
  { unfold api_operations. rewrite Hinput. cbn [process_all].
    unfold bind at 1, render_all. unfold bind at 1.
    rewrite (parse_file_forbidden content_type payload w Hc Hp Hfile). reflexivity. }
  rewrite E. split; reflexivity.
Qed.

Lemma collect_cons {X Y} (f : X -> result Y) (x : X) (l : list X) (ys : list Y) :
  collect f (x :: l) = Ok ys -> exists y ys', f x = Ok y /\ ys = y :: ys'.
Proof.
  cbn [collect]. destruct (f x) as [y|e]; [|discriminate].
  destruct (collect f l) as [ys'|e]; [|discriminate].
  intros [= <-]. eauto.
Qed.

(** X15.  [do_operation] with the operation clamp or threshold, at least one
    channel and at least one entry in [params], never returns, whatever the
    session and the entries.  It zips the channels with the parameter
    tuples, so [clamp] receives pairs where it unpacks triples, and
    [threshold] receives the whole tuple as the threshold, which is no key of
    the keyword table. *)
Theorem do_operation_clamp_threshold_never_return
    (channel : string) (more : list string) (p : json) (ps : list json) (s : Session) :
  is_ok (outcome (do_operation "clamp" (channel :: more) (Some (p :: ps)) s)) = false /\
  is_ok (outcome (do_operation "threshold" (channel :: more) (Some (p :: ps)) s)) = false.
Proof.
  split.
  - unfold do_operation.
    change (String.eqb "clamp" "invert") with false.
    change (String.eqb "clamp" "offset") with false.
    change (String.eqb "clamp" "scale") with false.
    change (String.eqb "clamp" "clamp") with true. cbv iota.
    unfold outcome, bind at 1, lift at 1, iterate.
    unfold bind at 1, lift at 1.
    match goal with
    | |- context [collect ?f (p :: ps)] =>
        destruct (collect f (p :: ps)) as [triples|e] eqn:E; [|reflexivity];
        destruct (collect_cons f p ps triples E) as (t & ts & _ & ->)
    end.
    reflexivity.
  - unfold do_operation.
    change (String.eqb "threshold" "invert") with false.
    change (String.eqb "threshold" "offset") with false.
    change (String.eqb "threshold" "scale") with false.
    change (String.eqb "threshold" "clamp") with false.
    change (String.eqb "threshold" "threshold") with true. cbv iota.
    unfold outcome, bind at 1, lift at 1, iterate.
    unfold bind at 1, lift at 1.
    match goal with
    | |- context [collect ?f (p :: ps)] =>
        destruct (collect f (p :: ps)) as [pairs|e] eqn:E; [|reflexivity];
        destruct (collect_cons f p ps pairs E) as (t & ts & Ht & ->)
    end.
    assert (Htuple : exists items, t = PyTuple items).
    { cbv beta in Ht. destruct (unpack 2 p) as [[|a [|b [|? ?]]]|e']; try discriminate.
      destruct (number_or_keyword b); [|discriminate].
      injection Ht as <-. eauto. }
    destruct Htuple as (items & ->).
    cbn [combine]. unfold threshold. cbn [for_each].
    unfold bind at 1. unfold bind at 1.
    destruct (_pre channel s) as [[[v c]|e] s1]; [|reflexivity].
    unfold bind at 1, lift at 1, dict_get.
    destruct (hashable (PyTuple items)); reflexivity.
Qed.

Lemma apply_operations_plain (ops : list Operation) (convert : Session)
    (output_files : list string) (w : Server) :
  Forall (fun op => output_format op = None) ops ->
  apply_operations ops convert output_files w
  = match for_each ops (fun op => do_operation (action op) (channels op) (params op))
            convert with
    | (Ok _, convert') => (Ok (convert', output_files), w)
    | (Raise e, _) => (Raise e, w)
    end.
Proof.
  intros Hplain. revert convert.
  induction Hplain as [|op ops Hop _ IH]; intros convert; [reflexivity|].
  cbn [apply_operations for_each]. unfold bind, in_session.
  destruct (do_operation (action op) (channels op) (params op) convert)
    as [[[]|e] convert1]; [|reflexivity].
  rewrite Hop. apply IH.
Qed.

(** X16.  A request to [POST /operations] with one input, given as a
    base64 data spec of a supported image type that decodes to an image of
    a supported mode, and with operations none of which names an output
    format.  When the operations, made one after the other on the same
    engine object, and the save in the default format return, and the codec
    encodes the saved image, the handler answers: it maps the name of the
    input to a list of one text, the encoding of that saved image after the
    operations, base64-encoded behind the label [data:image/png;base64,]
    (the label does not depend on the container format); the server is as it
    was. *)
Theorem operations_answer_with_the_final_image
    (data : MultiOperation) (input_name payload raw : string) (image : Image)
    (o : ColorspaceModifier) (saved : Image) (fmt : option string) (s' : Session)
    (buffer : bytes) (w : Server) :
  multi_input data = [(input_name, "data:image/png;base64" ++ String "," payload)] ->
  str_in "," payload = false ->
  str_mem "image/png" (map snd SUPPORTED_IMAGE_TYPES) = true ->
  b64decode payload = Ok raw ->
  pil_decode raw = Ok image ->
  __init__ image (multi_auto_clamp data) false = Ok o ->
  Forall (fun op => output_format op = None) (operations data) ->
  (for_each (operations data)
     (fun op => do_operation (action op) (channels op) (params op)) ;;
   save_image "default") (new o) = (Ok (saved, fmt), s') ->
  pil_encode saved fmt = Ok buffer ->
  api_operations data w = (Ok (<[input_name := [encode_output buffer]]> ∅), w).
Proof.
  intros Hinput Hp Hmime Hraw Himage Hinit Hplain Hrun Hencode.
  unfold api_operations. rewrite Hinput. cbn [process_all].
  unfold bind at 1, render_all. unfold bind at 1.
  rewrite (parse_file_png payload raw w Hp Hmime Hraw).
  unfold bind at 1, lift at 1. rewrite Himage.
  unfold bind at 1, lift at 1. rewrite Hinit.
  unfold bind at 1. rewrite (apply_operations_plain _ _ _ _ Hplain).
  revert Hrun. unfold bind at 1.
  destruct (for_each (operations data) _ (new o)) as [[[]|e] s1]; [|discriminate].
  intros Hsave.
  unfold bind at 1, in_session at 1. rewrite Hsave.
  unfold bind at 1, lift at 1. rewrite Hencode.
  reflexivity.
Qed.

End MultiFacts.

(** Requests to [POST /operations] on the red pixel: one invert of red,
    which may name an output format, and a request for a local file. *)
Definition invert_red_step (fmt : option string) : Api.Operation :=
  {| Api.auto_clamp := false;
     Api.action := "invert";
     Api.channels := ["r"];
     Api.params := None;
     Api.input := None;
     Api.output_format := fmt |}.

Definition red_pixel_batch (fmt : option string) : Api.MultiOperation :=
  {| Api.multi_auto_clamp := false;
     Api.operations := [invert_red_step fmt];
     Api.multi_input := [("img", red_pixel_spec)];
     Api.multi_output_format := "default" |}.

Definition passwd_batch : Api.MultiOperation :=
  {| Api.multi_auto_clamp := false;
     Api.operations := [invert_red_step None];
     Api.multi_input := [("img", "file:/etc/passwd" ++ String "," "x")];
     Api.multi_output_format := "default" |}.

Lemma operations_with_intermediate_format_never_answer_witness :
  is_ok (outcome (Api.api_operations (np := Sample.numpy) (pil := Sample.pillow)
                    (py := Sample.builtins) (red_pixel_batch (Some "RGB")) idle_server))
  = false.
Proof.
  apply (operations_with_intermediate_format_never_answer (np := Sample.numpy)
           (pil := Sample.pillow) (py := Sample.builtins)
           (red_pixel_batch (Some "RGB")) ("img", red_pixel_spec) []
           (invert_red_step (Some "RGB")) "RGB" idle_server).
  - reflexivity.
  - left. reflexivity.
  - reflexivity.
Defined.

Lemma operations_file_prefix_is_forbidden_witness :
  Api.api_operations (np := Sample.numpy) (pil := Sample.pillow) (py := Sample.builtins)
    passwd_batch idle_server = (Raise forbidden, idle_server) /\
  Api.status_code_of
    (outcome (Api.api_operations (np := Sample.numpy) (pil := Sample.pillow)
                (py := Sample.builtins) passwd_batch idle_server)) = 403.
Proof.
  apply (operations_file_prefix_is_forbidden (np := Sample.numpy) (pil := Sample.pillow)
           (py := Sample.builtins) passwd_batch "img" "file:/etc/passwd" "x" []
           idle_server); reflexivity.
Defined.

(** The red pixel with its red channel inverted is the black pixel. *)
Lemma operations_answer_with_the_final_image_witness :
  Api.api_operations (np := Sample.numpy) (pil := Sample.pillow) (py := Sample.builtins)
    (red_pixel_batch None) idle_server
  = (Ok (<["img" := [Api.encode_output (py := Sample.builtins)
                       (Sample.png Sample.black_pixel)]]> ∅), idle_server).
Proof.
  set (run := (for_each [invert_red_step None]
                 (fun op => Api.do_operation (np := Sample.numpy) (pil := Sample.pillow)
                              (py := Sample.builtins)
                              (Api.action op) (Api.channels op) (Api.params op)) ;;
               Engine.save_image (pil := Sample.pillow) "default")).
  apply (operations_answer_with_the_final_image (np := Sample.numpy)
           (pil := Sample.pillow) (py := Sample.builtins)
           (red_pixel_batch None) "img"
           (Sample.png Sample.red_pixel) (Sample.png Sample.red_pixel) Sample.red_pixel
           {| Engine._image_handle := Sample.red_pixel;
              Engine._loaded_channels := None;
              Engine._auto_clamp := false;
              Engine._debug := false;
              Engine._image_format := Some "PNG";
              Engine._current_format := "RGB";
              Engine._output_format := "RGB" |}
           {| im_format := None; im_mode := "RGB"; im_bands := [[0]; [0]; [0]] |}
           (Some "PNG")
           (state_after (run (Engine.new
              {| Engine._image_handle := Sample.red_pixel;
                 Engine._loaded_channels := None;
                 Engine._auto_clamp := false;
                 Engine._debug := false;
                 Engine._image_format := Some "PNG";
                 Engine._current_format := "RGB";
                 Engine._output_format := "RGB" |})))
           (Sample.png Sample.black_pixel) idle_server).
  - reflexivity.
  - vm_compute. reflexivity.
  - reflexivity.
  - reflexivity.
  - vm_compute. reflexivity.
  - reflexivity.
  - repeat constructor.
  - vm_compute. reflexivity.
  - vm_compute. reflexivity.
Defined.

(** * Further properties of the legacy tool *)

Section LegacyMethods.
Import Legacy.
Context `{pil : Pillow} `{py : Builtins} `{cs : Colorsys}.

(** An operation code without the bit of [OFFSET] has neither all the bits of
    [MIN] nor all the bits of [MAX]. *)
Lemma clamp_bits_need_offset (operation : Z) :
  Z.land operation OFFSET <> OFFSET ->
  (Z.land operation MIN =? MIN)%Z = false /\ (Z.land operation MAX =? MAX)%Z = false.
Proof.
  intros Hoff. split; apply Z.eqb_neq; intros E; apply Hoff.
  - change OFFSET with (Z.land MIN OFFSET). rewrite Z.land_assoc, E. reflexivity.
  - change OFFSET with (Z.land MAX OFFSET). rewrite Z.land_assoc, E. reflexivity.
Qed.

Lemma transform_pixels_keeps_trace (method : value_method) (channel : Z)
    (values : list (list float)) (ed : Editor) :
  trace (state_after (transform_pixels method channel values ed)) = trace ed.
Proof.
  unfold transform_pixels, state_after, bind, lift, gets, set_pixels, modify.
  destruct (get_colorspace channel) as [colorspace_|e]; [|reflexivity]. simpl.
  destruct (getmodebands (current_mode ed)) as [bands|e]; [|reflexivity]. simpl.
  destruct (transform_each _ [] (current_image ed)) as [[[]|e] pixels']; reflexivity.
Qed.

(** X17.  Whatever integer [perform_operation] is given as its operation
    code, the method it applies is the offset when the code has the bit of
    [OFFSET] (4), the invert when it has not and has the bits of [INVERT]
    (3), and otherwise it raises [NotImplementedException] with the editor
    untouched.  The tests for [MIN] (5) and [MAX] (6) come after the test
    for [OFFSET], whose bit both contain: the min clamp and the max clamp
    are never applied. *)
Theorem legacy_never_clamps (operation channel : Z) (x : float) (ed : Editor) :
  let run := perform_operation operation channel [x] ed in
  (Z.land operation OFFSET = OFFSET /\
   trace (state_after run) = (trace ed ++ [Transform offset_value channel x])%list) \/
  (Z.land operation OFFSET <> OFFSET /\ Z.land operation INVERT = INVERT /\
   trace (state_after run) = (trace ed ++ [Transform invert_value channel x])%list) \/
  (Z.land operation OFFSET <> OFFSET /\ Z.land operation INVERT <> INVERT /\
   run = (Raise NotImplementedException, ed)).
Proof.
  intros run. unfold run, perform_operation.
  destruct (Z.eqb_spec (Z.land operation OFFSET) OFFSET) as [Hoff|Hoff].
  - left. split; [exact Hoff|].
    unfold bind at 1, ret at 1. unfold bind at 1, emit at 1, modify at 1.
    rewrite transform_pixels_keeps_trace. reflexivity.
  - right. destruct (Z.eqb_spec (Z.land operation INVERT) INVERT) as [Hinv|Hinv].
    + left. split; [exact Hoff|]. split; [exact Hinv|].
      unfold bind at 1, ret at 1. unfold bind at 1, emit at 1, modify at 1.
      rewrite transform_pixels_keeps_trace. reflexivity.
    + right. split; [exact Hoff|]. split; [exact Hinv|].
      destruct (clamp_bits_need_offset operation Hoff) as [-> ->]. reflexivity.
Qed.

End LegacyMethods.

(** ** RGB images *)

Section LegacyRGB.
Import Legacy.
Context `{pil : Pillow} `{py : Builtins} `{cs : Colorsys}.

(** No pixel of an RGB image can be transformed: the normalized pixel has
    four components, which neither the transitions out of RGB nor the way
    back to three bytes take. *)
Lemma transform_pixel_RGB (bands : nat) (channel_colorspace : Z) (method : value_method)
    (channel : Z) (values : list (list float)) (pixel : list Z) :
  is_ok (transform_pixel RGB bands channel_colorspace method channel values pixel) = false.
Proof.
  unfold transform_pixel, normalize_colorspace.
  change (RGB =? RGBA)%Z with false. change (RGB =? RGB)%Z with true. cbv iota.
  destruct pixel as [|r [|g [|b [|a rest]]]]; try reflexivity.
  unfold colorspace, normalize_rgba.
  destruct (Z.eqb_spec RGB channel_colorspace) as [<-|Hne].
  - unfold same_colorspace.
    destruct (channel_ method channel values _) as [pixel_color|e] eqn:E; [|reflexivity].
    unfold channel_ in E.
    destruct (get_starting_channel channel) as [start|e]; [|discriminate].
    destruct (_ !! _) as [v|]; [|discriminate].
    destruct (call_value_method method values v) as [v'|e]; [|discriminate].
    injection E as <-.
    unfold denormalize_colorspace.
    change (RGB =? RGBA)%Z with false. change (RGB =? RGB)%Z with true. cbv iota.
    destruct (Z.to_nat (channel - start)) as [|[|[|[|n]]]]; reflexivity.
  - unfold colorspace_transitions. change (RGB =? RGB)%Z with true. cbv iota.
    destruct (channel_colorspace =? HSV)%Z; reflexivity.
Qed.

(** The editor is on an RGB image of at least one pixel, with the files
    [disk] and the channels [chans] to operate on. *)
Definition on_RGB (disk : filesystem) (chans : list (Z * float)) (ed : Editor) : Prop :=
  files ed = disk /\ channels ed = chans /\ current_format ed = RGB /\
  current_image ed <> [].

Lemma transform_pixels_RGB disk chans (method : value_method) (channel : Z)
    (values : list (list float)) (ed : Editor) :
  on_RGB disk chans ed ->
  is_ok (outcome (transform_pixels method channel values ed)) = false /\
  on_RGB disk chans (state_after (transform_pixels method channel values ed)).
Proof.
  intros (Hfiles & Hchans & Hfmt & Hpix).
  unfold transform_pixels, outcome, state_after, bind, lift, gets, set_pixels, modify.
  destruct (get_colorspace channel) as [colorspace_|e]; [|repeat split; assumption].
  simpl.
  destruct (getmodebands (current_mode ed)) as [bands|e]; [|repeat split; assumption].
  simpl. rewrite Hfmt.
  destruct (current_image ed) as [|p rest] eqn:Himage; [contradiction|].
  cbn [transform_each].
  pose proof (transform_pixel_RGB bands colorspace_ method channel values p) as Hp.
  destruct (transform_pixel RGB bands colorspace_ method channel values p) as [p'|e];
    [discriminate|].
  simpl. split; [reflexivity|]. split; [exact Hfiles|]. split; [exact Hchans|].
  split; [exact Hfmt | discriminate].
Qed.

Lemma perform_operation_RGB disk chans (operation channel : Z) (x : float) (ed : Editor) :
  on_RGB disk chans ed ->
  is_ok (outcome (perform_operation operation channel [x] ed)) = false /\
  on_RGB disk chans (state_after (perform_operation operation channel [x] ed)).
Proof.
  intros Hed. unfold perform_operation.
  assert (Hrun : forall m,
             is_ok (outcome ((emit (Transform m channel x) ;;
                              transform_pixels m channel [[x]]) ed)) = false /\
             on_RGB disk chans (state_after ((emit (Transform m channel x) ;;
                                              transform_pixels m channel [[x]]) ed))).
  { intros m. unfold bind, emit, modify. simpl.
    apply transform_pixels_RGB. destruct Hed as (H1 & H2 & H3 & H4).
    repeat split; assumption. }
  destruct (Z.land operation OFFSET =? OFFSET)%Z; [apply Hrun|].
  destruct (Z.land operation INVERT =? INVERT)%Z; [apply Hrun|].
  destruct (Z.land operation MIN =? MIN)%Z; [apply Hrun|].
  destruct (Z.land operation MAX =? MAX)%Z; [apply Hrun|].
  split; [reflexivity | exact Hed].
Qed.

Lemma phase_on_RGB disk chans (test : Z -> bool) :
  maintains (on_RGB disk chans)
    (let* opts := gets options in
     for_each opts (fun '(option, entries) =>
       if test option then ret tt
       else for_each entries (fun '(channel, value) =>
              perform_operation option channel [value]))).
Proof.
  apply maintains_bind; [apply maintains_gets|]. intros opts.
  apply maintains_for_each. intros [option entries].
  apply maintains_if; [apply maintains_ret|].
  apply maintains_for_each. intros [channel value] ed Hed.
  apply perform_operation_RGB, Hed.
Qed.

(** X18.  The legacy tool accepts RGB images (their mode is a key of
    [string_to_format]) but cannot process them.  When the first input
    image opens as an RGB image of at least one pixel and there is at least
    one channel to operate on, [transform_images] raises before it saves
    anything, whatever the mode, the channels, the options and the images:
    the files are what they were. *)
Theorem legacy_RGB_image_is_never_saved
    (ed : Editor) (input_image : string) (outputs : list string)
    (more : list (string * list string)) (image : Image) :
  images ed = (input_image, outputs) :: more ->
  image_open (files ed) input_image = Ok image ->
  im_mode image = "RGB" ->
  pixels_of image <> [] ->
  channels ed <> [] ->
  is_ok (outcome (transform_images ed)) = false /\
  files (state_after (transform_images ed)) = files ed.
Proof.
  intros Himages Hopen Hmode Hpixels Hchannels.
  cut (exists e' ed', transform_images ed = (Raise e', ed') /\ files ed' = files ed).
  { intros (e' & ed' & -> & Hfiles). split; [reflexivity | exact Hfiles]. }
  unfold transform_images.
  unfold bind at 1, gets at 1. rewrite Himages. cbn [for_each].
  unfold bind at 1. unfold bind at 1, gets at 1.
  unfold bind at 1, lift at 1. rewrite Hopen.
  unfold bind at 1, emit at 1, modify at 1.
  unfold bind at 1, lift at 1. rewrite Hmode.
  change (dict_get string_to_format (PyStr "RGB")) with (@Ok Z RGB).
  unfold bind at 1, set_current at 1, modify at 1.
  match goal with
  | |- context [bind perform_pre_operations ?k ?e] =>
      set (ed1 := e);
      assert (Hbody : exists e' ed', bind perform_pre_operations k ed1 = (Raise e', ed') /\
                                     files ed' = files ed)
  end.
  { assert (H1 : on_RGB (files ed) (channels ed) ed1) by (repeat split; assumption).
    pose proof (phase_on_RGB (files ed) (channels ed)
                  (fun option => negb (Z.land option Channel.B =? Channel.B)%Z) ed1 H1)
      as H2.
    change (on_RGB (files ed) (channels ed) (snd (perform_pre_operations ed1))) in H2.
    unfold bind at 1.
    destruct (perform_pre_operations ed1) as [[[]|e] ed2]; simpl in H2;
      [|exists e, ed2; split; [reflexivity | exact (proj1 H2)]].
    destruct H2 as (Hfiles & Hchans & Hrest).
    assert (Hed2 : on_RGB (files ed) (channels ed2) ed2)
      by (split; [exact Hfiles|]; split; [reflexivity | exact Hrest]).
    unfold bind at 1. unfold perform_operations.
    unfold bind at 1, gets at 1. unfold bind at 1, gets at 1. rewrite Hchans.
    destruct (channels ed) as [|[channel value] chans]; [contradiction|].
    cbn [for_each]. unfold bind at 1.
    destruct (perform_operation_RGB (files ed) (channels ed2) (mode ed2) channel value
                ed2 Hed2) as [Hfail Hafter].
    unfold outcome, state_after in Hfail, Hafter.
    destruct (perform_operation (mode ed2) channel [value] ed2) as [[[]|e] ed3];
      [discriminate|].
    exists e, ed3. split; [reflexivity | exact (proj1 Hafter)]. }
  destruct Hbody as (e' & ed' & -> & Hfiles).
  exists e', ed'. split; [reflexivity | exact Hfiles].
Qed.

End LegacyRGB.

(** An invert of red on the two-pixel RGB image. *)
Lemma legacy_RGB_image_is_never_saved_witness :
  let disk : filesystem := {[ "in.png" := Sample.png Sample.two_pixels ]} in
  let ed := Legacy.editor Legacy.INVERT [(Legacy.Channel.R, 0%float)] []
              [("in.png", ["out.png"])] disk in
  is_ok (outcome (Legacy.transform_images (pil := Sample.pillow) (cs := Sample.colorsys)
                    ed)) = false /\
  Legacy.files (state_after (Legacy.transform_images (pil := Sample.pillow)
                               (cs := Sample.colorsys) ed)) = Legacy.files ed.
Proof.
  intros disk ed.
  apply (legacy_RGB_image_is_never_saved (pil := Sample.pillow) (cs := Sample.colorsys)
           ed "in.png" ["out.png"] [] Sample.two_pixels).
  - reflexivity.
  - vm_compute. reflexivity.
  - reflexivity.
  - vm_compute. discriminate.
  - vm_compute. discriminate.
Defined.

(** ** The legacy invert and the engine's *)

Section LegacyInvert.
Import Legacy.
Context `{np : Numpy} `{cs : Colorsys}.

(** [int((b / 255) * 255)] is [b], and [int((1 - b / 255) * 255)] is the
    byte that the engine stores when it inverts [b]. *)
Lemma legacy_bytes (b : Z) :
  is_byte b = true ->
  float_to_int (of_Z b / 255 * 255)%float = Ok b /\
  float_to_int ((1 - of_Z b / 255) * 255)%float = Ok (invert_byte false b).
Proof.
  intros Hb.
  assert (H : (match float_to_int (of_Z b / 255 * 255)%float with
               | Ok z => (z =? b)%Z
               | Raise _ => false
               end
               && match float_to_int ((1 - of_Z b / 255) * 255)%float with
                  | Ok z => (z =? invert_byte false b)%Z
                  | Raise _ => false
                  end) = true).
  { revert b Hb.
    apply (for_all_bytes
             (fun b => match float_to_int (of_Z b / 255 * 255)%float with
                       | Ok z => (z =? b)%Z
                       | Raise _ => false
                       end
                       && match float_to_int ((1 - of_Z b / 255) * 255)%float with
                          | Ok z => (z =? invert_byte false b)%Z
                          | Raise _ => false
                          end)).
    vm_compute. reflexivity. }
  apply andb_prop in H. destruct H as [H1 H2].
  destruct (float_to_int (of_Z b / 255 * 255)%float) as [z1|]; [|discriminate].
  destruct (float_to_int ((1 - of_Z b / 255) * 255)%float) as [z2|]; [|discriminate].
  apply Z.eqb_eq in H1, H2. subst. split; reflexivity.
Qed.

Lemma CLIP8_byte (b : Z) : is_byte b = true -> CLIP8 b = b.
Proof.
  unfold is_byte, CLIP8. intros [H0 H1]%andb_prop.
  apply Z.leb_le in H0. apply Z.leb_le in H1. lia.
Qed.

(** A byte fits every C integer type that Pillow converts to. *)
Lemma byte_fits (b : Z) : is_byte b = true -> fits 64 b = true /\ fits 32 b = true.
Proof.
  unfold is_byte, fits. intros [H0 H1]%andb_prop.
  apply Z.leb_le in H0. apply Z.leb_le in H1.
  change (2 ^ (64 - 1)) with 9223372036854775808.
  change (2 ^ (32 - 1)) with 2147483648.
  split; apply andb_true_intro; split;
    first [apply Z.leb_le | apply Z.ltb_lt]; lia.
Qed.

(** Four bytes are stored as they are. *)
Lemma put_pixel_bytes (r g b a : Z) :
  is_byte r = true -> is_byte g = true -> is_byte b = true -> is_byte a = true ->
  put_pixel 4 [r; g; b; a] = Ok [r; g; b; a].
Proof.
  intros Hr Hg Hb Ha. unfold put_pixel, fits_ink. cbn [length Nat.eqb forallb map].
  rewrite (proj1 (byte_fits r Hr)), (proj2 (byte_fits g Hg)),
    (proj2 (byte_fits b Hb)), (proj2 (byte_fits a Ha)).
  cbn [andb].
  rewrite (CLIP8_byte r Hr), (CLIP8_byte g Hg), (CLIP8_byte b Hb), (CLIP8_byte a Ha).
  reflexivity.
Qed.

(** X19.  On an RGBA pixel of four bytes, the legacy invert of a channel
    (normalize the pixel, replace the component by one minus it, multiply by
    255, truncate, store) returns, changes no other component, and puts in
    the channel the very byte that the engine stores when it inverts that
    byte without auto-clamp: the two implementations agree on every byte. *)
Theorem legacy_invert_is_the_engine_invert (r g b a : Z) (blank : float) :
  is_byte r = true -> is_byte g = true -> is_byte b = true -> is_byte a = true ->
  let run := fun channel =>
    transform_pixel RGBA 4 RGBA invert_value channel [[blank]] [r; g; b; a] in
  run Channel.R = Ok [invert_byte false r; g; b; a] /\
  run Channel.G = Ok [r; invert_byte false g; b; a] /\
  run Channel.B = Ok [r; g; invert_byte false b; a] /\
  run Channel.A = Ok [r; g; b; invert_byte false a].
Proof.
  intros Hr Hg Hb Ha run.
  destruct (legacy_bytes r Hr) as [Kr Ir]. destruct (legacy_bytes g Hg) as [Kg Ig].
  destruct (legacy_bytes b Hb) as [Kb Ib]. destruct (legacy_bytes a Ha) as [Ka Ia].
  pose proof (invert_byte_is_byte false r Hr) as Hr'.
  pose proof (invert_byte_is_byte false g Hg) as Hg'.
  pose proof (invert_byte_is_byte false b Hb) as Hb'.
  pose proof (invert_byte_is_byte false a Ha) as Ha'.
  assert (ER : forall x0 x1 x2 x3 : float,
             channel_ invert_value Channel.R [[blank]] [x0; x1; x2; x3]
             = Ok [(1 - x0)%float; x1; x2; x3]) by reflexivity.
  assert (EG : forall x0 x1 x2 x3 : float,
             channel_ invert_value Channel.G [[blank]] [x0; x1; x2; x3]
             = Ok [x0; (1 - x1)%float; x2; x3]) by reflexivity.
  assert (EB : forall x0 x1 x2 x3 : float,
             channel_ invert_value Channel.B [[blank]] [x0; x1; x2; x3]
             = Ok [x0; x1; (1 - x2)%float; x3]) by reflexivity.
  assert (EA : forall x0 x1 x2 x3 : float,
             channel_ invert_value Channel.A [[blank]] [x0; x1; x2; x3]
             = Ok [x0; x1; x2; (1 - x3)%float]) by reflexivity.
  unfold run, transform_pixel, normalize_colorspace, colorspace, same_colorspace,
    denormalize_colorspace, normalize_rgba, denormalize_rgba.
  change (RGBA =? RGBA)%Z with true. cbv iota.
  rewrite ER, EG, EB, EA. cbv iota. unfold float_to_int_number_space.
  rewrite Kr, Kg, Kb, Ka, Ir, Ig, Ib, Ia.
  rewrite !put_pixel_bytes by assumption.
  repeat split.
Qed.

End LegacyInvert.

Lemma legacy_invert_is_the_engine_invert_witness :
  let run := fun channel =>
    Legacy.transform_pixel (cs := Sample.colorsys) Legacy.RGBA 4 Legacy.RGBA
      Legacy.invert_value channel [[0%float]] [10; 20; 30; 255] in
  run Legacy.Channel.R = Ok [invert_byte (np := Sample.numpy) false 10; 20; 30; 255] /\
  run Legacy.Channel.G = Ok [10; invert_byte (np := Sample.numpy) false 20; 30; 255] /\
  run Legacy.Channel.B = Ok [10; 20; invert_byte (np := Sample.numpy) false 30; 255] /\
  run Legacy.Channel.A = Ok [10; 20; 30; invert_byte (np := Sample.numpy) false 255].
Proof.
  apply (legacy_invert_is_the_engine_invert (np := Sample.numpy) (cs := Sample.colorsys)
           10 20 30 255 0%float); reflexivity.
Defined.

(** ** Repeated options *)

Section LegacyOptions.
Import Legacy.
Context `{py : Builtins}.

Lemma lookup_store_key {V} (k : Z) (v : V) (d : list (Z * V)) :
  lookup_key k (store_key k v d) = Some v.
Proof.
  induction d as [|[k' v'] d IH]; cbn [store_key lookup_key].
  - rewrite Z.eqb_refl. reflexivity.
  - destruct (k =? k')%Z eqn:E; cbn [lookup_key]; rewrite ?Z.eqb_refl, ?E; auto.
Qed.

(** X20.  Take an option token that the check has accepted, of the form
    info, colon, value, with the value read as the float x.  Checked again
    against the dictionary that the first check returned, the same token
    ends the program with the exit status 1 (the duplicated option) when x is
    a number; when x is NaN the repetition is accepted, since a NaN is equal
    to no entry of the list. *)
Theorem legacy_repeated_option
    (input_option info value : string) (x : float) (d d' : option_dict) :
  split_on ":" input_option = [info; value] ->
  py_float value = Ok x ->
  check_option input_option d = Ok d' ->
  (is_nan x = false -> check_option input_option d' = Raise (SystemExit 1)) /\
  (is_nan x = true -> is_ok (check_option input_option d') = true).
Proof.
  intros Hsplit Hfloat. unfold check_option. rewrite Hsplit.
  destruct (String.get 0 info) as [c0|]; [|discriminate].
  destruct (String.get 1 info) as [c1|]; [|discriminate].
  destruct (negb (dict_has string_to_channel _)); [discriminate|].
  destruct (negb (dict_has string_to_option _)); [discriminate|].
  destruct (negb (dict_has string_to_option _)); [discriminate|].
  destruct (assoc _ string_to_channel) as [option_channel|]; [|discriminate].
  destruct (assoc _ string_to_option) as [option_time|]; [|discriminate].
  destruct (assoc _ string_to_option) as [option_operation|]; [|discriminate].
  rewrite Hfloat.
  set (option := Z.lor option_time option_operation).
  set (present := default [] (lookup_key option d)).
  set (same := fun '(c, y) => (c =? option_channel)%Z && (y =? x)%float).
  destruct (existsb same present) eqn:Hnew; [discriminate|].
  intros [= <-]. rewrite lookup_store_key. cbn [from_option id].
  rewrite existsb_app, Hnew. cbn [existsb orb same].
  rewrite Z.eqb_refl, orb_false_r. cbn [andb].
  unfold is_nan. split; intros Hx.
  - apply negb_false_iff in Hx. rewrite Hx. reflexivity.
  - apply negb_true_iff in Hx. rewrite Hx. reflexivity.
Qed.

End LegacyOptions.

(** The option [rbmin:0.5], given twice. *)
Lemma legacy_repeated_option_witness :
  (is_nan 0.5 = false ->
   Legacy.check_option (py := Sample.builtins) "rbmin:0.5"
     [(5, [(Legacy.Channel.R, 0.5%float)])] = Raise (SystemExit 1)) /\
  (is_nan 0.5 = true ->
   is_ok (Legacy.check_option (py := Sample.builtins) "rbmin:0.5"
            [(5, [(Legacy.Channel.R, 0.5%float)])]) = true).
Proof.
  apply (legacy_repeated_option (py := Sample.builtins) "rbmin:0.5" "rbmin" "0.5"
           0.5%float []); reflexivity.
Defined.

(** * What one [invert] stores *)

Section InvertOnce.
Import Engine.
Context `{np : Numpy} `{pil : Pillow}.

(** On every byte the engine's invert gives the complement or one less. *)
Lemma invert_byte_near_complement (auto : bool) (b : Z) :
  is_byte b = true ->
  invert_byte auto b = 255 - b \/ invert_byte auto b = 254 - b.
Proof.
  intros Hb.
  assert (H : ((invert_byte auto b =? 255 - b) || (invert_byte auto b =? 254 - b))%Z = true).
  { revert b Hb. destruct auto.
    - apply (for_all_bytes (fun b => (invert_byte true b =? 255 - b)
                                     || (invert_byte true b =? 254 - b))%Z).
      vm_compute. reflexivity.
    - apply (for_all_bytes (fun b => (invert_byte false b =? 255 - b)
                                     || (invert_byte false b =? 254 - b))%Z).
      vm_compute. reflexivity. }
  apply orb_prop in H. destruct H as [H|H]; apply Z.eqb_eq in H; auto.
Qed.

(** It reverses the order of the bytes. *)
Lemma invert_byte_antitone (auto : bool) (b1 b2 : Z) :
  is_byte b1 = true -> is_byte b2 = true -> b1 <= b2 ->
  invert_byte auto b2 <= invert_byte auto b1.
Proof.
  intros H1 H2 Hle.
  destruct (Z.eq_dec b1 b2) as [->|Hne]; [lia|].
  destruct (invert_byte_near_complement auto b1 H1) as [E1|E1];
    destruct (invert_byte_near_complement auto b2 H2) as [E2|E2]; lia.
Qed.

(** It is not one-to-one: 43 and 44 are both stored as 211. *)
Lemma invert_byte_merges (auto : bool) :
  invert_byte auto 43 = 211 /\ invert_byte auto 44 = 211.
Proof. destruct auto; vm_compute; split; reflexivity. Qed.

(** X21.  Take a channel that [_pre] can read, in a session whose planes
    hold bytes.  [invert] on it returns and replaces the plane of the
    channel, byte by byte, by a function of the byte alone, leaving the other
    planes as they are.  Every new byte is the complement 255 - b of the old
    one or one less, and a larger byte never gives a larger result; the
    function is not one-to-one (see [invert_byte_merges]), so an invert
    cannot always be undone. *)
Theorem invert_stores_the_complement_or_one_less
    (channel c : string) (s s1 : Session) (v : list float) :
  _pre channel s = (Ok (v, c), s1) ->
  Forall (Forall (fun b => is_byte b = true)) (planes s1) ->
  exists ix band s2,
    planes s1 !! ix = Some band /\
    invert [channel] s = (Ok tt, s2) /\
    planes s2 = <[ix := map (invert_byte (_auto_clamp (self s))) band]> (planes s1) /\
    Forall (fun b => invert_byte (_auto_clamp (self s)) b = 255 - b \/
                     invert_byte (_auto_clamp (self s)) b = 254 - b) band /\
    (forall b1 b2, In b1 band -> In b2 band -> b1 <= b2 ->
       invert_byte (_auto_clamp (self s)) b2 <= invert_byte (_auto_clamp (self s)) b1).
Proof.
  intros Hpre Hbytes.
  destruct (_post_after__pre channel c s s1 v Hpre) as (ix & band & Hband & -> & Hpost).
  pose proof (Forall_lookup_1 _ _ _ _ Hbytes Hband) as Hb.
  exists ix, band. eexists. split; [exact Hband|]. split; [|split; [|split]].
  - unfold invert, for_each. unfold bind at 1. unfold bind at 1. rewrite Hpre.
    rewrite Hpost. reflexivity.
  - rewrite stored_planes, invert_plane. reflexivity.
  - eapply Forall_impl; [exact Hb|]. intros b. apply invert_byte_near_complement.
  - intros b1 b2 H1 H2 Hle. rewrite List.Forall_forall in Hb.
    apply invert_byte_antitone; [apply Hb, H1 | apply Hb, H2 | exact Hle].
Qed.

End InvertOnce.

(** The red plane 0, 255 of the two-pixel image. *)
Lemma invert_stores_the_complement_or_one_less_witness :
  exists ix band s2,
    planes (materialized two_pixel_session) !! ix = Some band /\
    Engine.invert (np := Sample.numpy) (pil := Sample.pillow) ["r"] two_pixel_session
    = (Ok tt, s2) /\
    planes s2 = <[ix := map (invert_byte (np := Sample.numpy) true) band]>
                  (planes (materialized two_pixel_session)) /\
    Forall (fun b => invert_byte (np := Sample.numpy) true b = 255 - b \/
                     invert_byte (np := Sample.numpy) true b = 254 - b) band /\
    (forall b1 b2, In b1 band -> In b2 band -> b1 <= b2 ->
       invert_byte (np := Sample.numpy) true b2 <= invert_byte (np := Sample.numpy) true b1).
Proof.
  apply (invert_stores_the_complement_or_one_less (np := Sample.numpy)
           (pil := Sample.pillow) "r" "R" two_pixel_session
           (materialized two_pixel_session) (map normalize [0; 255])).
  - vm_compute. reflexivity.
  - repeat constructor.
Defined.

(** * The legacy offset *)

Section LegacyOffset.
Import Legacy.
Context `{cs : Colorsys}.

Lemma legacy_keeps_byte (b : Z) :
  is_byte b = true -> float_to_int (of_Z b / 255 * 255)%float = Ok b.
Proof.
  intros Hb.
  assert (H : match float_to_int (of_Z b / 255 * 255)%float with
              | Ok z => (z =? b)%Z
              | Raise _ => false
              end = true).
  { revert b Hb.
    apply (for_all_bytes
             (fun b => match float_to_int (of_Z b / 255 * 255)%float with
                       | Ok z => (z =? b)%Z
                       | Raise _ => false
                       end)).
    vm_compute. reflexivity. }
  destruct (float_to_int (of_Z b / 255 * 255)%float) as [z|]; [|discriminate].
  apply Z.eqb_eq in H. subst. reflexivity.
Qed.

Lemma CLIP8_is_byte (z : Z) : is_byte (CLIP8 z) = true.
Proof.
  unfold is_byte, CLIP8. apply andb_true_intro. split; apply Z.leb_le; lia.
Qed.

(** X22.  On an RGBA pixel of four bytes and for every offset x, the legacy
    offset of a channel computes int((b / 255 + x) * 255) for the byte b of
    that channel.  When that integer fits the C integer that Pillow converts
    the component to (64 bits for red, the first component; 32 bits for
    green, blue and alpha), it is stored clipped to 0..255: a value out of
    the byte range saturates, it does not wrap around; the other three
    components are unchanged.  When it does not fit, the assignment raises
    [OverflowError]; and when the number is NaN or infinite, [int] raises
    before that. *)
Theorem legacy_offset_saturates (r g b a : Z) (x : float) :
  is_byte r = true -> is_byte g = true -> is_byte b = true -> is_byte a = true ->
  let run := fun channel =>
    transform_pixel RGBA 4 RGBA offset_value channel [[x]] [r; g; b; a] in
  let shifted := fun c => float_to_int ((of_Z c / 255 + x) * 255)%float in
  let stores := fun (channel bits c : Z) (stored : Z -> list Z) =>
    match shifted c with
    | Raise e => run channel = Raise e
    | Ok z =>
        if fits bits z
        then run channel = Ok (stored (CLIP8 z)) /\ is_byte (CLIP8 z) = true
        else exists msg, run channel = Raise (OverflowError msg)
    end in
  stores Channel.R 64 r (fun z => [z; g; b; a]) /\
  stores Channel.G 32 g (fun z => [r; z; b; a]) /\
  stores Channel.B 32 b (fun z => [r; g; z; a]) /\
  stores Channel.A 32 a (fun z => [r; g; b; z]).
Proof.
  intros Hr Hg Hb Ha run shifted stores.
  pose proof (legacy_keeps_byte r Hr) as Kr. pose proof (legacy_keeps_byte g Hg) as Kg.
  pose proof (legacy_keeps_byte b Hb) as Kb. pose proof (legacy_keeps_byte a Ha) as Ka.
  destruct (byte_fits r Hr) as [Fr _]. destruct (byte_fits g Hg) as [_ Fg].
  destruct (byte_fits b Hb) as [_ Fb]. destruct (byte_fits a Ha) as [_ Fa].
  assert (ER : forall x0 x1 x2 x3 : float,
             channel_ offset_value Channel.R [[x]] [x0; x1; x2; x3]
             = Ok [(x0 + x)%float; x1; x2; x3]) by reflexivity.
  assert (EG : forall x0 x1 x2 x3 : float,
             channel_ offset_value Channel.G [[x]] [x0; x1; x2; x3]
             = Ok [x0; (x1 + x)%float; x2; x3]) by reflexivity.
  assert (EB : forall x0 x1 x2 x3 : float,
             channel_ offset_value Channel.B [[x]] [x0; x1; x2; x3]
             = Ok [x0; x1; (x2 + x)%float; x3]) by reflexivity.
  assert (EA : forall x0 x1 x2 x3 : float,
             channel_ offset_value Channel.A [[x]] [x0; x1; x2; x3]
             = Ok [x0; x1; x2; (x3 + x)%float]) by reflexivity.
  unfold stores, run, shifted, transform_pixel, normalize_colorspace, colorspace,
    same_colorspace, denormalize_colorspace, normalize_rgba, denormalize_rgba, put_pixel,
    fits_ink.
  change (RGBA =? RGBA)%Z with true. cbv iota.
  rewrite ER, EG, EB, EA. cbv iota. unfold float_to_int_number_space.
  rewrite Kr, Kg, Kb, Ka.
  split; [|split; [|split]].
  - destruct (float_to_int ((of_Z r / 255 + x) * 255)%float) as [z|e]; [|reflexivity].
    cbn [length Nat.eqb map forallb]. rewrite Fg, Fb, Fa. cbn [andb].
    rewrite Bool.andb_true_r.
    destruct (fits 64 z); [|eexists; reflexivity].
    rewrite (CLIP8_byte g Hg), (CLIP8_byte b Hb), (CLIP8_byte a Ha).
    split; [reflexivity | apply CLIP8_is_byte].
  - destruct (float_to_int ((of_Z g / 255 + x) * 255)%float) as [z|e]; [|reflexivity].
    cbn [length Nat.eqb map forallb]. rewrite Fr, Fb, Fa. cbn [andb].
    rewrite Bool.andb_true_r.
    destruct (fits 32 z); [|eexists; reflexivity].
    rewrite (CLIP8_byte r Hr), (CLIP8_byte b Hb), (CLIP8_byte a Ha).
    split; [reflexivity | apply CLIP8_is_byte].
  - destruct (float_to_int ((of_Z b / 255 + x) * 255)%float) as [z|e]; [|reflexivity].
    cbn [length Nat.eqb map forallb]. rewrite Fr, Fg, Fa. cbn [andb].
    rewrite Bool.andb_true_r.
    destruct (fits 32 z); [|eexists; reflexivity].
    rewrite (CLIP8_byte r Hr), (CLIP8_byte g Hg), (CLIP8_byte a Ha).
    split; [reflexivity | apply CLIP8_is_byte].
  - destruct (float_to_int ((of_Z a / 255 + x) * 255)%float) as [z|e]; [|reflexivity].
    cbn [length Nat.eqb map forallb]. rewrite Fr, Fg, Fb. cbn [andb].
    destruct (fits 32 z); [|eexists; reflexivity].
    rewrite (CLIP8_byte r Hr), (CLIP8_byte g Hg), (CLIP8_byte b Hb).
    split; [reflexivity | apply CLIP8_is_byte].
Qed.

End LegacyOffset.

(** An offset of one half on the pixel 200, 20, 30, 255: red saturates at
    255, green and blue become 147 and 157. *)
Lemma legacy_offset_saturates_witness :
  let run := fun channel =>
    Legacy.transform_pixel (cs := Sample.colorsys) Legacy.RGBA 4 Legacy.RGBA
      Legacy.offset_value channel [[0.5%float]] [200; 20; 30; 255] in
  let shifted := fun c => Legacy.float_to_int ((of_Z c / 255 + 0.5) * 255)%float in
  let stores := fun (channel bits c : Z) (stored : Z -> list Z) =>
    match shifted c with
    | Raise e => run channel = Raise e
    | Ok z =>
        if Legacy.fits bits z
        then run channel = Ok (stored (Legacy.CLIP8 z)) /\
             is_byte (Legacy.CLIP8 z) = true
        else exists msg, run channel = Raise (OverflowError msg)
    end in
  stores Legacy.Channel.R 64 200 (fun z => [z; 20; 30; 255]) /\
  stores Legacy.Channel.G 32 20 (fun z => [200; z; 30; 255]) /\
  stores Legacy.Channel.B 32 30 (fun z => [200; 20; z; 255]) /\
  stores Legacy.Channel.A 32 255 (fun z => [200; 20; 30; z]).
Proof.
  apply (legacy_offset_saturates (cs := Sample.colorsys) 200 20 30 255 0.5%float);
    reflexivity.
Defined.

(** The same pixel under offsets that leave the byte range or the C
    integers: one half gives 255, 147, 157 and 255 in the four channels;
    the offset 2^40 takes red to an integer of 48 bits, which saturates at
    255, and green to the same integer, which an [int] does not hold; the
    offset 2^56 overflows the [long long] of red as well. *)
Lemma legacy_offset_examples :
  let run := fun x channel =>
    Legacy.transform_pixel (cs := Sample.colorsys) Legacy.RGBA 4 Legacy.RGBA
      Legacy.offset_value channel [[x]] [200; 20; 30; 255] in
  let big := (1099511627776)%float in
  let huge := (72057594037927936)%float in
  run 0.5%float Legacy.Channel.R = Ok [255; 20; 30; 255] /\
  run 0.5%float Legacy.Channel.G = Ok [200; 147; 30; 255] /\
  run 0.5%float Legacy.Channel.B = Ok [200; 20; 157; 255] /\
  run (-0.5)%float Legacy.Channel.G = Ok [200; 0; 30; 255] /\
  run big Legacy.Channel.R = Ok [255; 20; 30; 255] /\
  is_ok (run big Legacy.Channel.G) = false /\
  is_ok (run huge Legacy.Channel.R) = false /\
  is_ok (run infinity Legacy.Channel.R) = false /\
  is_ok (run nan Legacy.Channel.R) = false.
Proof. vm_compute. repeat split. Qed.
